(** * GENESIS autonomous agent: a shallow embedding of the core and its properties

    The development follows the TypeScript sources module by module:
    the shared types, the decision engine, the autonomy loop controller,
    the transaction submitter, the agent coordinator, the agent factory,
    the task executor and the durable store; then the wallet manager with
    its encryption, the configuration loader and the controller's actions.

    Modelling conventions.
    - A JavaScript [number] that carries a weight, a score or a rate is an
      exact rational ([Q]); [==] is numeric equality.  Counters and
      millisecond timestamps are integers.
    - [Math.random()], [randomBytes] and [Date.now()] are inputs of the
      function that calls them.
    - A call that can throw returns a [Result]; [undefined] is [None].
    - The logger never throws and its output is not part of the model. *)

From Stdlib Require Import ZArith QArith Qminmax Qround Qabs Lqa Lia.
From Stdlib Require Import Ascii String.
From stdpp Require Import base option list strings pretty gmap.

Open Scope Q_scope.

(** ** JavaScript numbers and strings *)

Module Js.

Definition Math_min (a b : Q) : Q := Qmin a b.
Definition Math_max (a b : Q) : Q := Qmax a b.
Definition Math_floor (x : Q) : Z := Qfloor x.

(** [Math.min(...values)] over a spread array; [None] stands for the
    [Infinity] that JavaScript returns for an empty argument list. *)
Definition Math_min_spread (values : list nat) : option nat :=
  match values with
  | [] => None
  | v :: vs => Some (foldl Nat.min v vs)
  end.

(** [s.padStart(n, "0")] *)
Fixpoint padStart0 (n : nat) (s : string) : string :=
  match n with
  | O => s
  | S n' => if decide (String.length s ≤ n')%nat then padStart0 n' ("0" +:+ s) else s
  end.

(** [x.toFixed(digits)]: the magnitude is rounded half up at the given
    digit, and a negative argument keeps its sign. *)
Definition toFixed (digits : nat) (x : Q) : string :=
  let scale := (10 ^ Z.of_nat digits)%Z in
  let n := Qfloor (Qabs x * inject_Z scale + (1 # 2)) in
  let sign := if Qlt_le_dec x 0 then "-" else "" in
  let int_part := pretty (n / scale)%Z in
  match digits with
  | O => sign +:+ int_part
  | _ => sign +:+ int_part +:+ "." +:+ padStart0 digits (pretty (n mod scale)%Z)
  end.

(** [s.substring(0, n)] *)
Definition substring0 (n : nat) (s : string) : string := String.substring 0 n s.

(** A lower-case hexadecimal digit by its character code, its reading back,
    and [buf.toString('hex')]. *)
Definition hexDigit (n : N) : ascii :=
  ascii_of_N (if (n <? 10)%N then 48 + n else 87 + n).

Definition hexValue (c : ascii) : option N :=
  let code := N_of_ascii c in
  if (48 <=? code)%N && (code <=? 57)%N then Some (code - 48)%N
  else if (97 <=? code)%N && (code <=? 102)%N then Some (code - 87)%N
  else None.

Fixpoint toHex (buf : list Byte.byte) : string :=
  match buf with
  | [] => ""
  | b :: rest =>
      String (hexDigit (Byte.to_N b / 16)) (String (hexDigit (Byte.to_N b mod 16)) (toHex rest))
  end.

(** The inverse reading of [toHex], used to show that distinct random
    buffers give distinct identifiers. *)
Fixpoint fromHex (s : string) : option (list Byte.byte) :=
  match s with
  | EmptyString => Some []
  | String hi (String lo rest) =>
      match hexValue hi, hexValue lo, fromHex rest with
      | Some h, Some l, Some bs =>
          match Byte.of_N (h * 16 + l) with
          | Some b => Some (b :: bs)
          | None => None
          end
      | _, _, _ => None
      end
  | String _ EmptyString => None
  end.

(** The outcome of a call that may throw; an error carries its message. *)
Inductive Result (A : Type) : Type :=
| Ok (value : A)
| Throw (error : string).
Arguments Ok {A} value.
Arguments Throw {A} error.

Definition bind {A B} (r : Result A) (k : A → Result B) : Result B :=
  match r with
  | Ok a => k a
  | Throw e => Throw e
  end.

End Js.

(** Sequencing of awaited calls: [x ← call; rest] stops at the first throw. *)
#[global] Instance Result_ret : MRet Js.Result := λ A a, Js.Ok a.
#[global] Instance Result_bind : MBind Js.Result := λ A B k r, Js.bind r k.

(** ** Shared types ([types/agent.ts], [types/decision.ts], [types/system.ts]) *)

Inductive AgentRole := EXPLORER | BUILDER | ANALYST | COORDINATOR | GUARDIAN.

#[global] Instance AgentRole_eq_dec : EqDecision AgentRole.
Proof. solve_decision. Defined.

(** [Object.values(AgentRole)], in declaration order. *)
Definition AgentRole_values : list AgentRole :=
  [EXPLORER; BUILDER; ANALYST; COORDINATOR; GUARDIAN].

(** The string value of a role, as a template literal prints it. *)
Definition AgentRole_str (r : AgentRole) : string :=
  match r with
  | EXPLORER => "EXPLORER" | BUILDER => "BUILDER" | ANALYST => "ANALYST"
  | COORDINATOR => "COORDINATOR" | GUARDIAN => "GUARDIAN"
  end.

Module AgentStatus.
Inductive t := CREATED | ACTIVE | PAUSED | COMPLETED.
#[global] Instance eq_dec : EqDecision t.
Proof. solve_decision. Defined.
End AgentStatus.

Module Metadata.
Record t := mk {
  creationTx : string;
  missionProgress : Z;
  lastActive : Z;
  successCount : nat;
  failureCount : nat;
  currentTask : option string;
  taskHistory : list string;
}.
End Metadata.

Module Agent.
Record t := mk {
  id : string;
  role : AgentRole;
  mission : string;
  walletAddress : string;
  createdAt : Z;
  createdBy : string;
  status : AgentStatus.t;
  metadata : Metadata.t;
}.
End Agent.

Inductive DecisionType :=
| CREATE_AGENT | COORDINATE_AGENTS | EVOLVE_STRATEGY
| WAIT_AND_OBSERVE | DELEGATE_TASK | ANALYZE_PERFORMANCE.

#[global] Instance DecisionType_eq_dec : EqDecision DecisionType.
Proof. solve_decision. Defined.

Definition DecisionType_str (d : DecisionType) : string :=
  match d with
  | CREATE_AGENT => "CREATE_AGENT" | COORDINATE_AGENTS => "COORDINATE_AGENTS"
  | EVOLVE_STRATEGY => "EVOLVE_STRATEGY" | WAIT_AND_OBSERVE => "WAIT_AND_OBSERVE"
  | DELEGATE_TASK => "DELEGATE_TASK" | ANALYZE_PERFORMANCE => "ANALYZE_PERFORMANCE"
  end.

(** [Record<string, unknown>] as the engine fills it: a key and a list of
    agent identifiers. *)
Definition Parameters := list (string * list string).

Module Decision.
Record t := mk {
  id : string;
  type : DecisionType;
  reasoning : string;
  parameters : Parameters;
  timestamp : Z;
  confidence : Q;
  madeBy : string;
  agentId : option string;
}.
End Decision.

(** A decision option; the type of its weight is a parameter so that the
    selection can be read over any arithmetic. *)
Module DecisionOption.
Record t (num : Type) := mk {
  type : DecisionType;
  weight : num;
  reasoning : string;
  parameters : option Parameters;
}.
Arguments mk {num}.
Arguments type {num}.
Arguments weight {num}.
Arguments reasoning {num}.
Arguments parameters {num}.
(** [{ ...option, weight: w }] *)
Definition withWeight {num} (o : t num) (w : num) : t num :=
  mk (type o) w (reasoning o) (parameters o).
(** Two options that agree on everything except, possibly, the weight. *)
Definition sameContent {num} (o1 o2 : t num) : Prop :=
  type o1 = type o2 ∧ reasoning o1 = reasoning o2 ∧ parameters o1 = parameters o2.
End DecisionOption.

Module ActionResult.
Record t := mk {
  success : bool;
  decision : Decision.t;
  outcome : string;
  transactionSignature : option string;
  error : option string;
  timestamp : Z;
  duration : Z;
}.
End ActionResult.

Module EvolutionMetrics.
Record t := mk {
  evolutionScore : Q;
  totalEvolutions : Z;
  lastEvolutionTime : Z;
}.
End EvolutionMetrics.

Module SystemState.
Record t := mk {
  agentCount : Z;
  activeAgents : list Agent.t;
  recentDecisions : list Decision.t;
  walletBalances : list (string * Z);
  evolutionMetrics : EvolutionMetrics.t;
  timestamp : Z;
}.
End SystemState.

Module Reasoning.
Record t := mk {
  observation : string;
  analysis : string;
  options : list (DecisionOption.t Q);
  recommendation : DecisionOption.t Q;
  confidence : Q;
}.
End Reasoning.

Inductive EvolutionType :=
| STRATEGY_ADJUSTMENT | PERFORMANCE_IMPROVEMENT | NEW_CAPABILITY | ERROR_LEARNING.

Module EvolutionEvent.
Record t := mk {
  id : string;
  type : EvolutionType;
  description : string;
  metrics_before : list (string * Q);
  metrics_after : list (string * Q);
  timestamp : Z;
  triggeredBy : string;
}.
End EvolutionEvent.

Module SystemMetrics.
Record t := mk {
  totalAgentsCreated : Z;
  activeAgents : Z;
  totalDecisions : Z;
  successfulActions : Z;
  failedActions : Z;
  totalTransactions : Z;
  averageCycleTime : Q;
  evolutionScore : Q;
  uptime : Q;
  lastUpdated : Z;
}.
End SystemMetrics.

Module TaskStatus.
Inductive t := PENDING | IN_PROGRESS | COMPLETED | FAILED.
End TaskStatus.

Module TaskAssignment.
Record t := mk {
  id : string;
  agentId : string;
  type : string;
  description : string;
  assignedAt : Z;
  completedAt : option Z;
  status : TaskStatus.t;
  result : option string;
  onChainTx : option string;
}.
End TaskAssignment.

Inductive HealthStatus := HEALTHY | DEGRADED | CRITICAL.

Module AgentReport.
Record t := mk {
  agentId : string;
  role : string;
  tasksCompleted : nat;
  tasksFailed : nat;
  successRate : Q;
  avgTaskDuration : Z;
  lastActive : Z;
  healthStatus : HealthStatus;
}.
End AgentReport.

(** ** The decision engine ([core/decision-engine.ts]) *)

(** The arithmetic that the weighted selection performs on weights.  The
    selection is written over this interface, so what is proved of it holds
    for exact rationals and for any rounding arithmetic alike. *)
Class JsArith (num : Type) := {
  lit : Q → num;
  add : num → num → num;
  sub : num → num → num;
  mul : num → num → num;
  div : num → num → num;
  leq : num → num → bool;
}.

#[global] Instance Q_arith : JsArith Q := {|
  lit q := q;
  add := Qplus;
  sub := Qminus;
  mul := Qmult;
  div := Qdiv;
  leq := Qle_bool;
|}.

(** The successive results of [Math.random()], by call number. *)
Definition RandomSource (num : Type) := nat → num.

Module DecisionEngine.

Record t := mk { decisionWeights : DecisionType → Q }.

Definition constructor : t :=
  mk (λ d, match d with
           | CREATE_AGENT => 0.3
           | COORDINATE_AGENTS => 0.15
           | EVOLVE_STRATEGY => 0.1
           | WAIT_AND_OBSERVE => 0.1
           | DELEGATE_TASK => 0.25
           | ANALYZE_PERFORMANCE => 0.1
           end).

(** [this.decisionWeights[decisionType] = value] *)
Definition setWeight (e : t) (decisionType : DecisionType) (value : Q) : t :=
  mk (λ d, if decide (d = decisionType) then value else decisionWeights e d).

Definition updateWeights (e : t) (decisionType : DecisionType) (success : bool) : t :=
  let adjustment := if success then 0.05 else - 0.05 in
  setWeight e decisionType
    (Js.Math_max 0.05 (Js.Math_min 0.9 (decisionWeights e decisionType + adjustment))).

Definition getWeightsSnapshot (e : t) : list (string * Q) :=
  map (λ d, (DecisionType_str d, decisionWeights e d))
    [CREATE_AGENT; COORDINATE_AGENTS; EVOLVE_STRATEGY;
     WAIT_AND_OBSERVE; DELEGATE_TASK; ANALYZE_PERFORMANCE].

(** A history of [updateWeights] calls, oldest first. *)
Definition updateAll (e : t) (calls : list (DecisionType * bool)) : t :=
  foldl (λ e call, updateWeights e call.1 call.2) e calls.

(** [n] successive [updateWeights(decisionType, success)] calls. *)
Definition repeatUpdate (n : nat) (e : t) (decisionType : DecisionType) (success : bool) : t :=
  Nat.iter n (λ e, updateWeights e decisionType success) e.

(** The invariant of the weight vector. *)
Definition inRange (e : t) : Prop := ∀ d, 0.05 <= decisionWeights e d <= 0.9.

(** *** Weight calculation *)

Definition calculateCreateAgentWeight (e : t) (state : SystemState.t) : Q :=
  let weight := decisionWeights e CREATE_AGENT in
  let weight :=
    if (SystemState.agentCount state <? 3)%Z then weight * 1.75
    else if (5 <=? SystemState.agentCount state)%Z then weight * 0.25
    else weight in
  Js.Math_max 0.05 (Js.Math_min 0.9 weight).

Definition calculateCoordinateWeight (e : t) (state : SystemState.t) : Q :=
  let weight := decisionWeights e COORDINATE_AGENTS in
  let weight :=
    if (3 <=? SystemState.agentCount state)%Z then weight * 2.0
    else weight * 0.5 in
  Js.Math_max 0.05 (Js.Math_min 0.9 weight).

Definition calculateEvolveWeight (e : t) (state : SystemState.t) : Q :=
  let weight := decisionWeights e EVOLVE_STRATEGY in
  let weight :=
    if Qlt_le_dec (EvolutionMetrics.evolutionScore (SystemState.evolutionMetrics state)) 0.5
    then weight * 1.5 else weight in
  Js.Math_max 0.05 (Js.Math_min 0.9 weight).

Definition calculateWaitWeight (e : t) (state : SystemState.t) : Q :=
  let weight := decisionWeights e WAIT_AND_OBSERVE in
  let weight :=
    if (length (SystemState.recentDecisions state) <? 5)%nat then weight * 0.7 else weight in
  Js.Math_max 0.05 (Js.Math_min 0.9 weight).

(** [a.id !== 'genesis_root'] *)
Definition isChild (a : Agent.t) : bool := bool_decide (Agent.id a ≠ "genesis_root").

(** [!a.metadata.currentTask]: an absent task and the empty string are falsy. *)
Definition isIdle (a : Agent.t) : bool :=
  match Metadata.currentTask (Agent.metadata a) with
  | None => true
  | Some task => bool_decide (task = "")
  end.

Definition calculateDelegateTaskWeight (e : t) (state : SystemState.t) : Q :=
  let weight := decisionWeights e DELEGATE_TASK in
  let childAgents := filter (λ a, isChild a = true) (SystemState.activeAgents state) in
  let weight :=
    if (0 <? length childAgents)%nat then weight * 1.5 else weight * 0.1 in
  let idleAgents := filter (λ a, isIdle a = true) childAgents in
  let weight :=
    if Qlt_le_dec (inject_Z (Z.of_nat (length childAgents)) / 2)
                  (inject_Z (Z.of_nat (length idleAgents)))
    then weight * 1.3 else weight in
  Js.Math_max 0.05 (Js.Math_min 0.9 weight).

Definition calculateAnalyzeWeight (e : t) (state : SystemState.t) : Q :=
  let weight := decisionWeights e ANALYZE_PERFORMANCE in
  let weight :=
    if (5 <=? length (SystemState.recentDecisions state))%nat then weight * 1.5 else weight in
  let weight :=
    if (3 <=? SystemState.agentCount state)%Z then weight * 1.3 else weight in
  Js.Math_max 0.05 (Js.Math_min 0.9 weight).

(** *** Reasoning text *)

Definition getCreateAgentReasoning (state : SystemState.t) : string :=
  let n := SystemState.agentCount state in
  if (n =? 0)%Z then
    "No agents exist yet. Creating first agent to bootstrap the ecosystem."
  else if (n <? 3)%Z then
    "Only " +:+ pretty n +:+ " agents active. Need more agents to build robust ecosystem."
  else
    "System has " +:+ pretty n +:+ " agents. Consider adding specialized agent for new capabilities.".

Definition getCoordinateReasoning (state : SystemState.t) : string :=
  pretty (SystemState.agentCount state)
    +:+ " agents active. Coordination can optimize their collective performance.".

Definition getEvolveReasoning (state : SystemState.t) : string :=
  "Evolution score: "
    +:+ Js.toFixed 2 (EvolutionMetrics.evolutionScore (SystemState.evolutionMetrics state))
    +:+ ". Adjusting strategy based on performance.".

Definition getWaitReasoning (state : SystemState.t) : string :=
  "System stable with " +:+ pretty (SystemState.agentCount state)
    +:+ " agents. Observing current state before next action.".

Definition getDelegateTaskReasoning (state : SystemState.t) : string :=
  let childAgents := filter (λ a, isChild a = true) (SystemState.activeAgents state) in
  let idle := filter (λ a, isIdle a = true) childAgents in
  if (0 <? length idle)%nat then
    pretty (length idle)
      +:+ " idle agents available. Delegating role-specific tasks to utilize the ecosystem."
  else
    pretty (length childAgents)
      +:+ " child agents active. Assigning new work to keep the ecosystem productive.".

Definition getAnalyzeReasoning (state : SystemState.t) : string :=
  "System has " +:+ pretty (length (SystemState.recentDecisions state))
    +:+ " recent decisions. Analyzing performance to optimize strategy.".

(** *** Options *)

Definition generateOptions (e : t) (state : SystemState.t) : list (DecisionOption.t Q) :=
  [ DecisionOption.mk CREATE_AGENT (calculateCreateAgentWeight e state)
      (getCreateAgentReasoning state) (Some []);
    DecisionOption.mk COORDINATE_AGENTS (calculateCoordinateWeight e state)
      (getCoordinateReasoning state)
      (Some [("targetAgents", map Agent.id (SystemState.activeAgents state))]);
    DecisionOption.mk EVOLVE_STRATEGY (calculateEvolveWeight e state)
      (getEvolveReasoning state) (Some []);
    DecisionOption.mk WAIT_AND_OBSERVE (calculateWaitWeight e state)
      (getWaitReasoning state) (Some []);
    DecisionOption.mk DELEGATE_TASK (calculateDelegateTaskWeight e state)
      (getDelegateTaskReasoning state)
      (Some [("candidateAgents",
              map Agent.id (filter (λ a, isChild a = true) (SystemState.activeAgents state)))]);
    DecisionOption.mk ANALYZE_PERFORMANCE (calculateAnalyzeWeight e state)
      (getAnalyzeReasoning state) (Some []) ].

(** *** Weighted random selection *)

Section Selection.
Context {num : Type} `{JsArith num}.

Definition applyRandomness (random weight variance : num) : num :=
  let randomFactor := add (lit 1) (mul (sub (mul random (lit 2)) (lit 1)) variance) in
  mul weight randomFactor.

(** The options with the jitter applied: option [i] consumes draw [i]. *)
Definition randomizedOptions (rnd : RandomSource num) (options : list (DecisionOption.t num))
  : list (DecisionOption.t num) :=
  imap (λ i option,
          DecisionOption.withWeight option
            (applyRandomness (rnd i) (DecisionOption.weight option) (lit 0.2)))
       options.

Definition totalWeight (randomized : list (DecisionOption.t num)) : num :=
  foldl (λ sum opt, add sum (DecisionOption.weight opt)) (lit 0) randomized.

Definition normalizedOptions (randomized : list (DecisionOption.t num))
  : list (DecisionOption.t num) :=
  map (λ opt, DecisionOption.withWeight opt
                (div (DecisionOption.weight opt) (totalWeight randomized)))
      randomized.

(** The [for ... of] loop: the first option whose cumulative weight reaches
    the draw; [None] when the loop ends without returning. *)
Fixpoint firstReached (random cumulative : num) (normalized : list (DecisionOption.t num))
  : option (DecisionOption.t num) :=
  match normalized with
  | [] => None
  | option :: rest =>
      let cumulative := add cumulative (DecisionOption.weight option) in
      if leq random cumulative then Some option
      else firstReached random cumulative rest
  end.

(** The value of [cumulative] after the loop has gone through [options]. *)
Definition cumulativeWeight (cumulative : num) (options : list (DecisionOption.t num)) : num :=
  foldl (λ sum opt, add sum (DecisionOption.weight opt)) cumulative options.

(** [selectDecision]; [None] is the [undefined] read at index [-1] of an
    empty array. *)
Definition selectDecision (rnd : RandomSource num) (options : list (DecisionOption.t num))
  : option (DecisionOption.t num) :=
  let normalized := normalizedOptions (randomizedOptions rnd options) in
  let random := rnd (length options) in
  match firstReached random (lit 0) normalized with
  | Some option => Some option
  | None => last normalized
  end.

End Selection.

(** [createDecision]; [idBytes] is the buffer that [randomBytes(8)] returns
    and [now] the value of [Date.now()]. *)
Definition createDecision (idBytes : list Byte.byte) (now : Z)
    (option : DecisionOption.t Q) (madeBy : string) : Decision.t :=
  Decision.mk
    ("decision_" +:+ Js.toHex idBytes)
    (DecisionOption.type option)
    (DecisionOption.reasoning option)
    (default [] (DecisionOption.parameters option))
    now
    (DecisionOption.weight option)
    madeBy
    (Some madeBy).

End DecisionEngine.

(** ** The in-memory view of the memory system ([memory/memory-system.ts]) *)

Module DecisionLog.
Record t := mk {
  decision : Decision.t;
  result : ActionResult.t;
  timestamp : Z;
}.
End DecisionLog.

(** [Partial<SystemMetrics>]: the fields an update names. *)
Module MetricsPatch.
Record t := mk {
  activeAgents : option Z;
  totalDecisions : option Z;
  successfulActions : option Z;
  failedActions : option Z;
  totalTransactions : option Z;
  averageCycleTime : option Q;
  evolutionScore : option Q;
  uptime : option Q;
}.
Definition empty : t := mk None None None None None None None None.
End MetricsPatch.

Module MemorySystem.

(** Modelled from the spec: the memory system's source file is not part of
    the sources at hand.  The store keeps the entities, the ordered decision
    log, the ordered evolution log and one aggregate metrics record;
    [updateMetrics] is a read-modify-write of the aggregate that overwrites
    the fields of the patch and stamps [lastUpdated]. *)
Record t := mk {
  agents : list Agent.t;
  decisions : list DecisionLog.t;
  evolution : list EvolutionEvent.t;
  metrics : SystemMetrics.t;
}.

Definition getAllAgents (m : t) : list Agent.t := agents m.

(** The [limit] most recent entries of the decision log. *)
Definition getDecisions (m : t) (limit : nat) : list DecisionLog.t :=
  drop (length (decisions m) - limit) (decisions m).

Definition getMetrics (m : t) : SystemMetrics.t := metrics m.

Definition logEvolution (m : t) (event : EvolutionEvent.t) : t :=
  mk (agents m) (decisions m) (evolution m ++ [event]) (metrics m).

Definition updateMetrics (now : Z) (m : t) (patch : MetricsPatch.t) : t :=
  let old := metrics m in
  mk (agents m) (decisions m) (evolution m)
    (SystemMetrics.mk
       (SystemMetrics.totalAgentsCreated old)
       (default (SystemMetrics.activeAgents old) (MetricsPatch.activeAgents patch))
       (default (SystemMetrics.totalDecisions old) (MetricsPatch.totalDecisions patch))
       (default (SystemMetrics.successfulActions old) (MetricsPatch.successfulActions patch))
       (default (SystemMetrics.failedActions old) (MetricsPatch.failedActions patch))
       (default (SystemMetrics.totalTransactions old) (MetricsPatch.totalTransactions patch))
       (default (SystemMetrics.averageCycleTime old) (MetricsPatch.averageCycleTime patch))
       (default (SystemMetrics.evolutionScore old) (MetricsPatch.evolutionScore patch))
       (default (SystemMetrics.uptime old) (MetricsPatch.uptime patch))
       now).

End MemorySystem.

(** ** The autonomy loop controller ([core/genesis.ts]) *)

Module GenesisAgent.

Definition GENESIS_ID : string := "genesis_root".

Record t := mk {
  memory : MemorySystem.t;
  decisionEngine : DecisionEngine.t;
}.

(** [a.status === ACTIVE || a.status === CREATED] *)
Definition isActive (a : Agent.t) : bool :=
  bool_decide (Agent.status a = AgentStatus.ACTIVE)
  || bool_decide (Agent.status a = AgentStatus.CREATED).

(** Observe phase; [wallets] is what [wallet.getAllWallets()] returns (agent
    identifier and balance) and [now] the clock. *)
Definition observe (g : t) (wallets : list (string * Z)) (now : Z) : SystemState.t :=
  let agents := MemorySystem.getAllAgents (memory g) in
  let activeAgents := filter (λ a, isActive a = true) agents in
  let recentDecisions := MemorySystem.getDecisions (memory g) 10 in
  let metrics := MemorySystem.getMetrics (memory g) in
  SystemState.mk
    (Z.of_nat (length activeAgents))
    activeAgents
    (map DecisionLog.decision recentDecisions)
    wallets
    (EvolutionMetrics.mk (SystemMetrics.evolutionScore metrics) 0 now)
    now.

Definition generateAnalysis (state : SystemState.t) : string :=
  let n := SystemState.agentCount state in
  if (n =? 0)%Z then
    "No agents exist. System needs bootstrap agent to begin operations."
  else if (n <? 3)%Z then
    "Agent count below minimum threshold. Prioritizing agent creation."
  else if (5 <=? n)%Z then
    "Sufficient agents exist. Focus on task delegation, coordination and optimization."
  else
    "Agent ecosystem balanced. Evaluating best action — may delegate tasks or coordinate agents.".

(** Reason phase; [rnd] are the draws of [Math.random()] made by the
    selection.  [None] stands for the [TypeError] raised on reading the
    weight of an undefined recommendation. *)
Definition reason (g : t) (rnd : RandomSource Q) (state : SystemState.t)
  : option Reasoning.t :=
  let options := DecisionEngine.generateOptions (decisionEngine g) state in
  match DecisionEngine.selectDecision rnd options with
  | Some recommendation =>
      Some (Reasoning.mk
              ("System has " +:+ pretty (SystemState.agentCount state)
                 +:+ " active agents, "
                 +:+ pretty (length (SystemState.recentDecisions state))
                 +:+ " recent decisions")
              (generateAnalysis state)
              options
              recommendation
              (DecisionOption.weight recommendation))
  | None => None
  end.

(** Decide phase. *)
Definition decide (idBytes : list Byte.byte) (now : Z) (reasoning : Reasoning.t)
  : Decision.t :=
  DecisionEngine.createDecision idBytes now (Reasoning.recommendation reasoning) GENESIS_ID.

(** What the Evolve phase reads from its surroundings. *)
Module EvolveEnv.
Record t := mk {
  random : Q;                 (* Math.random() *)
  idBytes : list Byte.byte;   (* randomBytes(8) *)
  eventTime : Z;              (* Date.now() for the event *)
  updateTime : Z;             (* the clock when the aggregate is written *)
}.
End EvolveEnv.

(** [weights[key]?.toFixed(3)] *)
Definition weightText (weights : list (string * Q)) (key : string) : string :=
  match list_find (λ kv, kv.1 = key) weights with
  | Some (_, (_, w)) => Js.toFixed 3 w
  | None => "undefined"
  end.

(** Evolve phase. *)
Definition evolve (env : EvolveEnv.t) (g : t) (result : ActionResult.t) : t :=
  let decision := ActionResult.decision result in
  let success := ActionResult.success result in
  let weightsBefore := DecisionEngine.getWeightsSnapshot (decisionEngine g) in
  let engine := DecisionEngine.updateWeights (decisionEngine g) (Decision.type decision) success in
  let weightsAfter := DecisionEngine.getWeightsSnapshot engine in
  let memory1 :=
    if Qlt_le_dec (EvolveEnv.random env) 0.5 then
      MemorySystem.logEvolution (memory g)
        (EvolutionEvent.mk
           ("evolution_" +:+ Js.toHex (EvolveEnv.idBytes env))
           (if success then PERFORMANCE_IMPROVEMENT else ERROR_LEARNING)
           (DecisionType_str (Decision.type decision) +:+ ": weight "
              +:+ (if success then "increased" else "decreased")
              +:+ " from " +:+ weightText weightsBefore (DecisionType_str (Decision.type decision))
              +:+ " to " +:+ weightText weightsAfter (DecisionType_str (Decision.type decision)))
           weightsBefore
           weightsAfter
           (EvolveEnv.eventTime env)
           (Decision.id decision))
    else memory g in
  let metrics := MemorySystem.getMetrics memory1 in
  let newScore :=
    Js.Math_min 1.0
      (SystemMetrics.evolutionScore metrics + (if success then 0.01 else - 0.005)) in
  let memory2 :=
    MemorySystem.updateMetrics (EvolveEnv.updateTime env) memory1
      (MetricsPatch.mk None None None None None None (Some newScore) None) in
  mk memory2 engine.

(** The evolution score that a state carries. *)
Definition evolutionScore (g : t) : Q :=
  SystemMetrics.evolutionScore (MemorySystem.getMetrics (memory g)).

(** The Evolve phases of a run of cycles, one environment and one action
    result per cycle. *)
Fixpoint evolveAll (g : t) (cycles : list (EvolveEnv.t * ActionResult.t)) : t :=
  match cycles with
  | [] => g
  | (env, result) :: rest => evolveAll (evolve env g result) rest
  end.

End GenesisAgent.

(** ** The transaction submitter ([solana/transactions.ts]) *)

Module SolanaTransactions.

Module Transaction.
Record t := mk {
  memo : string;
  recentBlockhash : option string;
  feePayer : option string;
}.
(** [transaction.recentBlockhash = blockhash] *)
Definition setRecentBlockhash (tx : t) (blockhash : string) : t :=
  mk (memo tx) (Some blockhash) (feePayer tx).
End Transaction.

(** The network as the submitter meets it: the outcome of the [attempt]-th
    [sendAndConfirmTransaction] for the transaction as it then stands, and
    the outcome of the [getLatestBlockhash] that follows a failed attempt. *)
Module Connection.
Record t := mk {
  sendAndConfirmTransaction : nat → Transaction.t → list string → Js.Result string;
  getLatestBlockhash : nat → Js.Result string;
}.
End Connection.

(** What a submission does, in order. *)
Inductive Event :=
| Sent (attempt : nat) (transaction : Transaction.t)
| Slept (ms : Z)
| FetchedBlockhash.

#[global] Instance Transaction_eq_dec : EqDecision Transaction.t.
Proof. solve_decision. Defined.
#[global] Instance Event_eq_dec : EqDecision Event.
Proof. solve_decision. Defined.

Definition isSent (ev : Event) : bool :=
  match ev with Sent _ _ => true | _ => false end.

(** The number of attempts that a trace records. *)
Definition attemptsMade (trace : list Event) : nat :=
  length (List.filter isSent trace).

(** The [for] loop from [attempt] on; [remaining] counts the iterations
    left, [maxRetries + 1 - attempt].  The result is what the call returns
    or throws, together with the trace of what it did. *)
Fixpoint attemptLoop (connection : Connection.t) (signers : list string) (maxRetries : nat)
    (remaining attempt : nat) (transaction : Transaction.t)
  : Js.Result string * list Event :=
  match remaining with
  | O => (Js.Throw "Transaction failed after all retries", [])
  | S remaining' =>
      match Connection.sendAndConfirmTransaction connection attempt transaction signers with
      | Js.Ok signature => (Js.Ok signature, [Sent attempt transaction])
      | Js.Throw error =>
          if (attempt =? maxRetries)%nat then
            (Js.Throw error, [Sent attempt transaction])
          else
            match Connection.getLatestBlockhash connection attempt with
            | Js.Throw fetchError =>
                (Js.Throw fetchError,
                 [Sent attempt transaction; Slept (1000 * Z.of_nat attempt); FetchedBlockhash])
            | Js.Ok blockhash =>
                let '(outcome, trace) :=
                  attemptLoop connection signers maxRetries remaining' (S attempt)
                    (Transaction.setRecentBlockhash transaction blockhash) in
                (outcome,
                 Sent attempt transaction :: Slept (1000 * Z.of_nat attempt)
                   :: FetchedBlockhash :: trace)
            end
      end
  end.

(** [submitTransaction(transaction, signers, maxRetries = 3)]; [None] is the
    omitted third argument. *)
Definition submitTransaction (connection : Connection.t) (transaction : Transaction.t)
    (signers : list string) (maxRetries : option nat) : Js.Result string * list Event :=
  let maxRetries := default 3%nat maxRetries in
  attemptLoop connection signers maxRetries maxRetries 1 transaction.

End SolanaTransactions.

(** ** The agent coordinator ([core/agent-coordinator.ts]) *)

Module AgentCoordinator.

(** [a < b] on numbers, as a boolean. *)
Definition lt (a b : Q) : bool := negb (Qle_bool b a).

(** [generateAgentReport]; [now] is the value of [Date.now()]. *)
Definition generateAgentReport (now : Z) (agent : Agent.t) : AgentReport.t :=
  let metadata := Agent.metadata agent in
  let totalTasks := (Metadata.successCount metadata + Metadata.failureCount metadata)%nat in
  let successRate :=
    if (0 <? totalTasks)%nat
    then inject_Z (Z.of_nat (Metadata.successCount metadata)) / inject_Z (Z.of_nat totalTasks)
    else 1.0 in
  let timeSinceActive := (now - Metadata.lastActive metadata)%Z in
  let healthStatus :=
    if lt successRate 0.3 || (300000 <? timeSinceActive)%Z then CRITICAL
    else if lt successRate 0.6 || (120000 <? timeSinceActive)%Z then DEGRADED
    else HEALTHY in
  AgentReport.mk
    (Agent.id agent)
    (AgentRole_str (Agent.role agent))
    (Metadata.successCount metadata)
    (Metadata.failureCount metadata)
    successRate
    0
    (Metadata.lastActive metadata)
    healthStatus.

(** The quantities that the health classification is stated over: the
    success rate [successCount / (successCount + failureCount)], taken as 1
    when no task was run, and the idle time in milliseconds. *)
Definition successRate (agent : Agent.t) : Q :=
  let s := Metadata.successCount (Agent.metadata agent) in
  let f := Metadata.failureCount (Agent.metadata agent) in
  if (s + f =? 0)%nat then 1
  else inject_Z (Z.of_nat s) / inject_Z (Z.of_nat (s + f)).

Definition idleTime (now : Z) (agent : Agent.t) : Z :=
  (now - Metadata.lastActive (Agent.metadata agent))%Z.

(** The health reports that [coordinateAgents] builds, one per child agent. *)
Definition healthReports (now : Z) (state : SystemState.t) : list AgentReport.t :=
  map (generateAgentReport now)
    (filter (λ a, DecisionEngine.isChild a = true) (SystemState.activeAgents state)).

End AgentCoordinator.

(** ** The agent factory ([factory/agent-factory.ts]) *)

Module AgentFactory.

(** A [Map<AgentRole, number>]: its entries in insertion order. *)
Definition RoleCounts := list (AgentRole * nat).

(** [map.set(key, value)]: an existing key keeps its place. *)
Fixpoint mapSet (m : RoleCounts) (key : AgentRole) (value : nat) : RoleCounts :=
  match m with
  | [] => [(key, value)]
  | (k, v) :: rest =>
      if decide (k = key) then (key, value) :: rest
      else (k, v) :: mapSet rest key value
  end.

(** [map.get(key)] *)
Fixpoint mapGet (m : RoleCounts) (key : AgentRole) : option nat :=
  match m with
  | [] => None
  | (k, v) :: rest => if decide (k = key) then Some v else mapGet rest key
  end.

(** The counting loops of [selectRole]. *)
Definition countRoles (agents : list Agent.t) : RoleCounts :=
  let roleCounts := foldl (λ m role, mapSet m role 0%nat) [] AgentRole_values in
  foldl (λ m agent,
           let count := default 0%nat (mapGet m (Agent.role agent)) in
           mapSet m (Agent.role agent) (count + 1)%nat)
        roleCounts agents.

(** The number of agents that have a role: the count that the selection is
    stated over. *)
Definition roleCount (agents : list Agent.t) (role : AgentRole) : nat :=
  length (filter (λ a, Agent.role a = role) agents).

(** The map that holds [count role] for each role, in insertion order. *)
Definition countsOf (count : AgentRole → nat) : RoleCounts :=
  map (λ role, (role, count role)) AgentRole_values.

(** The least of the five counts. *)
Definition minOf (count : AgentRole → nat) : nat :=
  Nat.min (Nat.min (Nat.min (Nat.min (count EXPLORER) (count BUILDER)) (count ANALYST))
             (count COORDINATOR)) (count GUARDIAN).

Definition underrepresentedRoles (context : SystemState.t) : list AgentRole :=
  let roleCounts := countRoles (SystemState.activeAgents context) in
  let minCount := Js.Math_min_spread (map snd roleCounts) in
  map fst (filter (λ entry, Some entry.2 = minCount) roleCounts).

(** [array[index]] for a numeric index. *)
Definition at_index {A} (l : list A) (index : Z) : option A :=
  if (index <? 0)%Z then None else l !! Z.to_nat index.

(** [selectRole]; [random] is the value of [Math.random()].  [None] is the
    [undefined] of an index outside the array. *)
Definition selectRole (random : Q) (context : SystemState.t) : option AgentRole :=
  let roles := underrepresentedRoles context in
  at_index roles (Js.Math_floor (random * inject_Z (Z.of_nat (length roles)))).

End AgentFactory.

(** ** The task executor ([core/task-executor.ts]) *)

Module TaskExecutor.

Module MemoData.
Record t := mk {
  type : string;
  agentId : string;
  role : string;
  taskId : string;
  taskType : string;
  result : string;
  duration : Z;
  timestamp : Z;
  genesisId : string;
}.
End MemoData.

(** The collaborators of one [executeTask] call.  Each awaited call is given
    by its outcome; [taskStart], [completedAt] and [activeAt] are the
    successive values of [Date.now()] on the successful path and [failedAt] the one read in the
    [catch] block.

    The five role tasks read the store and the wallets and build a report
    text; none of them assigns [successCount], [failureCount] or
    [currentTask] of any agent.  A role task is therefore given by the text
    it returns or the error it throws.  The coordinator task also
    re-activates up to three idle agents that it reads from the store;
    [reactivatesSelf] says that the agent being executed is one of those
    very objects. *)
Module Env.
Record t := mk {
  taskIdBytes : list Byte.byte;
  taskStart : Z;
  completedAt : Z;
  activeAt : Z;
  failedAt : Z;
  roleTask : AgentRole → Agent.t → Js.Result string;
  reactivatesSelf : bool;
  sweepTime : Z;
  saveAgent : Agent.t → Js.Result unit;
  getWallet : string → Js.Result (option string);
  getKeypair : string → Js.Result string;
  buildMemoTransaction : MemoData.t → string → Js.Result SolanaTransactions.Transaction.t;
  submitTransaction : SolanaTransactions.Transaction.t → list string → Js.Result string;
  countTransaction : Js.Result unit;
}.
End Env.

(** The executor's own state. *)
Record t := mk { activeTasks : gmap string TaskAssignment.t }.

(** The writes of [executeCoordinatorTask] to an idle agent. *)
Definition reactivate (now : Z) (agent : Agent.t) : Agent.t :=
  let m := Agent.metadata agent in
  Agent.mk (Agent.id agent) (Agent.role agent) (Agent.mission agent)
    (Agent.walletAddress agent) (Agent.createdAt agent) (Agent.createdBy agent)
    (Agent.status agent)
    (Metadata.mk (Metadata.creationTx m)
       (Z.min 100 (Metadata.missionProgress m + 5))
       now
       (Metadata.successCount m) (Metadata.failureCount m)
       (Metadata.currentTask m) (Metadata.taskHistory m)).

(** The [switch (agent.role)]: the agent as the role task leaves it, and the
    outcome of the role task. *)
Definition runRoleTask (env : Env.t) (agent : Agent.t) : Agent.t * Js.Result string :=
  match Agent.role agent with
  | EXPLORER => (agent, Env.roleTask env EXPLORER agent)
  | BUILDER => (agent, Env.roleTask env BUILDER agent)
  | ANALYST => (agent, Env.roleTask env ANALYST agent)
  | COORDINATOR =>
      (if Env.reactivatesSelf env then reactivate (Env.sweepTime env) agent else agent,
       Env.roleTask env COORDINATOR agent)
  | GUARDIAN => (agent, Env.roleTask env GUARDIAN agent)
  end.

(** [task.completedAt || Date.now()]: an absent time and zero are falsy. *)
Definition orNow (now : Z) (completedAt : option Z) : Z :=
  match completedAt with
  | Some time => if (time =? 0)%Z then now else time
  | None => now
  end.

(** [logTaskOnChain]: the body of its [try], then the [catch] that turns any
    throw into [undefined]. *)
Definition logTaskOnChainBody (env : Env.t) (agent : Agent.t) (task : TaskAssignment.t)
  : Js.Result (option string) :=
  genesisWallet ← Env.getWallet env "genesis_root";
  match genesisWallet with
  | None => mret None
  | Some wallet =>
      keypair ← Env.getKeypair env wallet;
      let memoData :=
        MemoData.mk "TASK_COMPLETION" (Agent.id agent) (AgentRole_str (Agent.role agent))
          (TaskAssignment.id task) (TaskAssignment.type task)
          (Js.substring0 200 (default "" (TaskAssignment.result task)))
          (orNow (Env.activeAt env) (TaskAssignment.completedAt task)
             - TaskAssignment.assignedAt task)%Z
          (Env.activeAt env)
          "genesis_root" in
      transaction ← Env.buildMemoTransaction env memoData keypair;
      signature ← Env.submitTransaction env transaction [keypair];
      _ ← Env.countTransaction env;
      mret (Some signature)
  end.

Definition logTaskOnChain (env : Env.t) (agent : Agent.t) (task : TaskAssignment.t)
  : option string :=
  match logTaskOnChainBody env agent task with
  | Js.Ok signature => signature
  | Js.Throw _ => None
  end.

(** The on-chain logging step fails: whatever it is asked to log, one of its
    awaited calls throws. *)
Definition loggingFails (env : Env.t) : Prop :=
  ∀ agent task, ∃ error, logTaskOnChainBody env agent task = Js.Throw error.

(** How the [try] block of [executeTask] ends: it returns, or it throws with
    the task and the agent as the writes before the throw left them. *)
Inductive TryOutcome :=
| Returned (task : TaskAssignment.t) (agent : Agent.t)
| Thrown (error : string) (task : TaskAssignment.t) (agent : Agent.t).

(** The agent after the bookkeeping of a completed task. *)
Definition markSuccess (env : Env.t) (taskId : string) (agent : Agent.t) : Agent.t :=
  let m := Agent.metadata agent in
  Agent.mk (Agent.id agent) (Agent.role agent) (Agent.mission agent)
    (Agent.walletAddress agent) (Agent.createdAt agent) (Agent.createdBy agent)
    (Agent.status agent)
    (Metadata.mk (Metadata.creationTx m)
       (Z.min 100 (Metadata.missionProgress m + 10))
       (Env.activeAt env)
       (Metadata.successCount m + 1)%nat
       (Metadata.failureCount m)
       None
       (Metadata.taskHistory m ++ [taskId])).

(** The agent after the bookkeeping of the [catch] block. *)
Definition markFailure (agent : Agent.t) : Agent.t :=
  let m := Agent.metadata agent in
  Agent.mk (Agent.id agent) (Agent.role agent) (Agent.mission agent)
    (Agent.walletAddress agent) (Agent.createdAt agent) (Agent.createdBy agent)
    (Agent.status agent)
    (Metadata.mk (Metadata.creationTx m)
       (Metadata.missionProgress m)
       (Metadata.lastActive m)
       (Metadata.successCount m)
       (Metadata.failureCount m + 1)%nat
       None
       (Metadata.taskHistory m)).

Definition tryBlock (env : Env.t) (task : TaskAssignment.t) (agent : Agent.t) : TryOutcome :=
  let '(agent, outcome) := runRoleTask env agent in
  match outcome with
  | Js.Throw error => Thrown error task agent
  | Js.Ok result =>
      let task :=
        TaskAssignment.mk (TaskAssignment.id task) (TaskAssignment.agentId task)
          (TaskAssignment.type task)
          (AgentRole_str (Agent.role agent) +:+ " task: " +:+ Js.substring0 80 result)
          (TaskAssignment.assignedAt task)
          (Some (Env.completedAt env))
          TaskStatus.COMPLETED
          (Some result)
          (TaskAssignment.onChainTx task) in
      let txSignature := logTaskOnChain env agent task in
      let task :=
        TaskAssignment.mk (TaskAssignment.id task) (TaskAssignment.agentId task)
          (TaskAssignment.type task) (TaskAssignment.description task)
          (TaskAssignment.assignedAt task) (TaskAssignment.completedAt task)
          (TaskAssignment.status task) (TaskAssignment.result task)
          txSignature in
      let agent := markSuccess env (TaskAssignment.id task) agent in
      match Env.saveAgent env agent with
      | Js.Ok _ => Returned task agent
      | Js.Throw error => Thrown error task agent
      end
  end.

Definition catchBlock (env : Env.t) (error : string) (task : TaskAssignment.t)
    (agent : Agent.t) : Js.Result (TaskAssignment.t * Agent.t) :=
  let task :=
    TaskAssignment.mk (TaskAssignment.id task) (TaskAssignment.agentId task)
      (TaskAssignment.type task) (TaskAssignment.description task)
      (TaskAssignment.assignedAt task)
      (Some (Env.failedAt env))
      TaskStatus.FAILED
      (Some error)
      (TaskAssignment.onChainTx task) in
  let agent := markFailure agent in
  _ ← Env.saveAgent env agent;
  mret (task, agent).

(** [executeTask]: what the call returns or throws (the task together with
    the agent object as the call leaves it), and the executor afterwards. *)
Definition executeTask (env : Env.t) (x : t) (agent : Agent.t)
  : Js.Result (TaskAssignment.t * Agent.t) * t :=
  let taskId := "task_" +:+ Js.toHex (Env.taskIdBytes env) in
  let task :=
    TaskAssignment.mk taskId (Agent.id agent)
      (AgentRole_str (Agent.role agent) +:+ "_TASK") ""
      (Env.taskStart env) None TaskStatus.IN_PROGRESS None None in
  let x := mk (<[taskId := task]> (activeTasks x)) in
  let outcome :=
    match tryBlock env task agent with
    | Returned task agent => Js.Ok (task, agent)
    | Thrown error task agent => catchBlock env error task agent
    end in
  (outcome, mk (delete taskId (activeTasks x))).

End TaskExecutor.

(** ** The durable store ([memory/storage.ts], [memory/memory-system.ts]) *)

Module AtomicStorage.

(** Modelled from the spec: the storage and memory-system source files are
    not part of the sources at hand; only their tests and callers are.  What
    follows renders section 4.1 of the specification: one file per
    collection; a write serializes, writes a temporary file, copies the
    current live file to a backup location and then atomically renames the
    temporary file onto the live location; a load reads the live file, falls
    back to the backup when the live file is unreadable, and starts empty
    when that fails too; every record is schema-checked on read and an
    invalid one is left out. *)

Definition Bytes := list Byte.byte.

(** The file system: the content of each path that exists. *)
Abbreviation FileSystem := (gmap string Bytes).

Definition tempPath (file : string) : string := file +:+ ".tmp".
Definition backupPath (file : string) : string := file +:+ ".backup".

(** The primitive steps of the file system.  A file is written one byte at
    a time, so every prefix of it is a state that others can observe;
    a rename replaces its target in one step. *)
Inductive FsOp :=
| CreateEmpty (path : string)
| AppendByte (path : string) (b : Byte.byte)
| CopyFile (source target : string)
| Rename (source target : string).

Definition applyOp (fs : FileSystem) (op : FsOp) : FileSystem :=
  match op with
  | CreateEmpty path => <[path := []]> fs
  | AppendByte path b => <[path := default [] (fs !! path) ++ [b]]> fs
  | CopyFile source target =>
      match fs !! source with
      | Some content => <[target := content]> fs
      | None => fs
      end
  | Rename source target =>
      match fs !! source with
      | Some content => <[target := content]> (delete source fs)
      | None => fs
      end
  end.

(** The paths whose content a step can change. *)
Definition affected (op : FsOp) : list string :=
  match op with
  | CreateEmpty path => [path]
  | AppendByte path _ => [path]
  | CopyFile _ target => [target]
  | Rename source target => [source; target]
  end.

(** The steps of [write(file, content)]. *)
Definition writeOps (fs : FileSystem) (file : string) (content : Bytes) : list FsOp :=
  [CreateEmpty (tempPath file)]
    ++ map (AppendByte (tempPath file)) content
    ++ (if decide (is_Some (fs !! file)) then [CopyFile file (backupPath file)] else [])
    ++ [Rename (tempPath file) file].

(** The steps of a write before the final rename. *)
Definition preparation (fs : FileSystem) (file : string) (content : Bytes) : list FsOp :=
  [CreateEmpty (tempPath file)]
    ++ map (AppendByte (tempPath file)) content
    ++ (if decide (is_Some (fs !! file)) then [CopyFile file (backupPath file)] else []).

(** Every state that the file system passes through, the first and the last
    included. *)
Fixpoint statesOf (fs : FileSystem) (ops : list FsOp) : list FileSystem :=
  match ops with
  | [] => [fs]
  | op :: rest => fs :: statesOf (applyOp fs op) rest
  end.

Definition runOps (fs : FileSystem) (ops : list FsOp) : FileSystem := foldl applyOp fs ops.

Definition write (fs : FileSystem) (file : string) (content : Bytes) : FileSystem :=
  runOps fs (writeOps fs file content).

(** What a reader of [file] sees in a state. *)
Definition read (fs : FileSystem) (file : string) : option Bytes := fs !! file.

End AtomicStorage.

(** The serialized form of a collection.  A record is turned into an untyped
    document, the documents of a collection are printed into one file, and on
    the way back every document is checked against the schema, which yields
    the record or rejects the document. *)
Class Codec (R : Type) := {
  Document : Type;
  toDocument : R → Document;
  validate : Document → option R;
  stringify : list Document → AtomicStorage.Bytes;
  parse : AtomicStorage.Bytes → option (list Document);
  validate_toDocument : ∀ r, validate (toDocument r) = Some r;
  parse_stringify : ∀ docs, parse (stringify docs) = Some docs;
}.

Module MemoryStore.
Import AtomicStorage.

Section Collection.
Context {R : Type} `{Codec R}.
Variable key : R → string.
Variable file : string.

(** [save(collection, key, record)] on the in-memory collection: a record
    with the same key is replaced in place, a new one is added at the end. *)
Fixpoint upsert (records : list R) (record : R) : list R :=
  match records with
  | [] => [record]
  | r :: rest =>
      if decide (key r = key record) then record :: rest
      else r :: upsert rest record
  end.

(** [get(collection, key)] *)
Fixpoint get (records : list R) (k : string) : option R :=
  match records with
  | [] => None
  | r :: rest => if decide (key r = k) then Some r else get rest k
  end.

Definition serialize (records : list R) : Bytes := stringify (map toDocument records).

(** The records of a file's content: the documents that pass the schema
    check; [None] when the content does not parse. *)
Definition deserialize (content : Bytes) : option (list R) :=
  match parse content with
  | Some docs => Some (omap validate docs)
  | None => None
  end.

(** [save]: the new in-memory collection and the file system after the
    write. *)
Definition save (records : list R) (fs : FileSystem) (record : R) : list R * FileSystem :=
  let records := upsert records record in
  (records, write fs file (serialize records)).

(** [append(log, record)] *)
Definition append (records : list R) (fs : FileSystem) (record : R) : list R * FileSystem :=
  let records := records ++ [record] in
  (records, write fs file (serialize records)).

(** [load()] of a fresh instance: the live file, else the backup, else an
    empty collection. *)
Definition load (fs : FileSystem) : list R :=
  match mbind (M := option) deserialize (read fs file) with
  | Some records => records
  | None =>
      match mbind (M := option) deserialize (read fs (backupPath file)) with
      | Some records => records
      | None => []
      end
  end.

End Collection.

End MemoryStore.

(** A concrete codec, for collections of raw byte records: a record is
    framed by writing [x01] before each of its bytes and [x00] after the
    last; every well-framed document passes the check. *)
Module FrameCodec.
Import AtomicStorage.

Definition frame (record : Bytes) : Bytes :=
  flat_map (λ b, [Byte.x01; b]) record ++ [Byte.x00].

Definition stringifyFrames (docs : list Bytes) : Bytes := flat_map frame docs.

Fixpoint parseFrames (content : Bytes) (current : Bytes) : option (list Bytes) :=
  match content with
  | [] => match current with [] => Some [] | _ => None end
  | tag :: rest =>
      if Byte.eqb tag Byte.x00 then cons (rev current) <$> parseFrames rest []
      else if Byte.eqb tag Byte.x01 then
        match rest with
        | b :: rest' => parseFrames rest' (b :: current)
        | [] => None
        end
      else None
  end.

End FrameCodec.

(** ** Sample inputs used by the examples *)

Module Samples.

(** A child agent with the given role, counters and time of last activity. *)
Definition agent (id : string) (role : AgentRole) (successes failures : nat)
    (lastActive : Z) (currentTask : option string) : Agent.t :=
  Agent.mk id role "mission" "wallet" 0 "genesis_root" AgentStatus.ACTIVE
    (Metadata.mk "" 0 lastActive successes failures currentTask []).

(** An observed state that reports [n] agents of role EXPLORER, no recent
    decision and an evolution score of [0.5] (the mock state of the engine's
    unit tests). *)
Definition stateWith (n : nat) : SystemState.t :=
  SystemState.mk (Z.of_nat n)
    (map (λ i, agent ("agent_" +:+ pretty i) EXPLORER 0 0 0 None) (seq 0 n))
    [] [] (EvolutionMetrics.mk 0.5 0 0) 0.

(** A decision of the given type, and the result of acting on it. *)
Definition decision (type : DecisionType) : Decision.t :=
  Decision.mk "decision_00" type "reasoning" [] 0 0.5 "genesis_root" (Some "genesis_root").

Definition result (type : DecisionType) (success : bool) : ActionResult.t :=
  ActionResult.mk success (decision type)
    (if success then "done" else "Action failed") None
    (if success then None else Some "network error") 0 0.

(** A controller with a fresh engine, an empty store and the given
    evolution score. *)
Definition controller (score : Q) : GenesisAgent.t :=
  GenesisAgent.mk
    (MemorySystem.mk [] [] [] (SystemMetrics.mk 0 0 0 0 0 0 0 score 0 0))
    DecisionEngine.constructor.

(** An Evolve phase that draws [random] and reads the clock at [now]. *)
Definition evolveEnv (random : Q) (now : Z) : GenesisAgent.EvolveEnv.t :=
  GenesisAgent.EvolveEnv.mk random [Byte.x00] now now.

(** A memo transaction, a network on which every send and every blockhash
    fetch fails, and one on which only the third send succeeds. *)
Definition transaction : SolanaTransactions.Transaction.t :=
  SolanaTransactions.Transaction.mk "memo" (Some "blockhash_0") (Some "genesis_key").

Definition offline : SolanaTransactions.Connection.t :=
  SolanaTransactions.Connection.mk
    (λ _ _ _, Js.Throw "send failed")
    (λ _, Js.Throw "blockhash unavailable").

Definition thirdTimeLucky : SolanaTransactions.Connection.t :=
  SolanaTransactions.Connection.mk
    (λ attempt _ _, if (attempt =? 3)%nat then Js.Ok "signature_3" else Js.Throw "send failed")
    (λ attempt, Js.Ok ("blockhash_" +:+ pretty attempt)).

(** The collaborators of a task execution in which the store saves, the role
    task returns [outcome] and every submission to the ledger is refused. *)
Definition taskEnv (outcome : Js.Result string) : TaskExecutor.Env.t :=
  TaskExecutor.Env.mk [Byte.x2a] 100 200 300 400
    (λ _ _, outcome)
    true 250
    (λ _, Js.Ok ())
    (λ _, Js.Ok (Some "genesis_wallet"))
    (λ wallet, Js.Ok wallet)
    (λ _ payer, Js.Ok (SolanaTransactions.Transaction.mk "memo" (Some "blockhash_0") (Some payer)))
    (λ _ _, Js.Throw "send failed")
    (Js.Ok ()).

(** The key of a raw byte record: the hexadecimal print of its first byte. *)
Definition firstByte (record : AtomicStorage.Bytes) : string := Js.toHex (take 1 record).

(** The collaborators of a task execution in which the store refuses to save
    an agent that has never failed and accepts any other. *)
Definition flakyStoreEnv : TaskExecutor.Env.t :=
  TaskExecutor.Env.mk [Byte.x2a] 100 200 300 400
    (λ _ _, Js.Ok "report")
    false 250
    (λ a, if (Metadata.failureCount (Agent.metadata a) =? 0)%nat
          then Js.Throw "disk full" else Js.Ok ())
    (λ _, Js.Ok (Some "genesis_wallet"))
    (λ wallet, Js.Ok wallet)
    (λ _ payer, Js.Ok (SolanaTransactions.Transaction.mk "memo" (Some "blockhash_0") (Some payer)))
    (λ _ _, Js.Ok "signature_1")
    (Js.Ok ()).

End Samples.

(** ** Further functions of the sources *)

(** *** Airdrop requests ([solana/transactions.ts]) *)

Module Airdrop.

(** The faucet as [requestAirdrop] meets it: the outcome of the request made
    in the [attempt]-th iteration, and of the confirmation of the signature
    that the request returned. *)
Module Faucet.
Record t := mk {
  requestAirdrop : nat → string → Z → Js.Result string;
  confirmTransaction : nat → string → Js.Result unit;
}.
End Faucet.

Inductive Event :=
| Requested (attempt : nat)
| Waited (ms : Z).

(** The body of the [try]: request, then confirm, then return the signature. *)
Definition attemptOnce (faucet : Faucet.t) (attempt : nat) (publicKey : string) (amount : Z)
  : Js.Result string :=
  signature ← Faucet.requestAirdrop faucet attempt publicKey amount;
  _ ← Faucet.confirmTransaction faucet attempt signature;
  mret signature.

(** The [for] loop from [attempt] on, with [remaining] iterations left. *)
Fixpoint airdropLoop (faucet : Faucet.t) (publicKey : string) (amount : Z) (maxRetries : nat)
    (remaining attempt : nat) : Js.Result string * list Event :=
  match remaining with
  | O => (Js.Throw "Airdrop failed after all retries", [])
  | S remaining' =>
      match attemptOnce faucet attempt publicKey amount with
      | Js.Ok signature => (Js.Ok signature, [Requested attempt])
      | Js.Throw error =>
          if (attempt =? maxRetries)%nat then (Js.Throw error, [Requested attempt])
          else
            let '(outcome, trace) :=
              airdropLoop faucet publicKey amount maxRetries remaining' (S attempt) in
            (outcome, Requested attempt :: Waited (2000 * Z.of_nat attempt) :: trace)
      end
  end.

(** [requestAirdrop(publicKey, amount, maxRetries = 3)] *)
Definition requestAirdrop (faucet : Faucet.t) (publicKey : string) (amount : Z)
    (maxRetries : option nat) : Js.Result string * list Event :=
  let maxRetries := default 3%nat maxRetries in
  airdropLoop faucet publicKey amount maxRetries maxRetries 1.

(** The trace of a call whose attempts [first], ..., [last - 1] fail and
    whose attempt [last] ends it. *)
Definition traceUpTo (first last : nat) : list Event :=
  flat_map (λ attempt, [Requested attempt; Waited (2000 * Z.of_nat attempt)])
    (seq first (last - first))
  ++ [Requested last].

End Airdrop.

(** *** The controller's actions and metrics ([core/genesis.ts]) *)

(** The wallet and the network as an on-chain logging step meets them; the
    memo is whatever record the step builds. *)
Module Chain.
Record t (memo : Type) := mk {
  getWallet : string → Js.Result (option string);
  getKeypair : string → Js.Result string;
  buildMemoTransaction : memo → string → Js.Result SolanaTransactions.Transaction.t;
  submitTransaction : SolanaTransactions.Transaction.t → list string → Js.Result string;
}.
Arguments mk {memo}.
Arguments getWallet {memo}.
Arguments getKeypair {memo}.
Arguments buildMemoTransaction {memo}.
Arguments submitTransaction {memo}.
End Chain.

Module GenesisActions.

(** One pass of the loop as [updateMetrics] sees it: the cycle time, whether
    the action succeeded, the clock read for the uptime and the time at
    which the store stamps the aggregate. *)
Module Cycle.
Record t := mk {
  cycleTime : Z;
  success : bool;
  now : Z;
  updateTime : Z;
}.
End Cycle.

(** [updateMetrics(cycleTime, success)]; [startTime] is the time at which
    the loop was started. *)
Definition updateMetrics (startTime : Z) (g : GenesisAgent.t) (cycle : Cycle.t)
  : GenesisAgent.t :=
  let metrics := MemorySystem.getMetrics (GenesisAgent.memory g) in
  let uptime := inject_Z (Cycle.now cycle - startTime) / 1000 in
  GenesisAgent.mk
    (MemorySystem.updateMetrics (Cycle.updateTime cycle) (GenesisAgent.memory g)
       (MetricsPatch.mk None
          (Some (SystemMetrics.totalDecisions metrics + 1)%Z)
          (Some (SystemMetrics.successfulActions metrics
                 + (if Cycle.success cycle then 1 else 0))%Z)
          (Some (SystemMetrics.failedActions metrics
                 + (if Cycle.success cycle then 0 else 1))%Z)
          None
          (Some ((SystemMetrics.averageCycleTime metrics
                    * inject_Z (SystemMetrics.totalDecisions metrics)
                  + inject_Z (Cycle.cycleTime cycle))
                 / inject_Z (SystemMetrics.totalDecisions metrics + 1)))
          None
          (Some uptime)))
    (GenesisAgent.decisionEngine g).

(** The metric updates of a run of cycles. *)
Definition updateMetricsAll (startTime : Z) (g : GenesisAgent.t) (cycles : list Cycle.t)
  : GenesisAgent.t :=
  foldl (updateMetrics startTime) g cycles.

(** [Math.round] *)
Definition Math_round (x : Q) : Z := Qfloor (x + (1 # 2)).

(** The memo of a strategy evolution.  [weightsAfter] is the snapshot whose
    JSON text, cut at 200 characters, the memo carries. *)
Module EvolutionMemo.
Record t := mk {
  type : string;
  agentId : string;
  successRate : Z;
  adjustments : string;
  weightsAfter : list (string * Q);
  timestamp : Z;
  genesisId : string;
}.
End EvolutionMemo.

(** The share of successful actions, 1 when no action was counted. *)
Definition overallSuccessRate (metrics : SystemMetrics.t) : Q :=
  if (0 <? SystemMetrics.successfulActions metrics + SystemMetrics.failedActions metrics)%Z
  then inject_Z (SystemMetrics.successfulActions metrics)
       / inject_Z (SystemMetrics.successfulActions metrics + SystemMetrics.failedActions metrics)
  else 1.0.

(** The first part of [actEvolveStrategy]: the three conditional weight
    updates, with the texts pushed to [adjustments]. *)
Definition adjustStrategy (g : GenesisAgent.t) : DecisionEngine.t * list string :=
  let metrics := MemorySystem.getMetrics (GenesisAgent.memory g) in
  let successRate := overallSuccessRate metrics in
  let engine := GenesisAgent.decisionEngine g in
  let adjustments : list string := [] in
  let '(engine, adjustments) :=
    if AgentCoordinator.lt successRate 0.5
    then (DecisionEngine.updateWeights engine WAIT_AND_OBSERVE true,
          adjustments ++ ["Increased WAIT_AND_OBSERVE weight (low success rate)"])
    else (engine, adjustments) in
  let allAgents := MemorySystem.getAllAgents (GenesisAgent.memory g) in
  let '(engine, adjustments) :=
    if (length allAgents <? 3)%nat
    then (DecisionEngine.updateWeights engine CREATE_AGENT true,
          adjustments ++ ["Boosted CREATE_AGENT (ecosystem too small)"])
    else (engine, adjustments) in
  let '(engine, adjustments) :=
    if (3 <=? length allAgents)%nat && (5 <? SystemMetrics.totalDecisions metrics)%Z
    then (DecisionEngine.updateWeights engine DELEGATE_TASK true,
          adjustments ++ ["Boosted DELEGATE_TASK (agents available, need more activity)"])
    else (engine, adjustments) in
  (engine, adjustments).

(** The body of the [try] of [actEvolveStrategy] up to the submission. *)
Definition logEvolutionOnChain (chain : Chain.t EvolutionMemo.t) (now : Z)
    (successRate : Q) (adjustments : list string) (engine : DecisionEngine.t)
  : Js.Result (option string) :=
  walletInfo ← Chain.getWallet chain GenesisAgent.GENESIS_ID;
  match walletInfo with
  | None => mret None
  | Some wallet =>
      keypair ← Chain.getKeypair chain wallet;
      let memoData :=
        EvolutionMemo.mk "STRATEGY_EVOLUTION" GenesisAgent.GENESIS_ID
          (Math_round (successRate * 100))
          (Js.substring0 200 (String.concat "; " adjustments))
          (DecisionEngine.getWeightsSnapshot engine)
          now
          GenesisAgent.GENESIS_ID in
      transaction ← Chain.buildMemoTransaction chain memoData keypair;
      signature ← Chain.submitTransaction chain transaction [keypair];
      mret (Some signature)
  end.

(** [actEvolveStrategy]: the outcome text with the transaction signature,
    and the controller afterwards.  The calls to the store are taken to
    succeed, as in [evolve]; a throw of the wallet or of the network is
    caught. *)
Definition actEvolveStrategy (chain : Chain.t EvolutionMemo.t) (now updateTime : Z)
    (g : GenesisAgent.t) : (string * option string) * GenesisAgent.t :=
  let metrics := MemorySystem.getMetrics (GenesisAgent.memory g) in
  let successRate := overallSuccessRate metrics in
  let '(engine, adjustments) := adjustStrategy g in
  let txSignature :=
    match logEvolutionOnChain chain now successRate adjustments engine with
    | Js.Ok signature => signature
    | Js.Throw _ => None
    end in
  let memory :=
    match txSignature with
    | Some _ =>
        let m := MemorySystem.getMetrics (GenesisAgent.memory g) in
        MemorySystem.updateMetrics updateTime (GenesisAgent.memory g)
          (MetricsPatch.mk None None None None
             (Some (SystemMetrics.totalTransactions m + 1)%Z) None None None)
    | None => GenesisAgent.memory g
    end in
  let outcome :=
    "Strategy evolution: " +:+ pretty (length adjustments)
      +:+ " adjustments, success rate " +:+ Js.toFixed 1 (successRate * 100) +:+ "%" in
  ((outcome, txSignature), GenesisAgent.mk memory engine).

(** The filter of [actDelegateTask]: a child that is active or created and
    has no current task. *)
Definition isIdleChild (a : Agent.t) : bool :=
  DecisionEngine.isChild a && GenesisAgent.isActive a && DecisionEngine.isIdle a.

(** [childAgents.sort((a, b) => a.metadata.lastActive - b.metadata.lastActive)]:
    the sort is stable, so the sorted array is the one that inserting each
    agent before the first one that is not older, from the last agent to the
    first, builds. *)
Fixpoint insertByLastActive (a : Agent.t) (sorted : list Agent.t) : list Agent.t :=
  match sorted with
  | [] => [a]
  | b :: rest =>
      if (Metadata.lastActive (Agent.metadata a) <=? Metadata.lastActive (Agent.metadata b))%Z
      then a :: b :: rest
      else b :: insertByLastActive a rest
  end.

Definition sortByLastActive (agents : list Agent.t) : list Agent.t :=
  foldr insertByLastActive [] agents.

Definition TaskStatus_str (status : TaskStatus.t) : string :=
  match status with
  | TaskStatus.PENDING => "PENDING"
  | TaskStatus.IN_PROGRESS => "IN_PROGRESS"
  | TaskStatus.COMPLETED => "COMPLETED"
  | TaskStatus.FAILED => "FAILED"
  end.

(** [selectedAgent.metadata.currentTask = `${selectedAgent.role}_TASK`] *)
Definition markBusy (agent : Agent.t) : Agent.t :=
  let m := Agent.metadata agent in
  Agent.mk (Agent.id agent) (Agent.role agent) (Agent.mission agent)
    (Agent.walletAddress agent) (Agent.createdAt agent) (Agent.createdBy agent)
    (Agent.status agent)
    (Metadata.mk (Metadata.creationTx m) (Metadata.missionProgress m)
       (Metadata.lastActive m) (Metadata.successCount m) (Metadata.failureCount m)
       (Some (AgentRole_str (Agent.role agent) +:+ "_TASK"))
       (Metadata.taskHistory m)).

(** The remainder of [actDelegateTask] once the agent is selected. *)
Definition delegateTo (env : TaskExecutor.Env.t) (x : TaskExecutor.t) (selectedAgent : Agent.t)
  : Js.Result (string * option string) * TaskExecutor.t :=
  let selectedAgent := markBusy selectedAgent in
  match TaskExecutor.Env.saveAgent env selectedAgent with
  | Js.Throw error => (Js.Throw error, x)
  | Js.Ok _ =>
      let '(taskResult, x) := TaskExecutor.executeTask env x selectedAgent in
      match taskResult with
      | Js.Throw error => (Js.Throw error, x)
      | Js.Ok (task, _) =>
          (Js.Ok ("Delegated task to " +:+ AgentRole_str (Agent.role selectedAgent)
                    +:+ " agent " +:+ Agent.id selectedAgent +:+ ": "
                    +:+ TaskStatus_str (TaskAssignment.status task) +:+ " — "
                    +:+ Js.substring0 120 (default "" (TaskAssignment.result task)),
                  TaskAssignment.onChainTx task), x)
      end
  end.

(** [actDelegateTask]; [agents] is what [memory.getAllAgents()] returns. *)
Definition actDelegateTask (env : TaskExecutor.Env.t) (x : TaskExecutor.t)
    (agents : list Agent.t) : Js.Result (string * option string) * TaskExecutor.t :=
  let childAgents := filter (λ a, isIdleChild a = true) agents in
  if (length childAgents =? 0)%nat then
    (Js.Ok ("No idle child agents available for task delegation", None), x)
  else
    match sortByLastActive childAgents with
    | selectedAgent :: _ => delegateTo env x selectedAgent
    | [] => (Js.Throw "TypeError: Cannot read properties of undefined", x)
    end.

End GenesisActions.

(** *** Coordination and performance analysis ([core/agent-coordinator.ts]) *)

Module AgentMessage.
Inductive MessageType :=
  TASK_ASSIGNMENT | TASK_RESULT | STATUS_REQUEST | STATUS_RESPONSE | COORDINATION.
(** The two payloads that the coordinator writes: [{ requestedAt }] and
    [{ action: 'TAKE_OVER', fromAgent, reason }]. *)
Inductive Payload :=
| StatusRequested (requestedAt : Z)
| TakeOver (fromAgent : string) (reason : string).
Record t := mk {
  id : string;
  fromAgent : string;
  toAgent : string;
  type : MessageType;
  payload : Payload;
  timestamp : Z;
}.
End AgentMessage.

Module Coordinator.

#[global] Instance HealthStatus_eq_dec : EqDecision HealthStatus.
Proof. solve_decision. Defined.

Module CoordinationMemo.
Record t := mk {
  type : string;
  agentId : string;
  agentCount : nat;
  healthyAgents : nat;
  degradedAgents : nat;
  criticalAgents : nat;
  timestamp : Z;
  genesisId : string;
}.
End CoordinationMemo.

Module AnalysisMemo.
Record t := mk {
  type : string;
  agentId : string;
  recommendationCount : nat;
  topRecommendation : string;
  timestamp : Z;
  genesisId : string;
}.
End AnalysisMemo.

(** What one call of the coordinator reads from its surroundings.  The
    agents are numbered in the order of the loop and the messages in the
    order in which the call creates them: [reportTime i] is the clock when
    the report of agent [i] is built, [requestedAt i] the clock written to its
    status request, [messageBytes k] and [messageTime k] the random bytes and
    the clock of message [k].  [countTransaction] is the outcome of the
    read-modify-write of the store's transaction count. *)
Module Env.
Record t (memo : Type) := mk {
  reportTime : nat → Z;
  requestedAt : nat → Z;
  messageBytes : nat → list Byte.byte;
  messageTime : nat → Z;
  logTime : Z;
  chain : Chain.t memo;
  countTransaction : Js.Result unit;
}.
Arguments mk {memo}.
Arguments reportTime {memo}.
Arguments requestedAt {memo}.
Arguments messageBytes {memo}.
Arguments messageTime {memo}.
Arguments logTime {memo}.
Arguments chain {memo}.
Arguments countTransaction {memo}.
End Env.

(** The coordinator's own state. *)
Record t := mk { messageLog : list AgentMessage.t }.

(** [createMessage] for the message numbered [k]. *)
Definition createMessage {memo} (env : Env.t memo) (k : nat) (from to : string)
    (type : AgentMessage.MessageType) (payload : AgentMessage.Payload) : AgentMessage.t :=
  AgentMessage.mk ("msg_" +:+ Js.toHex (Env.messageBytes env k)) from to type payload
    (Env.messageTime env k).

(** [reports.filter((r) => r.healthStatus === status)] *)
Definition withStatus (status : HealthStatus) (reports : list AgentReport.t)
  : list AgentReport.t :=
  filter (λ r, AgentReport.healthStatus r = status) reports.

(** The steps of an on-chain log that are common to the coordinator's two
    logging functions: the body of the [try], then the [catch] that turns
    any throw into [undefined]. *)
Definition logOnChain {memo} (env : Env.t memo) (memoData : memo) : option string :=
  let body : Js.Result (option string) :=
    genesisWallet ← Chain.getWallet (Env.chain env) "genesis_root";
    match genesisWallet with
    | None => mret None
    | Some wallet =>
        keypair ← Chain.getKeypair (Env.chain env) wallet;
        transaction ← Chain.buildMemoTransaction (Env.chain env) memoData keypair;
        signature ← Chain.submitTransaction (Env.chain env) transaction [keypair];
        _ ← Env.countTransaction env;
        mret (Some signature)
    end in
  match body with
  | Js.Ok signature => signature
  | Js.Throw _ => None
  end.

Definition logCoordinationOnChain (env : Env.t CoordinationMemo.t) (agentCount : nat)
    (reports : list AgentReport.t) : option string :=
  logOnChain env
    (CoordinationMemo.mk "COORDINATION" "genesis_root" agentCount
       (length (withStatus HEALTHY reports))
       (length (withStatus DEGRADED reports))
       (length (withStatus CRITICAL reports))
       (Env.logTime env) "genesis_root").

(** The first loop of [coordinateAgents]: a report and a status request per
    agent. *)
Definition statusRound {memo} (env : Env.t memo) (agents : list Agent.t)
  : list AgentReport.t * list AgentMessage.t :=
  (imap (λ i agent, AgentCoordinator.generateAgentReport (Env.reportTime env i) agent) agents,
   imap (λ i agent,
           createMessage env i "genesis_root" (Agent.id agent) AgentMessage.STATUS_REQUEST
             (AgentMessage.StatusRequested (Env.requestedAt env i)))
        agents).

(** [reports.find((r) => r.agentId === a.id)?.healthStatus === 'HEALTHY'] *)
Definition reportedHealthy (reports : list AgentReport.t) (a : Agent.t) : bool :=
  match find (λ r, bool_decide (AgentReport.agentId r = Agent.id a)) reports with
  | Some report => bool_decide (AgentReport.healthStatus report = HEALTHY)
  | None => false
  end.

(** The healthy agent of the same role that is to take over. *)
Definition findBackup (agents : list Agent.t) (reports : list AgentReport.t)
    (agent : Agent.t) : option Agent.t :=
  find (λ a, bool_decide (Agent.role a = Agent.role agent)
             && bool_decide (Agent.id a ≠ Agent.id agent)
             && reportedHealthy reports a)
       agents.

(** One pass of the loop over the critical reports; the state of the loop is
    the messages pushed so far and [messagesExchanged]. *)
Definition redistribute {memo} (env : Env.t memo) (agents : list Agent.t)
    (reports : list AgentReport.t) (acc : list AgentMessage.t * nat)
    (critical : AgentReport.t) : list AgentMessage.t * nat :=
  let '(pushed, messagesExchanged) := acc in
  match find (λ a, bool_decide (Agent.id a = AgentReport.agentId critical)) agents with
  | None => acc
  | Some agent =>
      match findBackup agents reports agent with
      | Some backup =>
          (pushed ++ [createMessage env messagesExchanged "genesis_root" (Agent.id backup)
                        AgentMessage.COORDINATION
                        (AgentMessage.TakeOver (Agent.id agent) "Critical agent health")],
           S messagesExchanged)
      | None => acc
      end
  end.

Module Coordination.
Record t := mk {
  outcome : string;
  reports : list AgentReport.t;
  messagesExchanged : nat;
  txSignature : option string;
}.
End Coordination.

(** [coordinateAgents]: what the call returns, and the coordinator
    afterwards. *)
Definition coordinateAgents (env : Env.t CoordinationMemo.t) (c : t) (state : SystemState.t)
  : Coordination.t * t :=
  let agents := filter (λ a, Agent.id a ≠ "genesis_root") (SystemState.activeAgents state) in
  let '(reports, requests) := statusRound env agents in
  let messagesExchanged := length agents in
  let criticalAgents := withStatus CRITICAL reports in
  let degradedAgents := withStatus DEGRADED reports in
  let healthyAgents := withStatus HEALTHY reports in
  let '(pushed, messagesExchanged) :=
    foldl (redistribute env agents reports) (requests, messagesExchanged) criticalAgents in
  let txSignature := logCoordinationOnChain env (length agents) reports in
  let outcome :=
    String.concat " | "
      ["Coordinated " +:+ pretty (length agents) +:+ " agents";
       "Healthy: " +:+ pretty (length healthyAgents);
       "Degraded: " +:+ pretty (length degradedAgents);
       "Critical: " +:+ pretty (length criticalAgents);
       "Messages: " +:+ pretty messagesExchanged] in
  (Coordination.mk outcome reports messagesExchanged txSignature,
   mk (messageLog c ++ pushed)).

Module Analysis.
Record t := mk {
  outcome : string;
  recommendations : list string;
  txSignature : option string;
}.
End Analysis.

Definition missingRole (role : AgentRole) : string :=
  "Create " +:+ AgentRole_str role +:+ " agent — role is missing from ecosystem".

(** The recommendations of [analyzePerformance], in the order in which they
    are pushed; [metrics] is what [memory.getMetrics()] returns. *)
Definition recommend (metrics : SystemMetrics.t) (agents : list Agent.t) : list string :=
  let roleCounts := AgentFactory.countRoles agents in
  let recommendations :=
    flat_map (λ entry : AgentRole * nat,
                if (entry.2 =? 0)%nat then [missingRole entry.1] else [])
             roleCounts in
  let overallSuccess := GenesisActions.overallSuccessRate metrics in
  let recommendations :=
    if AgentCoordinator.lt overallSuccess 0.5
    then recommendations ++ ["System success rate below 50% — consider EVOLVE_STRATEGY"]
    else recommendations in
  let recommendations :=
    if (length agents <? 3)%nat
    then recommendations ++ ["Ecosystem understaffed — prioritize CREATE_AGENT"]
    else if (8 <? length agents)%nat
    then recommendations ++ ["Large ecosystem — focus on COORDINATE_AGENTS"]
    else recommendations in
  if AgentCoordinator.lt (SystemMetrics.evolutionScore metrics) 0.3
  then recommendations
         ++ ["Low evolution score — the system needs more successful actions"]
  else recommendations.

Definition logAnalysisOnChain (env : Env.t AnalysisMemo.t) (recommendations : list string)
  : option string :=
  logOnChain env
    (AnalysisMemo.mk "PERFORMANCE_ANALYSIS" "genesis_root"
       (length recommendations)
       (match recommendations with
        | first :: _ => if bool_decide (first = "") then "None" else first
        | [] => "None"
        end)
       (Env.logTime env) "genesis_root").

Definition analyzePerformance (env : Env.t AnalysisMemo.t) (metrics : SystemMetrics.t)
    (state : SystemState.t) : Analysis.t :=
  let agents := SystemState.activeAgents state in
  let recommendations := recommend metrics agents in
  let overallSuccess := GenesisActions.overallSuccessRate metrics in
  let txSignature := logAnalysisOnChain env recommendations in
  let outcome :=
    String.concat " | "
      ["Performance analysis complete";
       "Agents: " +:+ pretty (length agents);
       "Success rate: " +:+ Js.toFixed 1 (overallSuccess * 100) +:+ "%";
       "Evolution: " +:+ Js.toFixed 3 (SystemMetrics.evolutionScore metrics);
       "Recommendations: " +:+ pretty (length recommendations)] in
  Analysis.mk outcome recommendations txSignature.

End Coordinator.

(** *** Wallets ([wallet/agent-wallet.ts]) *)

Module WalletInfo.
Record t := mk {
  agentId : string;
  publicKey : string;
  privateKey : string;
  balance : Z;
  createdAt : Z;
  lastUsed : Z;
  transactionCount : Z;
  airdropCount : Z;
}.
#[global] Instance eq_dec : EqDecision t.
Proof. solve_decision. Defined.
End WalletInfo.

Module AgentWallet.

(** The calls that the wallet manager makes on the faucet, the network and
    the store, in order; a call is listed whether it returns or throws. *)
Inductive Call :=
| RequestAirdrop (publicKey : string) (amount : Z)
| ReadBalance (publicKey : string)
| SaveWallet (wallet : WalletInfo.t).

(** The surroundings of a wallet operation: the generated key pair with its
    encrypted secret key, the faucet, the balance as the network reports it,
    the store, and the clock.  [getWallet] is indexed by the number of the
    read within the operation. *)
Module Env.
Record t := mk {
  generatedPublicKey : string;
  encryptedPrivateKey : Js.Result string;
  requestAirdrop : string → Z → Js.Result string;
  getBalance : string → Js.Result Z;
  getWallet : nat → string → Js.Result (option WalletInfo.t);
  saveWallet : WalletInfo.t → Js.Result unit;
  createdAt : Z;
  lastUsed : Z;
}.
End Env.

Record t := mk {
  airdropAmount : Z;
  lowBalanceThreshold : Z;
}.

(** The constructor's default arguments. *)
Definition constructor : t := mk 1000000000 100000000.

(** [createWallet]: what the call returns or throws, and the calls it made. *)
Definition createWallet (env : Env.t) (w : t) (agentId : string) (isGenesis : bool)
  : Js.Result WalletInfo.t * list Call :=
  let publicKey := Env.generatedPublicKey env in
  match Env.encryptedPrivateKey env with
  | Js.Throw error => (Js.Throw error, [])
  | Js.Ok encryptedPrivateKey =>
      let airdropAmount := if isGenesis then (airdropAmount w * 2)%Z else airdropAmount w in
      let '(balance, airdropCount, calls) :=
        match Env.requestAirdrop env publicKey airdropAmount with
        | Js.Throw _ => (0%Z, 0%Z, [RequestAirdrop publicKey airdropAmount])
        | Js.Ok _ =>
            match Env.getBalance env publicKey with
            | Js.Throw _ =>
                (0%Z, 0%Z, [RequestAirdrop publicKey airdropAmount; ReadBalance publicKey])
            | Js.Ok balance =>
                (balance, 1%Z, [RequestAirdrop publicKey airdropAmount; ReadBalance publicKey])
            end
        end in
      let walletInfo :=
        WalletInfo.mk agentId publicKey encryptedPrivateKey balance
          (Env.createdAt env) (Env.lastUsed env) 0 airdropCount in
      match Env.saveWallet env walletInfo with
      | Js.Throw error => (Js.Throw error, calls ++ [SaveWallet walletInfo])
      | Js.Ok _ => (Js.Ok walletInfo, calls ++ [SaveWallet walletInfo])
      end
  end.

Definition setBalance (wallet : WalletInfo.t) (balance : Z) : WalletInfo.t :=
  WalletInfo.mk (WalletInfo.agentId wallet) (WalletInfo.publicKey wallet)
    (WalletInfo.privateKey wallet) balance (WalletInfo.createdAt wallet)
    (WalletInfo.lastUsed wallet) (WalletInfo.transactionCount wallet)
    (WalletInfo.airdropCount wallet).

Definition countAirdrop (wallet : WalletInfo.t) : WalletInfo.t :=
  WalletInfo.mk (WalletInfo.agentId wallet) (WalletInfo.publicKey wallet)
    (WalletInfo.privateKey wallet) (WalletInfo.balance wallet) (WalletInfo.createdAt wallet)
    (WalletInfo.lastUsed wallet) (WalletInfo.transactionCount wallet)
    (WalletInfo.airdropCount wallet + 1)%Z.

(** [getBalance(agentId)], whose read of the store is read number [0]. *)
Definition getBalance (env : Env.t) (agentId : string) : Js.Result Z * list Call :=
  match Env.getWallet env 0%nat agentId with
  | Js.Throw error => (Js.Throw error, [])
  | Js.Ok None => (Js.Throw ("Wallet not found for agent " +:+ agentId), [])
  | Js.Ok (Some wallet) =>
      match Env.getBalance env (WalletInfo.publicKey wallet) with
      | Js.Throw error => (Js.Throw error, [ReadBalance (WalletInfo.publicKey wallet)])
      | Js.Ok balance =>
          let wallet := setBalance wallet balance in
          match Env.saveWallet env wallet with
          | Js.Throw error =>
              (Js.Throw error, [ReadBalance (WalletInfo.publicKey wallet); SaveWallet wallet])
          | Js.Ok _ =>
              (Js.Ok balance, [ReadBalance (WalletInfo.publicKey wallet); SaveWallet wallet])
          end
      end
  end.

(** [checkAndRefillBalance(agentId)]; its own read of the store is read
    number [1]. *)
Definition checkAndRefillBalance (env : Env.t) (w : t) (agentId : string)
  : Js.Result unit * list Call :=
  match getBalance env agentId with
  | (Js.Throw error, calls) => (Js.Throw error, calls)
  | (Js.Ok balance, calls) =>
      if (balance <? lowBalanceThreshold w)%Z then
        match Env.getWallet env 1%nat agentId with
        | Js.Throw error => (Js.Throw error, calls)
        | Js.Ok None => (Js.Ok (), calls)
        | Js.Ok (Some wallet) =>
            let request := RequestAirdrop (WalletInfo.publicKey wallet) (airdropAmount w) in
            match Env.requestAirdrop env (WalletInfo.publicKey wallet) (airdropAmount w) with
            | Js.Throw _ => (Js.Ok (), calls ++ [request])
            | Js.Ok _ =>
                (Js.Ok (), calls ++ [request; SaveWallet (countAirdrop wallet)])
            end
        end
      else (Js.Ok (), calls)
  end.

End AgentWallet.

(** *** Agent creation ([factory/agent-factory.ts]) *)

Module AgentCreation.

(** The calls that a creation makes on the wallet manager and the store, in
    order; a call is listed whether it returns or throws. *)
Inductive Call :=
| CreateWallet (agentId : string)
| SaveAgent (agent : Agent.t).

(** The surroundings of [createAgent]: the random bytes of the identifier,
    the mission text that [generateMission] builds, the store, the wallet
    manager and the clock. *)
Module Env.
Record t := mk {
  idBytes : list Byte.byte;
  mission : string;
  getAgent : string → Js.Result (option Agent.t);
  getAllAgents : Js.Result (list Agent.t);
  createWallet : string → bool → Js.Result WalletInfo.t;
  saveAgent : Agent.t → Js.Result unit;
  createdAt : Z;
  lastActive : Z;
}.
End Env.

(** The factory's own state. *)
Record t := mk { createdAgents : gset string }.

Definition generateAgentId (env : Env.t) : string :=
  "agent_" +:+ Js.toHex (Env.idBytes env).

Definition ensureUniqueness (env : Env.t) (agentId : string) (role : AgentRole)
    (mission : string) : Js.Result unit :=
  existingAgent ← Env.getAgent env agentId;
  match existingAgent with
  | Some _ => Js.Throw ("Agent with ID " +:+ agentId +:+ " already exists")
  | None =>
      allAgents ← Env.getAllAgents env;
      match find (λ a, bool_decide (Agent.role a = role)
                       && bool_decide (Agent.mission a = mission)) allAgents with
      | Some _ => Js.Throw "Agent with identical role-mission combination already exists"
      | None => mret ()
      end
  end.

(** [createAgent]: what the call returns or throws, the calls it made, and the
    factory afterwards. *)
Definition createAgent (env : Env.t) (f : t) (role : AgentRole) (creatorId : string)
  : Js.Result Agent.t * list Call * t :=
  let agentId := generateAgentId env in
  let mission := Env.mission env in
  match ensureUniqueness env agentId role mission with
  | Js.Throw error => (Js.Throw error, [], f)
  | Js.Ok _ =>
      match Env.createWallet env agentId false with
      | Js.Throw error => (Js.Throw error, [CreateWallet agentId], f)
      | Js.Ok walletInfo =>
          let agent :=
            Agent.mk agentId role mission (WalletInfo.publicKey walletInfo)
              (Env.createdAt env) creatorId AgentStatus.CREATED
              (Metadata.mk "" 0 (Env.lastActive env) 0 0 None []) in
          match Env.saveAgent env agent with
          | Js.Throw error => (Js.Throw error, [CreateWallet agentId; SaveAgent agent], f)
          | Js.Ok _ =>
              (Js.Ok agent, [CreateWallet agentId; SaveAgent agent],
               mk (createdAgents f ∪ {[agentId]}))
          end
      end
  end.

End AgentCreation.

(** The factory's surroundings with the wallet manager of
    [wallet/agent-wallet.ts] as its [createWallet]. *)
Definition factoryWithWallet (env : AgentCreation.Env.t) (walletEnv : AgentWallet.Env.t)
    (w : AgentWallet.t) : AgentCreation.Env.t :=
  AgentCreation.Env.mk
    (AgentCreation.Env.idBytes env) (AgentCreation.Env.mission env)
    (AgentCreation.Env.getAgent env) (AgentCreation.Env.getAllAgents env)
    (λ agentId isGenesis, (AgentWallet.createWallet walletEnv w agentId isGenesis).1)
    (AgentCreation.Env.saveAgent env)
    (AgentCreation.Env.createdAt env) (AgentCreation.Env.lastActive env).

Module WalletSamples.

(** A stored wallet with a low balance. *)
Definition lowWallet : WalletInfo.t :=
  WalletInfo.mk "agent_1" "public_key_1" "sealed" 5 10 20 3 1.

(** Surroundings in which the store holds [lowWallet], the network reports a
    balance of 50 lamports and the faucet is out of service. *)
Definition dryFaucet : AgentWallet.Env.t :=
  AgentWallet.Env.mk "public_key_2" (Js.Ok "sealed")
    (λ _ _, Js.Throw "airdrop limit reached")
    (λ _, Js.Ok 50%Z)
    (λ _ _, Js.Ok (Some lowWallet))
    (λ _, Js.Ok ())
    100 100.

(** A factory whose store holds one explorer. *)
Definition factoryEnv : AgentCreation.Env.t :=
  AgentCreation.Env.mk [Byte.x2a] "Explore the network"
    (λ _, Js.Ok None)
    (Js.Ok [Samples.agent "agent_0" EXPLORER 0 0 0 None])
    (λ _ _, Js.Throw "no wallet manager")
    (λ _, Js.Ok ())
    100 100.

End WalletSamples.

(** *** Secret-key encryption ([wallet/encryption.ts]) *)

Module Encryption.

Definition KEY_LENGTH : nat := 32.
Definition IV_LENGTH : nat := 16.
Definition SALT_LENGTH : nat := 32.
Definition TAG_LENGTH : nat := 16.

(** The platform's cryptography and encodings as the two functions use
    them: the key derivation, the authenticated cipher (ciphertext and tag on
    the way in; the plain text, or a throw, on the way out) and the base64
    text of a buffer. *)
Module Crypto.
Record t := mk {
  scryptSync : string → list Byte.byte → nat → list Byte.byte;
  seal : list Byte.byte → list Byte.byte → string → list Byte.byte * list Byte.byte;
  open : list Byte.byte → list Byte.byte → list Byte.byte → list Byte.byte → Js.Result string;
  toBase64 : list Byte.byte → string;
  fromBase64 : string → list Byte.byte;
}.
End Crypto.

(** [buffer.subarray(start, end)] and [buffer.subarray(start)] *)
Definition subarray (start finish : nat) (buffer : list Byte.byte) : list Byte.byte :=
  take (finish - start) (drop start buffer).

Definition subarrayFrom (start : nat) (buffer : list Byte.byte) : list Byte.byte :=
  drop start buffer.

(** [Buffer.from(text, 'hex')] on the hexadecimal text of a buffer. *)
Definition bufferFromHex (text : string) : list Byte.byte :=
  default [] (Js.fromHex text).

(** [encrypt]; [salt] and [iv] are the two draws of [randomBytes]. *)
Definition encrypt (c : Crypto.t) (salt iv : list Byte.byte) (data password : string)
  : string :=
  let key := Crypto.scryptSync c password salt KEY_LENGTH in
  let '(ciphertext, tag) := Crypto.seal c key iv data in
  let encrypted := Js.toHex ciphertext in
  let result := salt ++ iv ++ tag ++ bufferFromHex encrypted in
  Crypto.toBase64 c result.

Definition decrypt (c : Crypto.t) (encryptedData password : string) : Js.Result string :=
  let buffer := Crypto.fromBase64 c encryptedData in
  let salt := subarray 0 SALT_LENGTH buffer in
  let iv := subarray SALT_LENGTH (SALT_LENGTH + IV_LENGTH) buffer in
  let tag := subarray (SALT_LENGTH + IV_LENGTH) (SALT_LENGTH + IV_LENGTH + TAG_LENGTH) buffer in
  let encrypted := subarrayFrom (SALT_LENGTH + IV_LENGTH + TAG_LENGTH) buffer in
  let key := Crypto.scryptSync c password salt KEY_LENGTH in
  Crypto.open c key iv tag (bufferFromHex (Js.toHex encrypted)).

(** [process.env.GENESIS_ENCRYPTION_KEY || '...']: an unset variable and the
    empty string are falsy. *)
Definition getEncryptionKey (variable : option string) : string :=
  match variable with
  | Some key => if bool_decide (key = "") then "genesis-default-key-change-in-production" else key
  | None => "genesis-default-key-change-in-production"
  end.

End Encryption.

(** *** Configuration (the [ConfigLoader] class) *)

Module ConfigLoader.

(** The values of a configuration file: numbers, texts, booleans, [null]
    and arrays of texts. *)
Inductive Value :=
| Num (q : Q)
| Str (s : string)
| Bool (b : bool)
| Null
| Strs (l : list string).

(** A section of the configuration is an object: its own properties. *)
Abbreviation Entries := (gmap string Value).

Module Config.
Record t := mk {
  system : Entries;
  autonomy : Entries;
  agents : Entries;
  solana : Entries;
  memory : Entries;
  dashboard : Entries;
  demo : Entries;
}.
End Config.

Definition DEFAULT_ROLES : list string :=
  ["EXPLORER"; "BUILDER"; "ANALYST"; "COORDINATOR"; "GUARDIAN"].

Definition DEFAULT_CONFIG : Config.t :=
  Config.mk
    (list_to_map [("name", Str "GENESIS"); ("version", Str "1.0.0"); ("mode", Str "demo")])
    (list_to_map [("loopIntervalMs", Num 24000); ("observeTimeoutMs", Num 5000);
                  ("reasonTimeoutMs", Num 3000); ("decideTimeoutMs", Num 1000);
                  ("actTimeoutMs", Num 10000); ("logTimeoutMs", Num 3000);
                  ("evolveTimeoutMs", Num 2000)])
    (list_to_map [("maxAgents", Num 10); ("minAgentsForDemo", Num 3);
                  ("roles", Strs DEFAULT_ROLES)])
    (list_to_map [("network", Str "devnet"); ("rpcUrl", Str "https://api.devnet.solana.com");
                  ("commitment", Str "confirmed"); ("airdropAmount", Num 1000000000);
                  ("lowBalanceThreshold", Num 100000000)])
    (list_to_map [("storageDir", Str "./memory"); ("backupEnabled", Bool true);
                  ("maxBackups", Num 5)])
    (list_to_map [("enabled", Bool true); ("updateIntervalMs", Num 500);
                  ("maxEventsDisplayed", Num 20)])
    (list_to_map [("enabled", Bool true); ("durationMinutes", Num 5); ("minCycles", Num 10);
                  ("minTransactions", Num 5); ("minAgents", Num 3)]).

(** What [load] reads: the parsed file as the properties that each of its
    sections spreads (none for a section that the file lacks), or the throw
    of reading, of parsing or of merging a file that holds [null]; the four
    environment variables; and the number that a text converts to, [None]
    being [NaN]. *)
Module Env.
Record t := mk {
  loaded : Js.Result (string → Entries);
  SOLANA_RPC_URL : option string;
  SOLANA_NETWORK : option string;
  GENESIS_MODE : option string;
  MEMORY_DIR : option string;
  toNumber : string → option Q;
}.
End Env.

(** The loader's own state. *)
Record t := mk { config : Config.t }.

Definition constructor : t := mk DEFAULT_CONFIG.

(** [{ ...defaults.section, ...loaded.section }] for each section. *)
Definition mergeConfig (defaults : Config.t) (loaded : string → Entries) : Config.t :=
  Config.mk
    (loaded "system" ∪ Config.system defaults)
    (loaded "autonomy" ∪ Config.autonomy defaults)
    (loaded "agents" ∪ Config.agents defaults)
    (loaded "solana" ∪ Config.solana defaults)
    (loaded "memory" ∪ Config.memory defaults)
    (loaded "dashboard" ∪ Config.dashboard defaults)
    (loaded "demo" ∪ Config.demo defaults).

(** [if (process.env.X) section.key = process.env.X] *)
Definition applyVariable (variable : option string) (key : string) (section : Entries)
  : Entries :=
  match variable with
  | Some text => if bool_decide (text = "") then section else <[key := Str text]> section
  | None => section
  end.

Definition applyEnvironmentVariables (env : Env.t) (c : Config.t) : Config.t :=
  Config.mk
    (applyVariable (Env.GENESIS_MODE env) "mode" (Config.system c))
    (Config.autonomy c)
    (Config.agents c)
    (applyVariable (Env.SOLANA_NETWORK env) "network"
       (applyVariable (Env.SOLANA_RPC_URL env) "rpcUrl" (Config.solana c)))
    (applyVariable (Env.MEMORY_DIR env) "storageDir" (Config.memory c))
    (Config.dashboard c)
    (Config.demo c).

(** [value <= 0]: the value is converted to a number, a missing property
    and a text that is no number to [NaN], which compares false. *)
Definition notPositive (env : Env.t) (value : option Value) : bool :=
  let number :=
    match value with
    | Some (Num q) => Some q
    | Some (Str s) => Env.toNumber env s
    | Some (Bool b) => Some (if b then 1 else 0)
    | Some Null => Some 0
    | Some (Strs l) => Env.toNumber env (String.concat "," l)
    | None => None
    end in
  match number with
  | Some q => Qle_bool q 0
  | None => false
  end.

(** [if (section.key <= 0) section.key = DEFAULT_CONFIG.section.key] *)
Definition resetIfNotPositive (env : Env.t) (key : string) (defaults section : Entries)
  : Entries :=
  if notPositive env (section !! key)
  then <[key := default Null (defaults !! key)]> section
  else section.

(** [!Array.isArray(roles) || roles.length === 0] *)
Definition invalidRoles (value : option Value) : bool :=
  match value with
  | Some (Strs (_ :: _)) => false
  | _ => true
  end.

Definition validate (env : Env.t) (c : Config.t) : Config.t :=
  Config.mk
    (Config.system c)
    (resetIfNotPositive env "loopIntervalMs" (Config.autonomy DEFAULT_CONFIG) (Config.autonomy c))
    (let agents :=
       resetIfNotPositive env "maxAgents" (Config.agents DEFAULT_CONFIG) (Config.agents c) in
     if invalidRoles (agents !! "roles")
     then <["roles" := Strs DEFAULT_ROLES]> agents
     else agents)
    (resetIfNotPositive env "airdropAmount" (Config.solana DEFAULT_CONFIG) (Config.solana c))
    (Config.memory c)
    (Config.dashboard c)
    (Config.demo c).

(** [load]: the configuration that the call returns, and the loader
    afterwards. *)
Definition load (env : Env.t) (l : t) : Config.t * t :=
  match Env.loaded env with
  | Js.Ok loaded =>
      let config := mergeConfig DEFAULT_CONFIG loaded in
      let config := applyEnvironmentVariables env config in
      let config := validate env config in
      (config, mk config)
  | Js.Throw _ => (DEFAULT_CONFIG, l)
  end.

Definition getConfig (l : t) : Config.t := config l.

End ConfigLoader.

Module ConfigSamples.

(** A file that sets a negative loop interval, an empty list of roles, an
    RPC address and a property that the defaults do not know. *)
Definition file (name : string) : ConfigLoader.Entries :=
  if bool_decide (name = "autonomy") then
    list_to_map [("loopIntervalMs", ConfigLoader.Num (-5));
                 ("actTimeoutMs", ConfigLoader.Num 500)]
  else if bool_decide (name = "agents") then
    list_to_map [("roles", ConfigLoader.Strs [])]
  else if bool_decide (name = "solana") then
    list_to_map [("rpcUrl", ConfigLoader.Str "http://localhost:8899");
                 ("wsUrl", ConfigLoader.Str "ws://localhost:8900")]
  else ∅.

(** Surroundings with that file, in which only [SOLANA_RPC_URL] is set and
    [GENESIS_MODE] is the empty text. *)
Definition env : ConfigLoader.Env.t :=
  ConfigLoader.Env.mk (Js.Ok file) (Some "https://rpc.example") None (Some "") None
    (λ _, None).

End ConfigSamples.

(** *** The CREATE_AGENT action ([core/genesis.ts]) *)

Module GenesisCreation.

Module CreationMemo.
Record t := mk {
  type : string;
  agentId : string;
  role : string;
  mission : string;
  timestamp : Z;
  genesisId : string;
}.
End CreationMemo.

(** The calls that the action makes on the factory, the store and the
    network, in order; a call is listed whether it returns or throws. *)
Inductive Call :=
| Factory (call : AgentCreation.Call)
| SaveAgent (agent : Agent.t)
| Submit (transaction : SolanaTransactions.Transaction.t)
| CountTransaction.

(** The surroundings of the action: those of the factory, whose store is
    also the one that the action saves to, the wallet and the network, the
    clock, and the outcome of the read-modify-write of the store's
    transaction count. *)
Module Env.
Record t := mk {
  factory : AgentCreation.Env.t;
  chain : Chain.t CreationMemo.t;
  memoTime : Z;
  countTransaction : Js.Result unit;
}.
End Env.

(** [agent.status = AgentStatus.ACTIVE] *)
Definition activate (agent : Agent.t) : Agent.t :=
  Agent.mk (Agent.id agent) (Agent.role agent) (Agent.mission agent)
    (Agent.walletAddress agent) (Agent.createdAt agent) (Agent.createdBy agent)
    AgentStatus.ACTIVE (Agent.metadata agent).

(** [agent.metadata.creationTx = signature] *)
Definition withCreationTx (agent : Agent.t) (signature : string) : Agent.t :=
  let m := Agent.metadata agent in
  Agent.mk (Agent.id agent) (Agent.role agent) (Agent.mission agent)
    (Agent.walletAddress agent) (Agent.createdAt agent) (Agent.createdBy agent)
    (Agent.status agent)
    (Metadata.mk signature (Metadata.missionProgress m) (Metadata.lastActive m)
       (Metadata.successCount m) (Metadata.failureCount m) (Metadata.currentTask m)
       (Metadata.taskHistory m)).

(** The on-chain part of the action, for an agent that is saved as active. *)
Definition logCreation (env : Env.t) (role : AgentRole) (agent : Agent.t)
  : Js.Result (string * option string) * list Call :=
  match Chain.getWallet (Env.chain env) GenesisAgent.GENESIS_ID with
  | Js.Throw error => (Js.Throw error, [])
  | Js.Ok None =>
      (Js.Ok ("Created " +:+ AgentRole_str role +:+ " agent: " +:+ Agent.id agent, None), [])
  | Js.Ok (Some wallet) =>
      match Chain.getKeypair (Env.chain env) wallet with
      | Js.Throw error => (Js.Throw error, [])
      | Js.Ok keypair =>
          let memoData :=
            CreationMemo.mk "AGENT_CREATION" (Agent.id agent) (AgentRole_str (Agent.role agent))
              (Agent.mission agent) (Env.memoTime env) GenesisAgent.GENESIS_ID in
          match Chain.buildMemoTransaction (Env.chain env) memoData keypair with
          | Js.Throw error => (Js.Throw error, [])
          | Js.Ok transaction =>
              match Chain.submitTransaction (Env.chain env) transaction [keypair] with
              | Js.Throw error => (Js.Throw error, [Submit transaction])
              | Js.Ok signature =>
                  let agent := withCreationTx agent signature in
                  match AgentCreation.Env.saveAgent (Env.factory env) agent with
                  | Js.Throw error => (Js.Throw error, [Submit transaction; SaveAgent agent])
                  | Js.Ok _ =>
                      match Env.countTransaction env with
                      | Js.Throw error =>
                          (Js.Throw error,
                           [Submit transaction; SaveAgent agent; CountTransaction])
                      | Js.Ok _ =>
                          (Js.Ok ("Created " +:+ AgentRole_str role +:+ " agent: "
                                    +:+ Agent.id agent +:+ " (wallet: "
                                    +:+ Js.substring0 8 (Agent.walletAddress agent) +:+ "...)",
                                  Some signature),
                           [Submit transaction; SaveAgent agent; CountTransaction])
                      end
                  end
              end
          end
      end
  end.

(** [actCreateAgent]; [role] is what [selectRole] returns for the observed
    state. *)
Definition actCreateAgent (env : Env.t) (f : AgentCreation.t) (role : AgentRole)
  : Js.Result (string * option string) * list Call * AgentCreation.t :=
  let '(created, factoryCalls, f) :=
    AgentCreation.createAgent (Env.factory env) f role GenesisAgent.GENESIS_ID in
  let calls := map Factory factoryCalls in
  match created with
  | Js.Throw error => (Js.Throw error, calls, f)
  | Js.Ok agent =>
      let agent := activate agent in
      let calls := calls ++ [SaveAgent agent] in
      match AgentCreation.Env.saveAgent (Env.factory env) agent with
      | Js.Throw error => (Js.Throw error, calls, f)
      | Js.Ok _ =>
          let '(outcome, logCalls) := logCreation env role agent in
          (outcome, calls ++ logCalls, f)
      end
  end.

End GenesisCreation.

Module CreationSamples.

(** The agent that the sample factory creates. *)
Definition created : Agent.t :=
  Agent.mk "agent_2a" BUILDER "Explore the network" "public_key_2" 100 "genesis_root"
    AgentStatus.CREATED (Metadata.mk "" 0 100 0 0 None []).

(** Surroundings in which the factory and the store work and the network
    rejects every submission. *)
Definition env : GenesisCreation.Env.t :=
  GenesisCreation.Env.mk
    (factoryWithWallet WalletSamples.factoryEnv WalletSamples.dryFaucet AgentWallet.constructor)
    (Chain.mk (λ _, Js.Ok (Some "genesis_wallet")) (λ wallet, Js.Ok wallet)
       (λ _ payer, Js.Ok (SolanaTransactions.Transaction.mk "memo" (Some "blockhash_0")
                            (Some payer)))
       (λ _ _, Js.Throw "send failed"))
    100 (Js.Ok ()).

End CreationSamples.

(** *** The Act phase and the end of a cycle ([core/genesis.ts]) *)

Module GenesisAct.

(** What each of the five private actions would return or throw. *)
Module Actions.
Record t := mk {
  actCreateAgent : Js.Result (string * option string);
  actCoordinateAgents : Js.Result (string * option string);
  actEvolveStrategy : Js.Result (string * option string);
  actDelegateTask : Js.Result (string * option string);
  actAnalyzePerformance : Js.Result (string * option string);
}.
End Actions.

(** The three readings of the clock in [act]. *)
Module Clock.
Record t := mk {
  startTime : Z;
  resultTime : Z;
  endTime : Z;
}.
End Clock.

(** The [switch (decision.type)]. *)
Definition dispatch (actions : Actions.t) (type : DecisionType)
  : Js.Result (string * option string) :=
  match type with
  | CREATE_AGENT => Actions.actCreateAgent actions
  | COORDINATE_AGENTS => Actions.actCoordinateAgents actions
  | EVOLVE_STRATEGY => Actions.actEvolveStrategy actions
  | DELEGATE_TASK => Actions.actDelegateTask actions
  | ANALYZE_PERFORMANCE => Actions.actAnalyzePerformance actions
  | WAIT_AND_OBSERVE => Js.Ok ("Observed system state, no action taken", None)
  end.

(** Act phase. *)
Definition act (clock : Clock.t) (actions : Actions.t) (decision : Decision.t)
  : ActionResult.t :=
  match dispatch actions (Decision.type decision) with
  | Js.Ok (outcome, transactionSignature) =>
      ActionResult.mk true decision outcome transactionSignature None
        (Clock.resultTime clock) (Clock.endTime clock - Clock.startTime clock)
  | Js.Throw error =>
      ActionResult.mk false decision "Action failed" None (Some error)
        (Clock.resultTime clock) (Clock.endTime clock - Clock.startTime clock)
  end.

(** The end of a cycle of [startAutonomyLoop], given the result of its
    action: [await this.evolve(result)], then
    [await this.updateMetrics(cycleTime, result.success)]. *)
Definition settle (startTime : Z) (env : GenesisAgent.EvolveEnv.t) (g : GenesisAgent.t)
    (result : ActionResult.t) (cycleTime now updateTime : Z) : GenesisAgent.t :=
  GenesisActions.updateMetrics startTime (GenesisAgent.evolve env g result)
    (GenesisActions.Cycle.mk cycleTime (ActionResult.success result) now updateTime).

End GenesisAct.

(** * Properties *)

(** ** Rational arithmetic helpers *)

(** Case analysis on every [Qmin] and [Qmax] in sight, then linear
    arithmetic. *)
Ltac q_minmax :=
  unfold Js.Math_min, Js.Math_max in *;
  repeat match goal with
  | |- context [Qmin ?a ?b] =>
      let H := fresh "Hmin" in let m := fresh "m" in
      pose proof (Q.min_spec a b) as H; set (m := Qmin a b) in *; clearbody m;
      destruct H as [[? ?]|[? ?]]
  | |- context [Qmax ?a ?b] =>
      let H := fresh "Hmax" in let m := fresh "m" in
      pose proof (Q.max_spec a b) as H; set (m := Qmax a b) in *; clearbody m;
      destruct H as [[? ?]|[? ?]]
  | H0 : context [Qmin ?a ?b] |- _ =>
      let H := fresh "Hmin" in let m := fresh "m" in
      pose proof (Q.min_spec a b) as H; set (m := Qmin a b) in *; clearbody m;
      destruct H as [[? ?]|[? ?]]
  | H0 : context [Qmax ?a ?b] |- _ =>
      let H := fresh "Hmax" in let m := fresh "m" in
      pose proof (Q.max_spec a b) as H; set (m := Qmax a b) in *; clearbody m;
      destruct H as [[? ?]|[? ?]]
  end;
  try lra.

Lemma inject_nat_succ (n : nat) :
  inject_Z (Z.of_nat (S n)) == inject_Z (Z.of_nat n) + 1.
Proof. rewrite Nat2Z.inj_succ. unfold Z.succ. rewrite inject_Z_plus. reflexivity. Qed.

(** The clamp of the engine returns the cap itself once its argument reaches
    the cap, and the floor itself once its argument is at or below the floor. *)
Lemma clamp_at_cap (x : Q) : 0.9 <= x → Js.Math_max 0.05 (Js.Math_min 0.9 x) = 0.9.
Proof.
  intros Hx. unfold Js.Math_max, Js.Math_min, Qmin, Qmax, GenericMinMax.gmin, GenericMinMax.gmax.
  destruct (0.9 ?= x) eqn:Hc.
  - reflexivity.
  - reflexivity.
  - apply Qgt_alt in Hc. lra.
Qed.

Lemma clamp_at_floor (x : Q) : x <= 0.05 → Js.Math_max 0.05 (Js.Math_min 0.9 x) = 0.05.
Proof.
  intros Hx. unfold Js.Math_max, Js.Math_min, Qmin, Qmax, GenericMinMax.gmin, GenericMinMax.gmax.
  destruct (0.9 ?= x) eqn:Hc.
  - apply Qeq_alt in Hc. lra.
  - apply Qlt_alt in Hc. lra.
  - destruct (0.05 ?= x) eqn:Hd; try reflexivity.
    apply Qlt_alt in Hd. lra.
Qed.

Lemma clamp_range (x : Q) : 0.05 <= Js.Math_max 0.05 (Js.Math_min 0.9 x) <= 0.9.
Proof. split; q_minmax. Qed.

(** ** The weight vector *)

Module WeightFacts.
Import DecisionEngine.

Lemma constructor_inRange : inRange constructor.
Proof. intros []; simpl; lra. Qed.

Lemma updateWeights_same e d s :
  decisionWeights (updateWeights e d s) d
  = Js.Math_max 0.05 (Js.Math_min 0.9 (decisionWeights e d + (if s then 0.05 else - 0.05))).
Proof. unfold updateWeights, setWeight. simpl. rewrite decide_True by reflexivity. reflexivity. Qed.

Lemma updateWeights_other e d s d' :
  d' ≠ d → decisionWeights (updateWeights e d s) d' = decisionWeights e d'.
Proof. intros Hne. unfold updateWeights, setWeight. simpl. rewrite decide_False by assumption. reflexivity. Qed.

Lemma updateWeights_inRange e d s : inRange e → inRange (updateWeights e d s).
Proof.
  intros He d'. destruct (decide (d' = d)) as [->|Hne].
  - rewrite updateWeights_same. apply clamp_range.
  - rewrite updateWeights_other by assumption. apply He.
Qed.

Lemma updateAll_inRange calls : ∀ e, inRange e → inRange (updateAll e calls).
Proof.
  induction calls as [|[d s] calls IH]; intros e He; simpl.
  - exact He.
  - apply IH, updateWeights_inRange, He.
Qed.

Lemma repeatUpdate_inRange n e d s : inRange e → inRange (repeatUpdate n e d s).
Proof.
  intros He. induction n as [|n IH]; simpl.
  - exact He.
  - apply updateWeights_inRange, IH.
Qed.

(** After [n] successes the weight has climbed at least [0.05 n] above the
    floor, up to one step below the cap. *)
Lemma repeat_success_lower n e d :
  inRange e →
  Qmin 0.85 (0.05 + 0.05 * inject_Z (Z.of_nat n)) <= decisionWeights (repeatUpdate n e d true) d.
Proof.
  intros He. induction n as [|n IH].
  - change (inject_Z (Z.of_nat 0)) with 0. simpl. pose proof (He d). q_minmax.
  - change (repeatUpdate (S n) e d true) with (updateWeights (repeatUpdate n e d true) d true).
    rewrite updateWeights_same.
    pose proof (inject_nat_succ n) as Hs.
    set (k := inject_Z (Z.of_nat (S n))) in *. set (k' := inject_Z (Z.of_nat n)) in *.
    set (w := decisionWeights (repeatUpdate n e d true) d) in *.
    clearbody k k' w. q_minmax.
Qed.

Lemma repeat_failure_upper n e d :
  inRange e →
  decisionWeights (repeatUpdate n e d false) d <= Qmax 0.1 (0.9 - 0.05 * inject_Z (Z.of_nat n)).
Proof.
  intros He. induction n as [|n IH].
  - change (inject_Z (Z.of_nat 0)) with 0. simpl. pose proof (He d). q_minmax.
  - change (repeatUpdate (S n) e d false) with (updateWeights (repeatUpdate n e d false) d false).
    rewrite updateWeights_same.
    pose proof (inject_nat_succ n) as Hs.
    set (k := inject_Z (Z.of_nat (S n))) in *. set (k' := inject_Z (Z.of_nat n)) in *.
    set (w := decisionWeights (repeatUpdate n e d false) d) in *.
    clearbody k k' w. q_minmax.
Qed.

Lemma inject_nat_ge16 (n : nat) : 16 <= inject_Z (Z.of_nat (16 + n)).
Proof. change 16 with (inject_Z 16). rewrite <- Zle_Qle. lia. Qed.

Lemma repeat_success_saturates n e d :
  inRange e → decisionWeights (repeatUpdate (17 + n) e d true) d = 0.9.
Proof.
  intros He.
  change (repeatUpdate (17 + n) e d true)
    with (updateWeights (repeatUpdate (16 + n) e d true) d true).
  rewrite updateWeights_same. apply clamp_at_cap.
  pose proof (repeat_success_lower (16 + n) e d He) as Hl.
  pose proof (inject_nat_ge16 n) as Hk.
  set (k := inject_Z (Z.of_nat (16 + n))) in *.
  set (w := decisionWeights (repeatUpdate (16 + n) e d true) d) in *.
  clearbody k w. q_minmax.
Qed.

Lemma repeat_failure_floors n e d :
  inRange e → decisionWeights (repeatUpdate (17 + n) e d false) d = 0.05.
Proof.
  intros He.
  change (repeatUpdate (17 + n) e d false)
    with (updateWeights (repeatUpdate (16 + n) e d false) d false).
  rewrite updateWeights_same. apply clamp_at_floor.
  pose proof (repeat_failure_upper (16 + n) e d He) as Hl.
  pose proof (inject_nat_ge16 n) as Hk.
  set (k := inject_Z (Z.of_nat (16 + n))) in *.
  set (w := decisionWeights (repeatUpdate (16 + n) e d false) d) in *.
  clearbody k w. q_minmax.
Qed.

End WeightFacts.

(** C2.  Starting from the weights that the constructor sets, after any
    finite sequence of [updateWeights] calls every base weight lies in
    [[0.05, 0.9]]; from any such state, seventeen or more successive
    successes for one action type leave that type's weight at exactly the cap
    [0.9], and seventeen or more successive failures leave it at exactly the
    floor [0.05]. *)
Theorem weights_bounded_and_saturating :
  ∀ (calls : list (DecisionType * bool)) (d : DecisionType),
    let e := DecisionEngine.updateAll DecisionEngine.constructor calls in
    (∀ d', 0.05 <= DecisionEngine.decisionWeights e d' <= 0.9)
    ∧ (∀ n, DecisionEngine.decisionWeights
              (DecisionEngine.repeatUpdate (17 + n) e d true) d = 0.9)
    ∧ (∀ n, DecisionEngine.decisionWeights
              (DecisionEngine.repeatUpdate (17 + n) e d false) d = 0.05).
Proof.
  intros calls d e.
  assert (He : DecisionEngine.inRange e)
    by apply WeightFacts.updateAll_inRange, WeightFacts.constructor_inRange.
  split; [exact He|]. split; intros n.
  - apply WeightFacts.repeat_success_saturates, He.
  - apply WeightFacts.repeat_failure_floors, He.
Qed.

(** The engine's unit tests, replayed: one success raises the creation
    weight, one failure lowers it, and twenty successes leave it at the cap. *)
Example update_weights_unit_tests :
  DecisionEngine.decisionWeights
    (DecisionEngine.updateWeights DecisionEngine.constructor CREATE_AGENT true) CREATE_AGENT
  == 0.35
  ∧ DecisionEngine.decisionWeights
      (DecisionEngine.updateWeights DecisionEngine.constructor CREATE_AGENT false) CREATE_AGENT
    == 0.25
  ∧ DecisionEngine.decisionWeights
      (DecisionEngine.repeatUpdate 20 DecisionEngine.constructor CREATE_AGENT true) CREATE_AGENT
    = 0.9
  ∧ DecisionEngine.decisionWeights
      (DecisionEngine.repeatUpdate 20 DecisionEngine.constructor CREATE_AGENT true)
      COORDINATE_AGENTS
    = 0.15.
Proof. repeat split; vm_compute; reflexivity. Qed.

(** ** Creation against coordination *)

Lemma create_weight_small e state :
  SystemState.agentCount state = 0%Z →
  DecisionEngine.calculateCreateAgentWeight e state
  = Js.Math_max 0.05 (Js.Math_min 0.9 (DecisionEngine.decisionWeights e CREATE_AGENT * 1.75)).
Proof. intros H0. unfold DecisionEngine.calculateCreateAgentWeight. rewrite H0. reflexivity. Qed.

Lemma coordinate_weight_small e state :
  SystemState.agentCount state = 0%Z →
  DecisionEngine.calculateCoordinateWeight e state
  = Js.Math_max 0.05 (Js.Math_min 0.9 (DecisionEngine.decisionWeights e COORDINATE_AGENTS * 0.5)).
Proof. intros H0. unfold DecisionEngine.calculateCoordinateWeight. rewrite H0. reflexivity. Qed.

Lemma create_weight_large e state :
  SystemState.agentCount state = 6%Z →
  DecisionEngine.calculateCreateAgentWeight e state
  = Js.Math_max 0.05 (Js.Math_min 0.9 (DecisionEngine.decisionWeights e CREATE_AGENT * 0.25)).
Proof. intros H6. unfold DecisionEngine.calculateCreateAgentWeight. rewrite H6. reflexivity. Qed.

Lemma coordinate_weight_large e state :
  SystemState.agentCount state = 6%Z →
  DecisionEngine.calculateCoordinateWeight e state
  = Js.Math_max 0.05 (Js.Math_min 0.9 (DecisionEngine.decisionWeights e COORDINATE_AGENTS * 2.0)).
Proof. intros H6. unfold DecisionEngine.calculateCoordinateWeight. rewrite H6. reflexivity. Qed.

(** With no entity, creation outweighs coordination exactly when the base
    coordination weight is below three and a half times the base creation
    weight. *)
Lemma small_ecosystem_order e state :
  DecisionEngine.inRange e →
  SystemState.agentCount state = 0%Z →
  DecisionEngine.calculateCoordinateWeight e state < DecisionEngine.calculateCreateAgentWeight e state
  ↔ DecisionEngine.decisionWeights e COORDINATE_AGENTS
    < 3.5 * DecisionEngine.decisionWeights e CREATE_AGENT.
Proof.
  intros He H0.
  rewrite create_weight_small, coordinate_weight_small by assumption.
  pose proof (He CREATE_AGENT). pose proof (He COORDINATE_AGENTS).
  set (c := DecisionEngine.decisionWeights e CREATE_AGENT) in *.
  set (k := DecisionEngine.decisionWeights e COORDINATE_AGENTS) in *.
  clearbody c k. split; intros Hlt; q_minmax.
Qed.

(** With six entities, coordination outweighs creation exactly when the base
    creation weight is below eight times the base coordination weight. *)
Lemma large_ecosystem_order e state :
  DecisionEngine.inRange e →
  SystemState.agentCount state = 6%Z →
  DecisionEngine.calculateCreateAgentWeight e state < DecisionEngine.calculateCoordinateWeight e state
  ↔ DecisionEngine.decisionWeights e CREATE_AGENT
    < 8 * DecisionEngine.decisionWeights e COORDINATE_AGENTS.
Proof.
  intros He H6.
  rewrite create_weight_large, coordinate_weight_large by assumption.
  pose proof (He CREATE_AGENT). pose proof (He COORDINATE_AGENTS).
  set (c := DecisionEngine.decisionWeights e CREATE_AGENT) in *.
  set (k := DecisionEngine.decisionWeights e COORDINATE_AGENTS) in *.
  clearbody c k. split; intros Hlt; q_minmax.
Qed.

(** C8, as amended.  For a freshly constructed engine, a state with 0
    entities gives CREATE_AGENT a strictly higher pre-jitter weight than
    COORDINATE_AGENTS, and a state with 6 entities gives COORDINATE_AGENTS a
    strictly higher one than CREATE_AGENT.  For the base weights reached
    after any history of updates the first order holds exactly when the base
    coordination weight is below 3.5 times the base creation weight, and the
    second exactly when the base creation weight is below 8 times the base
    coordination weight. *)
Theorem create_and_coordinate_weights :
  ∀ (calls : list (DecisionType * bool)) (empty crowded : SystemState.t),
    SystemState.agentCount empty = 0%Z →
    SystemState.agentCount crowded = 6%Z →
    let fresh := DecisionEngine.constructor in
    let e := DecisionEngine.updateAll fresh calls in
    let create := DecisionEngine.decisionWeights e CREATE_AGENT in
    let coordinate := DecisionEngine.decisionWeights e COORDINATE_AGENTS in
    DecisionEngine.calculateCoordinateWeight fresh empty
      < DecisionEngine.calculateCreateAgentWeight fresh empty
    ∧ DecisionEngine.calculateCreateAgentWeight fresh crowded
      < DecisionEngine.calculateCoordinateWeight fresh crowded
    ∧ (DecisionEngine.calculateCoordinateWeight e empty
         < DecisionEngine.calculateCreateAgentWeight e empty
       ↔ coordinate < 3.5 * create)
    ∧ (DecisionEngine.calculateCreateAgentWeight e crowded
         < DecisionEngine.calculateCoordinateWeight e crowded
       ↔ create < 8 * coordinate).
Proof.
  intros calls empty crowded H0 H6 fresh e create coordinate.
  assert (Hf : DecisionEngine.inRange fresh) by apply WeightFacts.constructor_inRange.
  assert (He : DecisionEngine.inRange e) by apply WeightFacts.updateAll_inRange, Hf.
  repeat split.
  - apply (small_ecosystem_order fresh empty Hf H0). simpl. lra.
  - apply (large_ecosystem_order fresh crowded Hf H6). simpl. lra.
  - apply (small_ecosystem_order e empty He H0).
  - apply (small_ecosystem_order e empty He H0).
  - apply (large_ecosystem_order e crowded He H6).
  - apply (large_ecosystem_order e crowded He H6).
Qed.

Lemma create_and_coordinate_weights_witness :
  DecisionEngine.calculateCoordinateWeight DecisionEngine.constructor (Samples.stateWith 0)
    < DecisionEngine.calculateCreateAgentWeight DecisionEngine.constructor (Samples.stateWith 0)
  ∧ DecisionEngine.calculateCreateAgentWeight DecisionEngine.constructor (Samples.stateWith 6)
    < DecisionEngine.calculateCoordinateWeight DecisionEngine.constructor (Samples.stateWith 6).
Proof.
  pose proof (create_and_coordinate_weights [] (Samples.stateWith 0) (Samples.stateWith 6)
                eq_refl eq_refl) as [H1 [H2 _]].
  split; [exact H1 | exact H2].
Defined.

(** C8, as stated, fails over the reachable base weights: after five failed
    creations and five successful coordinations a state with no entity
    weighs coordination above creation, and after three successful creations
    and two failed coordinations a state with six entities weighs creation
    above coordination. *)
Lemma reachable_weights_reverse_order :
  DecisionEngine.calculateCreateAgentWeight
    (DecisionEngine.updateAll DecisionEngine.constructor
       (repeat (CREATE_AGENT, false) 5 ++ repeat (COORDINATE_AGENTS, true) 5))
    (Samples.stateWith 0)
  < DecisionEngine.calculateCoordinateWeight
      (DecisionEngine.updateAll DecisionEngine.constructor
         (repeat (CREATE_AGENT, false) 5 ++ repeat (COORDINATE_AGENTS, true) 5))
      (Samples.stateWith 0)
  ∧ DecisionEngine.calculateCoordinateWeight
      (DecisionEngine.updateAll DecisionEngine.constructor
         (repeat (CREATE_AGENT, true) 3 ++ repeat (COORDINATE_AGENTS, false) 2))
      (Samples.stateWith 6)
    < DecisionEngine.calculateCreateAgentWeight
        (DecisionEngine.updateAll DecisionEngine.constructor
           (repeat (CREATE_AGENT, true) 3 ++ repeat (COORDINATE_AGENTS, false) 2))
        (Samples.stateWith 6).
Proof. split; vm_compute; reflexivity. Qed.

(** ** The evolution score *)

(** The score that the Evolve phase writes. *)
Lemma evolve_score env g result :
  GenesisAgent.evolutionScore (GenesisAgent.evolve env g result)
  = Js.Math_min 1.0
      (GenesisAgent.evolutionScore g
       + (if ActionResult.success result then 0.01 else - 0.005)).
Proof.
  unfold GenesisAgent.evolve, GenesisAgent.evolutionScore.
  destruct (Qlt_le_dec (GenesisAgent.EvolveEnv.random env) 0.5); reflexivity.
Qed.

(** The cap holds after every Evolve phase. *)
Lemma evolve_score_at_most_one env g result :
  GenesisAgent.evolutionScore (GenesisAgent.evolve env g result) <= 1.
Proof. rewrite evolve_score. q_minmax. Qed.

(** A successful cycle from a score in [[0, 1]] stays in [[0, 1]]. *)
Lemma evolve_success_in_unit_interval env g result :
  ActionResult.success result = true →
  0 <= GenesisAgent.evolutionScore g →
  0 <= GenesisAgent.evolutionScore (GenesisAgent.evolve env g result) <= 1.
Proof. intros Hs H0. rewrite evolve_score, Hs. split; q_minmax. Qed.

(** A failed cycle lowers a score of at most one by exactly [0.005], whatever
    the score was. *)
Lemma evolve_failure_subtracts env g result :
  ActionResult.success result = false →
  GenesisAgent.evolutionScore g <= 1 →
  GenesisAgent.evolutionScore (GenesisAgent.evolve env g result)
  == GenesisAgent.evolutionScore g - 0.005.
Proof. intros Hs H1. rewrite evolve_score, Hs. q_minmax. Qed.

(** From a score of at most one, [n] failed cycles in a row lower the score
    by [0.005 n]: nothing stops the descent at zero. *)
Lemma failed_cycles_subtract n : ∀ env g result,
  ActionResult.success result = false →
  GenesisAgent.evolutionScore g <= 1 →
  GenesisAgent.evolutionScore (GenesisAgent.evolveAll g (repeat (env, result) n))
  == GenesisAgent.evolutionScore g - 0.005 * inject_Z (Z.of_nat n).
Proof.
  induction n as [|n IH]; intros env g result Hs H1.
  - cbn [repeat GenesisAgent.evolveAll]. change (inject_Z (Z.of_nat 0)) with 0. lra.
  - cbn [repeat GenesisAgent.evolveAll].
    pose proof (evolve_failure_subtracts env g result Hs H1) as Hstep.
    rewrite IH by (assumption || lra).
    rewrite Hstep, inject_nat_succ. lra.
Qed.

(** The scenario of the specification: from 0.97 a successful cycle gives
    0.98, and from 0.995 it gives the cap. *)
Example successful_cycle_near_the_cap :
  GenesisAgent.evolutionScore
    (GenesisAgent.evolve (Samples.evolveEnv 0.2 1000) (Samples.controller 0.97)
       (Samples.result CREATE_AGENT true))
  == 0.98
  ∧ GenesisAgent.evolutionScore
      (GenesisAgent.evolve (Samples.evolveEnv 0.2 1000) (Samples.controller 0.995)
         (Samples.result CREATE_AGENT true))
    == 1.
Proof. split; vm_compute; reflexivity. Qed.

(** C1.  The Evolve phase caps the score at 1 and has no floor: from a score
    of 0 one failed cycle writes [-0.005], and from a score of 0.5 a run of
    101 failed cycles ends at [-0.005] as well. *)
Theorem failed_cycles_push_score_below_zero :
  GenesisAgent.evolutionScore
    (GenesisAgent.evolve (Samples.evolveEnv 0.7 1000) (Samples.controller 0)
       (Samples.result CREATE_AGENT false))
  == - 0.005
  ∧ GenesisAgent.evolutionScore
      (GenesisAgent.evolve (Samples.evolveEnv 0.7 1000) (Samples.controller 0)
         (Samples.result CREATE_AGENT false))
    < 0
  ∧ GenesisAgent.evolutionScore
      (GenesisAgent.evolveAll (Samples.controller 0.5)
         (repeat (Samples.evolveEnv 0.7 1000, Samples.result CREATE_AGENT false) 101))
    < 0.
Proof. repeat split; vm_compute; reflexivity. Qed.

(** ** Weighted selection *)

Module SelectionFacts.
Import DecisionEngine.

Section Generic.
Context {num : Type} `{JsArith num}.

Lemma withWeight_sameContent (o : DecisionOption.t num) (w : num) :
  DecisionOption.sameContent (DecisionOption.withWeight o w) o.
Proof. repeat split. Qed.

Lemma randomized_lookup (rnd : RandomSource num) (options : list (DecisionOption.t num)) (i : nat) :
  randomizedOptions rnd options !! i
  = (λ o, DecisionOption.withWeight o
            (applyRandomness (rnd i) (DecisionOption.weight o) (lit 0.2)))
    <$> options !! i.
Proof. unfold randomizedOptions. apply list_lookup_imap. Qed.

(** Position by position, the normalized options are the input options with
    the jittered weight divided by the total. *)
Lemma normalized_lookup (rnd : RandomSource num) (options : list (DecisionOption.t num)) (i : nat) :
  normalizedOptions (randomizedOptions rnd options) !! i
  = (λ o, DecisionOption.withWeight o
            (div (applyRandomness (rnd i) (DecisionOption.weight o) (lit 0.2))
                 (totalWeight (randomizedOptions rnd options))))
    <$> options !! i.
Proof.
  unfold normalizedOptions. rewrite list_lookup_fmap, randomized_lookup.
  destruct (options !! i); reflexivity.
Qed.

Lemma normalized_length (rnd : RandomSource num) (options : list (DecisionOption.t num)) :
  length (normalizedOptions (randomizedOptions rnd options)) = length options.
Proof. unfold normalizedOptions, randomizedOptions. rewrite length_fmap, length_imap. reflexivity. Qed.

(** What the loop returns stands in the list it went through. *)
Lemma firstReached_lookup (random : num) (l : list (DecisionOption.t num)) :
  ∀ cumulative o, firstReached random cumulative l = Some o → ∃ i, l !! i = Some o.
Proof.
  induction l as [|x l IH]; intros cumulative o Hf; simpl in Hf.
  - discriminate.
  - destruct (leq random (add cumulative (DecisionOption.weight x))).
    + injection Hf as <-. exists 0%nat. reflexivity.
    + destruct (IH _ _ Hf) as [i Hi]. exists (S i). exact Hi.
Qed.

(** The loop ends without returning exactly when the draw exceeds every
    cumulative weight. *)
Lemma firstReached_None (random : num) (l : list (DecisionOption.t num)) :
  ∀ cumulative,
    firstReached random cumulative l = None
    ↔ ∀ k, (k < length l)%nat → leq random (cumulativeWeight cumulative (take (S k) l)) = false.
Proof.
  induction l as [|x l IH]; intros cumulative; simpl.
  - split; [intros _ k Hk; lia | reflexivity].
  - destruct (leq random (add cumulative (DecisionOption.weight x))) eqn:Hle.
    + split; [discriminate|]. intros Hall.
      specialize (Hall 0%nat ltac:(lia)). simpl in Hall. congruence.
    + rewrite IH. split.
      * intros Hall [|k] Hk; [exact Hle|]. apply (Hall k). lia.
      * intros Hall k Hk. apply (Hall (S k)). lia.
Qed.

Lemma selectDecision_lookup (rnd : RandomSource num) (options : list (DecisionOption.t num)) selected :
  selectDecision rnd options = Some selected →
  ∃ i original,
    options !! i = Some original
    ∧ selected = DecisionOption.withWeight original
                   (div (applyRandomness (rnd i) (DecisionOption.weight original) (lit 0.2))
                        (totalWeight (randomizedOptions rnd options)))
    ∧ (firstReached (rnd (length options)) (lit 0)
         (normalizedOptions (randomizedOptions rnd options)) = None →
       S i = length options).
Proof.
  unfold selectDecision. intros Hsel.
  destruct (firstReached _ _ _) as [o|] eqn:Hf.
  - injection Hsel as <-. apply firstReached_lookup in Hf as [i Hi].
    rewrite normalized_lookup in Hi.
    destruct (options !! i) as [original|] eqn:Ho; [|discriminate].
    injection Hi as <-. exists i, original. repeat split; [assumption|discriminate].
  - rewrite last_lookup, normalized_length, normalized_lookup in Hsel.
    destruct (options !! pred (length options)) as [original|] eqn:Ho; [|discriminate].
    injection Hsel as <-. exists (pred (length options)), original.
    repeat split; [assumption|]. intros _.
    apply lookup_lt_Some in Ho. lia.
Qed.

Lemma selectDecision_nonempty (rnd : RandomSource num) first (rest : list (DecisionOption.t num)) :
  is_Some (selectDecision rnd (first :: rest)).
Proof.
  unfold selectDecision.
  destruct (firstReached _ _ _) as [o|]; [eexists; reflexivity|].
  rewrite last_lookup, normalized_length, normalized_lookup. simpl length. simpl pred.
  destruct (lookup_lt_is_Some_2 (first :: rest) (length rest)) as [o Ho]; [simpl; lia|].
  rewrite Ho. eexists; reflexivity.
Qed.

End Generic.
End SelectionFacts.

(** C5.  Over any arithmetic on weights and for any random draws,
    [selectDecision] on a non-empty list returns an option, and that option
    has the type, the reasoning and the parameters of one of the input
    options; when the draw exceeds every cumulative normalized weight, so
    that the loop ends without returning, it is the last input option that is
    returned. *)
Theorem selectDecision_returns_an_input_option :
  ∀ (num : Type) (arith : JsArith num) (rnd : RandomSource num)
    (first : DecisionOption.t num) (rest : list (DecisionOption.t num)),
    let options := first :: rest in
    let normalized :=
      DecisionEngine.normalizedOptions (DecisionEngine.randomizedOptions rnd options) in
    ∃ selected original,
      DecisionEngine.selectDecision rnd options = Some selected
      ∧ original ∈ options
      ∧ DecisionOption.sameContent selected original
      ∧ ((∀ k, (k < length options)%nat →
               leq (rnd (length options))
                   (DecisionEngine.cumulativeWeight (lit 0) (take (S k) normalized)) = false) →
         last options = Some original).
Proof.
  intros num arith rnd first rest options normalized.
  destruct (SelectionFacts.selectDecision_nonempty rnd first rest) as [selected Hsel].
  destruct (SelectionFacts.selectDecision_lookup rnd options selected Hsel)
    as (i & original & Ho & -> & Hlast).
  exists (DecisionOption.withWeight original
            (div (DecisionEngine.applyRandomness (rnd i) (DecisionOption.weight original) (lit 0.2))
                 (DecisionEngine.totalWeight (DecisionEngine.randomizedOptions rnd options)))),
         original.
  split; [exact Hsel|]. split; [eapply list_elem_of_lookup_2, Ho|].
  split; [apply SelectionFacts.withWeight_sameContent|].
  intros Hall. rewrite last_lookup.
  assert (Hnone : DecisionEngine.firstReached (rnd (length options)) (lit 0) normalized = None).
  { apply SelectionFacts.firstReached_None. intros k Hk. apply Hall.
    unfold normalized in Hk. rewrite SelectionFacts.normalized_length in Hk. exact Hk. }
  specialize (Hlast Hnone). rewrite <- Hlast. exact Ho.
Qed.

(** ** The decision of a cycle *)

Lemma hex_byte_roundtrip (b : Byte.byte) :
  match Js.hexValue (Js.hexDigit (Byte.to_N b / 16)),
        Js.hexValue (Js.hexDigit (Byte.to_N b mod 16)) with
  | Some h, Some l => Byte.of_N (h * 16 + l)
  | _, _ => None
  end = Some b.
Proof. destruct b; reflexivity. Qed.

Lemma fromHex_toHex (buf : list Byte.byte) : Js.fromHex (Js.toHex buf) = Some buf.
Proof.
  induction buf as [|b buf IH]; [reflexivity|].
  cbn [Js.toHex Js.fromHex]. rewrite IH.
  pose proof (hex_byte_roundtrip b) as Hb.
  destruct (Js.hexValue (Js.hexDigit (Byte.to_N b / 16))) as [h|]; [|discriminate].
  destruct (Js.hexValue (Js.hexDigit (Byte.to_N b mod 16))) as [l|]; [|discriminate].
  rewrite Hb. reflexivity.
Qed.

(** Distinct random buffers print as distinct hexadecimal strings. *)
Lemma toHex_inj (buf1 buf2 : list Byte.byte) : Js.toHex buf1 = Js.toHex buf2 → buf1 = buf2.
Proof.
  intros Heq. apply (f_equal Js.fromHex) in Heq.
  rewrite !fromHex_toHex in Heq. congruence.
Qed.

Lemma append_inj_l (prefix s1 s2 : string) : prefix +:+ s1 = prefix +:+ s2 → s1 = s2.
Proof.
  induction prefix as [|c prefix IH]; simpl; intros Heq; [exact Heq|].
  injection Heq as Heq. apply IH, Heq.
Qed.

(** C4, as amended.  In every cycle the Reason phase yields a
    recommendation, and the decision that the Decide phase makes of it has
    the identifier [decision_] followed by the hexadecimal print of the
    random bytes drawn for it (so two draws give the same identifier only
    when the bytes coincide), carries the clock value read for it, is made by
    the root controller, has the type, reasoning and parameters of one of
    the generated options, and has as confidence that option's jittered
    weight divided by the sum of all jittered weights: the weight after the
    jitter and the renormalization of the selection. *)
Theorem decision_confidence_is_selection_weight :
  ∀ (g : GenesisAgent.t) (rnd : RandomSource Q) (state : SystemState.t)
    (idBytes : list Byte.byte) (now : Z),
    let options := DecisionEngine.generateOptions (GenesisAgent.decisionEngine g) state in
    ∃ reasoning i option,
      GenesisAgent.reason g rnd state = Some reasoning
      ∧ options !! i = Some option
      ∧ Decision.id (GenesisAgent.decide idBytes now reasoning)
        = "decision_" +:+ Js.toHex idBytes
      ∧ (∀ idBytes' now',
           Decision.id (GenesisAgent.decide idBytes' now' reasoning)
           = Decision.id (GenesisAgent.decide idBytes now reasoning) →
           idBytes' = idBytes)
      ∧ Decision.timestamp (GenesisAgent.decide idBytes now reasoning) = now
      ∧ Decision.madeBy (GenesisAgent.decide idBytes now reasoning) = GenesisAgent.GENESIS_ID
      ∧ Decision.type (GenesisAgent.decide idBytes now reasoning) = DecisionOption.type option
      ∧ Decision.reasoning (GenesisAgent.decide idBytes now reasoning)
        = DecisionOption.reasoning option
      ∧ Some (Decision.parameters (GenesisAgent.decide idBytes now reasoning))
        = DecisionOption.parameters option
      ∧ Decision.confidence (GenesisAgent.decide idBytes now reasoning)
        = DecisionEngine.applyRandomness (rnd i) (DecisionOption.weight option) 0.2
          / DecisionEngine.totalWeight (DecisionEngine.randomizedOptions rnd options).
Proof.
  intros g rnd state idBytes now options.
  destruct (SelectionFacts.selectDecision_nonempty rnd
              (DecisionOption.mk CREATE_AGENT
                 (DecisionEngine.calculateCreateAgentWeight (GenesisAgent.decisionEngine g) state)
                 (DecisionEngine.getCreateAgentReasoning state) (Some []))
              (tail options)) as [selected Hsel].
  change (DecisionEngine.selectDecision rnd options = Some selected) in Hsel.
  destruct (SelectionFacts.selectDecision_lookup rnd options selected Hsel)
    as (i & option & Ho & -> & _).
  eexists _, i, option.
  split; [unfold GenesisAgent.reason; fold options; rewrite Hsel; reflexivity|].
  split; [exact Ho|]. split; [reflexivity|].
  split.
  { intros idBytes' now' Hid. cbn in Hid. apply append_inj_l in Hid. apply toHex_inj, Hid. }
  do 4 (split; [reflexivity|]).
  split; [|reflexivity].
  cbn.
  assert (Hp : is_Some (DecisionOption.parameters option)).
  { apply list_elem_of_lookup_2 in Ho. unfold options, DecisionEngine.generateOptions in Ho.
    repeat (apply elem_of_cons in Ho as [->|Ho]; [eexists; reflexivity|]).
    apply elem_of_nil in Ho. destruct Ho. }
  destruct Hp as [p Hp]. rewrite Hp. reflexivity.
Qed.

(** C4, as stated, fails: with no entity, a fresh engine and draws of one
    half (a jitter factor of exactly one), the cycle decides to create an
    agent with confidence [105/184], which is the pre-jitter weight [0.525]
    divided by the sum [0.92] of the six weights, and not [0.525]. *)
Lemma confidence_is_not_the_pre_jitter_weight :
  ∃ reasoning,
    GenesisAgent.reason (Samples.controller 0.5) (λ _, 0.5) (Samples.stateWith 0)
    = Some reasoning
    ∧ Decision.type (GenesisAgent.decide [Byte.x00] 0 reasoning) = CREATE_AGENT
    ∧ DecisionEngine.calculateCreateAgentWeight DecisionEngine.constructor (Samples.stateWith 0)
      == 0.525
    ∧ Decision.confidence (GenesisAgent.decide [Byte.x00] 0 reasoning) == 105 # 184
    ∧ ¬ Decision.confidence (GenesisAgent.decide [Byte.x00] 0 reasoning)
        == DecisionEngine.calculateCreateAgentWeight DecisionEngine.constructor
             (Samples.stateWith 0).
Proof.
  eexists. split; [vm_compute; reflexivity|].
  split; [reflexivity|]. split; [vm_compute; reflexivity|].
  split; [vm_compute; reflexivity|].
  vm_compute. discriminate.
Qed.

(** ** Bounded retry of a submission *)

Module RetryFacts.
Import SolanaTransactions.

(** Membership in an explicit trace, resolved event by event. *)
Ltac trace_member H :=
  repeat (apply elem_of_cons in H as [H|H]; [simplify_eq|]);
  try (apply elem_of_nil in H; destruct H).

Ltac use_fetches :=
  repeat match goal with
  | F : Connection.getLatestBlockhash _ _ = _ |- _ => rewrite F
  end.

(** One branch of the case analysis on the network's answers: the trace is
    explicit, and each part of the policy is read off it. *)
Ltac policy_branch :=
  cbn;
  split; [cbn; lia|];
  split; [reflexivity|];
  split; [intros n tx H; trace_member H; lia|];
  split; [intros n tx signature H Hs; trace_member H;
          try congruence; (split; [congruence|reflexivity])|];
  split; [intros n tx error H Hs Hn; trace_member H; try lia; try congruence;
          first [ exists 0%nat; cbn; use_fetches; repeat split; first [reflexivity | congruence]
                | exists 3%nat; cbn; use_fetches; repeat split; first [reflexivity | congruence] ]|];
  intros tx error H Hs; trace_member H; try congruence;
  (split; [congruence|reflexivity]).

End RetryFacts.

(** C3, as amended.  A submission with the default bound makes at most three
    attempts, numbered from 1.  An attempt that succeeds ends the call with
    its signature.  A failed attempt [n < 3] is followed by a wait of
    [1000 n] milliseconds and a fetch of the latest blockhash; when the fetch
    succeeds the next attempt is made with that blockhash, and when the fetch
    itself throws, the call ends there with the fetch's error.  A failed third
    attempt ends the call with the error of that attempt. *)
Theorem submitTransaction_retry_policy :
  ∀ (connection : SolanaTransactions.Connection.t)
    (transaction : SolanaTransactions.Transaction.t) (signers : list string),
    let send := SolanaTransactions.Connection.sendAndConfirmTransaction connection in
    let fetch := SolanaTransactions.Connection.getLatestBlockhash connection in
    let outcome :=
      (SolanaTransactions.submitTransaction connection transaction signers None).1 in
    let trace :=
      (SolanaTransactions.submitTransaction connection transaction signers None).2 in
    (SolanaTransactions.attemptsMade trace ≤ 3)%nat
    ∧ trace !! 0%nat = Some (SolanaTransactions.Sent 1 transaction)
    ∧ (∀ n tx, SolanaTransactions.Sent n tx ∈ trace → (1 ≤ n ≤ 3)%nat)
    ∧ (∀ n tx signature,
         SolanaTransactions.Sent n tx ∈ trace →
         send n tx signers = Js.Ok signature →
         outcome = Js.Ok signature ∧ last trace = Some (SolanaTransactions.Sent n tx))
    ∧ (∀ n tx error,
         SolanaTransactions.Sent n tx ∈ trace →
         send n tx signers = Js.Throw error →
         (n < 3)%nat →
         ∃ i,
           trace !! i = Some (SolanaTransactions.Sent n tx)
           ∧ trace !! (i + 1)%nat = Some (SolanaTransactions.Slept (1000 * Z.of_nat n))
           ∧ trace !! (i + 2)%nat = Some SolanaTransactions.FetchedBlockhash
           ∧ match fetch n with
             | Js.Ok blockhash =>
                 trace !! (i + 3)%nat
                 = Some (SolanaTransactions.Sent (S n)
                           (SolanaTransactions.Transaction.setRecentBlockhash tx blockhash))
             | Js.Throw fetchError =>
                 outcome = Js.Throw fetchError ∧ length trace = (i + 3)%nat
             end)
    ∧ (∀ tx error,
         SolanaTransactions.Sent 3 tx ∈ trace →
         send 3%nat tx signers = Js.Throw error →
         outcome = Js.Throw error ∧ last trace = Some (SolanaTransactions.Sent 3 tx)).
Proof.
  intros connection transaction signers send fetch outcome trace.
  subst send fetch outcome trace. unfold SolanaTransactions.submitTransaction.
  cbn [default SolanaTransactions.attemptLoop].
  destruct (SolanaTransactions.Connection.sendAndConfirmTransaction connection 1 transaction signers)
    as [s1|e1] eqn:E1.
  { RetryFacts.policy_branch. }

  destruct (SolanaTransactions.Connection.getLatestBlockhash connection 1) as [b1|f1] eqn:F1.
  2:{ RetryFacts.policy_branch. }
  destruct (SolanaTransactions.Connection.sendAndConfirmTransaction connection 2
              (SolanaTransactions.Transaction.setRecentBlockhash transaction b1) signers)
    as [s2|e2] eqn:E2.
  { RetryFacts.policy_branch. }
  destruct (SolanaTransactions.Connection.getLatestBlockhash connection 2) as [b2|f2] eqn:F2.
  2:{ RetryFacts.policy_branch. }
  destruct (SolanaTransactions.Connection.sendAndConfirmTransaction connection 3
              (SolanaTransactions.Transaction.setRecentBlockhash
                 (SolanaTransactions.Transaction.setRecentBlockhash transaction b1) b2) signers)
    as [s3|e3] eqn:E3.
  - RetryFacts.policy_branch.
  - RetryFacts.policy_branch.
Qed.

(** Two failures followed by a success return the third attempt's
    signature, each retry with the blockhash fetched for it. *)
Example third_attempt_succeeds :
  SolanaTransactions.submitTransaction Samples.thirdTimeLucky Samples.transaction
    ["genesis_key"] None
  = (Js.Ok "signature_3",
     [SolanaTransactions.Sent 1 Samples.transaction;
      SolanaTransactions.Slept 1000;
      SolanaTransactions.FetchedBlockhash;
      SolanaTransactions.Sent 2
        (SolanaTransactions.Transaction.mk "memo" (Some "blockhash_1") (Some "genesis_key"));
      SolanaTransactions.Slept 2000;
      SolanaTransactions.FetchedBlockhash;
      SolanaTransactions.Sent 3
        (SolanaTransactions.Transaction.mk "memo" (Some "blockhash_2") (Some "genesis_key"))]).
Proof. vm_compute. reflexivity. Qed.

(** C3, as stated, fails: when the first attempt fails and the fetch of the
    fresh blockhash that follows the wait throws as well, the call ends with
    the fetch's error after a single attempt; there is no retry, and the
    error that reaches the caller is not that of any attempt. *)
Lemma failed_blockhash_fetch_ends_the_submission :
  SolanaTransactions.Connection.sendAndConfirmTransaction Samples.offline 1
    Samples.transaction ["genesis_key"]
  = Js.Throw "send failed"
  ∧ SolanaTransactions.submitTransaction Samples.offline Samples.transaction
      ["genesis_key"] None
    = (Js.Throw "blockhash unavailable",
       [SolanaTransactions.Sent 1 Samples.transaction;
        SolanaTransactions.Slept 1000;
        SolanaTransactions.FetchedBlockhash])
  ∧ SolanaTransactions.attemptsMade
      (SolanaTransactions.submitTransaction Samples.offline Samples.transaction
         ["genesis_key"] None).2
    = 1%nat.
Proof. repeat split. Qed.

(** ** Health classification *)

Lemma coordinator_lt_spec (a b : Q) : AgentCoordinator.lt a b = true ↔ a < b.
Proof.
  unfold AgentCoordinator.lt. rewrite negb_true_iff.
  destruct (Qle_bool b a) eqn:Hle.
  - apply Qle_bool_iff in Hle. split; [discriminate|intros; lra].
  - split; [intros _|reflexivity].
    apply Qnot_le_lt. intros Hc. apply Qle_bool_iff in Hc. congruence.
Qed.

(** The rate that the report carries is the success rate. *)
Lemma report_success_rate now agent :
  AgentReport.successRate (AgentCoordinator.generateAgentReport now agent)
  == AgentCoordinator.successRate agent.
Proof.
  unfold AgentCoordinator.generateAgentReport, AgentCoordinator.successRate. cbn.
  destruct (Metadata.successCount (Agent.metadata agent)
            + Metadata.failureCount (Agent.metadata agent))%nat as [|total] eqn:Ht; cbn.
  - reflexivity.
  - reflexivity.
Qed.

Lemma report_health_status now agent :
  AgentReport.healthStatus (AgentCoordinator.generateAgentReport now agent)
  = if AgentCoordinator.lt
         (AgentReport.successRate (AgentCoordinator.generateAgentReport now agent)) 0.3
       || (300000 <? AgentCoordinator.idleTime now agent)%Z
    then CRITICAL
    else if AgentCoordinator.lt
              (AgentReport.successRate (AgentCoordinator.generateAgentReport now agent)) 0.6
            || (120000 <? AgentCoordinator.idleTime now agent)%Z
    then DEGRADED
    else HEALTHY.
Proof. reflexivity. Qed.

(** C6.  The health status of a report is CRITICAL exactly when the success
    rate is below 0.3 or the agent has been idle for more than 300000 ms;
    otherwise it is DEGRADED exactly when the success rate is below 0.6 or
    the agent has been idle for more than 120000 ms; otherwise it is
    HEALTHY. *)
Theorem health_classification :
  ∀ (now : Z) (agent : Agent.t),
    let status := AgentReport.healthStatus (AgentCoordinator.generateAgentReport now agent) in
    let rate := AgentCoordinator.successRate agent in
    let idle := AgentCoordinator.idleTime now agent in
    let critical := rate < 0.3 ∨ (300000 < idle)%Z in
    let degraded := rate < 0.6 ∨ (120000 < idle)%Z in
    (status = CRITICAL ↔ critical)
    ∧ (status = DEGRADED ↔ ¬ critical ∧ degraded)
    ∧ (status = HEALTHY ↔ ¬ critical ∧ ¬ degraded).
Proof.
  intros now agent status rate idle critical degraded.
  subst status. rewrite report_health_status.
  pose proof (report_success_rate now agent) as Hr. fold rate in Hr.
  set (r := AgentReport.successRate _) in *. fold idle.
  assert (Hc : AgentCoordinator.lt r 0.3 || (300000 <? idle)%Z = true ↔ critical).
  { rewrite orb_true_iff, coordinator_lt_spec, Z.ltb_lt. unfold critical. rewrite Hr. reflexivity. }
  assert (Hd : AgentCoordinator.lt r 0.6 || (120000 <? idle)%Z = true ↔ degraded).
  { rewrite orb_true_iff, coordinator_lt_spec, Z.ltb_lt. unfold degraded. rewrite Hr. reflexivity. }
  destruct (AgentCoordinator.lt r 0.3 || (300000 <? idle)%Z).
  - assert (Hcrit : critical) by (apply Hc; reflexivity).
    repeat split; intros; try discriminate; tauto.
  - assert (Hcrit : ¬ critical) by (intros X; apply Hc in X; discriminate).
    destruct (AgentCoordinator.lt r 0.6 || (120000 <? idle)%Z).
    + assert (Hdeg : degraded) by (apply Hd; reflexivity).
      repeat split; intros; try discriminate; tauto.
    + assert (Hdeg : ¬ degraded) by (intros X; apply Hd in X; discriminate).
      repeat split; intros; try discriminate; tauto.
Qed.

(** Against a threshold of at most one, the success rate compares as the
    counters do. *)
Lemma success_rate_below (agent : Agent.t) (num den : positive) :
  (num <= den)%positive →
  let s := Z.of_nat (Metadata.successCount (Agent.metadata agent)) in
  let f := Z.of_nat (Metadata.failureCount (Agent.metadata agent)) in
  AgentCoordinator.successRate agent < Z.pos num # den
  ↔ (0 < s + f ∧ s * Z.pos den < Z.pos num * (s + f))%Z.
Proof.
  intros Hle s f. unfold AgentCoordinator.successRate.
  destruct (Nat.eqb_spec (Metadata.successCount (Agent.metadata agent)
                          + Metadata.failureCount (Agent.metadata agent)) 0) as [H0|H0].
  - split.
    + unfold Qlt. cbn. lia.
    + intros [Hpos _]. subst s f. lia.
  - rewrite Nat2Z.inj_add. fold s f.
    assert (Hpos : (0 < s + f)%Z) by (subst s f; lia).
    destruct (s + f)%Z as [|total|total] eqn:Ht; try lia.
    unfold Qlt, Qdiv, Qmult, Qinv, inject_Z. cbn.
    rewrite !Z.mul_1_r. split.
    + intros Hlt. split; [lia|]. lia.
    + intros [_ Hlt]. lia.
Qed.

(** ** Role selection *)

Module RoleFacts.
Import AgentFactory.

Lemma roleCount_cons a agents role :
  roleCount (a :: agents) role
  = ((if decide (Agent.role a = role) then 1 else 0) + roleCount agents role)%nat.
Proof.
  unfold roleCount. rewrite filter_cons.
  destruct (decide (Agent.role a = role)); reflexivity.
Qed.

(** One step of the counting loop adds one to the count of the agent's role. *)
Lemma count_step (count : AgentRole → nat) (role : AgentRole) :
  mapSet (countsOf count) role (default 0%nat (mapGet (countsOf count) role) + 1)%nat
  = countsOf (λ r, ((if decide (role = r) then 1 else 0) + count r)%nat).
Proof.
  destruct role; cbn; repeat case_decide; try congruence; cbn;
    rewrite (Nat.add_comm _ 1); reflexivity.
Qed.

Lemma countsOf_ext (c1 c2 : AgentRole → nat) : (∀ r, c1 r = c2 r) → countsOf c1 = countsOf c2.
Proof. intros Hext. unfold countsOf. apply map_ext. intros r. rewrite Hext. reflexivity. Qed.

Lemma count_loop agents : ∀ count,
  foldl (λ m agent,
           let c := default 0%nat (mapGet m (Agent.role agent)) in
           mapSet m (Agent.role agent) (c + 1)%nat)
        (countsOf count) agents
  = countsOf (λ r, (count r + roleCount agents r)%nat).
Proof.
  induction agents as [|a agents IH]; intros count; cbn [foldl].
  - apply countsOf_ext. intros r. unfold roleCount. cbn. lia.
  - rewrite count_step, IH. apply countsOf_ext. intros r.
    rewrite roleCount_cons. lia.
Qed.

(** The map that [selectRole] builds holds, for every role, the number of
    active agents with that role. *)
Lemma countRoles_spec agents : countRoles agents = countsOf (roleCount agents).
Proof.
  unfold countRoles. change (foldl (λ m role, mapSet m role 0%nat) [] AgentRole_values)
    with (countsOf (λ _, 0%nat)).
  rewrite count_loop. reflexivity.
Qed.

Lemma minOf_le count role : (minOf count ≤ count role)%nat.
Proof. unfold minOf. destruct role; lia. Qed.

Lemma minOf_attained count : ∃ role, count role = minOf count.
Proof.
  unfold minOf.
  destruct (Nat.min_spec (Nat.min (Nat.min (Nat.min (count EXPLORER) (count BUILDER))
                                     (count ANALYST)) (count COORDINATOR)) (count GUARDIAN))
    as [[_ ->]|[_ ->]]; [|exists GUARDIAN; reflexivity].
  destruct (Nat.min_spec (Nat.min (Nat.min (count EXPLORER) (count BUILDER)) (count ANALYST))
              (count COORDINATOR)) as [[_ ->]|[_ ->]]; [|exists COORDINATOR; reflexivity].
  destruct (Nat.min_spec (Nat.min (count EXPLORER) (count BUILDER)) (count ANALYST))
    as [[_ ->]|[_ ->]]; [|exists ANALYST; reflexivity].
  destruct (Nat.min_spec (count EXPLORER) (count BUILDER)) as [[_ ->]|[_ ->]];
    [exists EXPLORER|exists BUILDER]; reflexivity.
Qed.

Lemma elem_of_countsOf count role c : (role, c) ∈ countsOf count ↔ c = count role.
Proof.
  unfold countsOf. rewrite list_elem_of_fmap. split.
  - intros (r & Heq & _). injection Heq as -> ->. reflexivity.
  - intros ->. exists role. split; [reflexivity|].
    destruct role; unfold AgentRole_values; rewrite !elem_of_cons; tauto.
Qed.

Lemma underrepresented_eq context :
  underrepresentedRoles context
  = map fst (filter (λ entry, Some entry.2 = Some (minOf (roleCount (SystemState.activeAgents context))))
               (countsOf (roleCount (SystemState.activeAgents context)))).
Proof. unfold underrepresentedRoles. rewrite countRoles_spec. reflexivity. Qed.

(** The roles that the selection draws from are those with the least count. *)
Lemma elem_of_underrepresented context role :
  role ∈ underrepresentedRoles context
  ↔ roleCount (SystemState.activeAgents context) role
    = minOf (roleCount (SystemState.activeAgents context)).
Proof.
  rewrite underrepresented_eq, list_elem_of_fmap. split.
  - intros ([r c] & -> & Hin). apply list_elem_of_filter in Hin as [Hmin Hin].
    apply elem_of_countsOf in Hin. cbn in *. congruence.
  - intros Hmin. exists (role, roleCount (SystemState.activeAgents context) role).
    split; [reflexivity|]. apply list_elem_of_filter. split.
    + cbn. congruence.
    + apply elem_of_countsOf. reflexivity.
Qed.

Lemma underrepresented_NoDup context : NoDup (underrepresentedRoles context).
Proof.
  rewrite underrepresented_eq.
  apply (sublist_NoDup _ (map fst (countsOf (roleCount (SystemState.activeAgents context))))).
  - unfold countsOf. cbn.
    repeat (constructor; [rewrite ?elem_of_cons, elem_of_nil; intuition discriminate|]).
    constructor.
  - apply fmap_sublist, sublist_filter.
Qed.

Lemma underrepresented_nonempty context : (0 < length (underrepresentedRoles context))%nat.
Proof.
  destruct (minOf_attained (roleCount (SystemState.activeAgents context))) as [role Hrole].
  apply elem_of_underrepresented in Hrole.
  destruct (underrepresentedRoles context); [|cbn; lia].
  apply elem_of_nil in Hrole. destruct Hrole.
Qed.

(** [Math.floor(x)] is [i] exactly when [x] lies in [[i, i + 1)]. *)
Lemma floor_eq (x : Q) (i : Z) : Qfloor x = i ↔ inject_Z i <= x < inject_Z (i + 1).
Proof.
  split.
  - intros <-. split; [apply Qfloor_le | apply Qlt_floor].
  - intros [Hlo Hhi].
    pose proof (Qfloor_resp_le _ _ Hlo) as H1. rewrite Qfloor_Z in H1.
    pose proof (Qfloor_le x) as H2.
    assert (H3 : inject_Z (Qfloor x) < inject_Z (i + 1)) by lra.
    rewrite <- Zlt_Qlt in H3. lia.
Qed.

(** With [k] candidates, the index [floor (random * k)] is [i] exactly when
    the draw lies in [[i / k, (i + 1) / k)]. *)
Lemma floor_index (random : Q) (k i : nat) :
  (0 < k)%nat →
  Js.Math_floor (random * inject_Z (Z.of_nat k)) = Z.of_nat i
  ↔ inject_Z (Z.of_nat i) / inject_Z (Z.of_nat k) <= random
    ∧ random < inject_Z (Z.of_nat i + 1) / inject_Z (Z.of_nat k).
Proof.
  intros Hk. unfold Js.Math_floor. rewrite floor_eq.
  assert (Hpos : 0 < inject_Z (Z.of_nat k)).
  { change 0 with (inject_Z 0). rewrite <- Zlt_Qlt. lia. }
  set (K := inject_Z (Z.of_nat k)) in *.
  assert (Hne : ¬ K == 0) by lra.
  assert (Hi : inject_Z (Z.of_nat i) / K * K == inject_Z (Z.of_nat i))
    by (field; exact Hne).
  assert (Hi1 : inject_Z (Z.of_nat i + 1) / K * K == inject_Z (Z.of_nat i + 1))
    by (field; exact Hne).
  rewrite <- (Qmult_le_r (inject_Z (Z.of_nat i) / K) random K Hpos).
  rewrite <- (Qmult_lt_r random (inject_Z (Z.of_nat i + 1) / K) K Hpos).
  rewrite Hi, Hi1. reflexivity.
Qed.

Lemma floor_in_range (random : Q) (k : nat) :
  0 <= random → random < 1 → (0 < k)%nat →
  ∃ i, (i < k)%nat ∧ Js.Math_floor (random * inject_Z (Z.of_nat k)) = Z.of_nat i.
Proof.
  intros H0 H1 Hk. unfold Js.Math_floor.
  assert (Hpos : 0 < inject_Z (Z.of_nat k)).
  { change 0 with (inject_Z 0). rewrite <- Zlt_Qlt. lia. }
  set (K := inject_Z (Z.of_nat k)) in *.
  assert (Hlo : (0 <= Qfloor (random * K))%Z).
  { change 0%Z with (Qfloor (inject_Z 0)). apply Qfloor_resp_le.
    change (inject_Z 0) with 0. apply Qmult_le_0_compat; lra. }
  assert (Hhi : (Qfloor (random * K) < Z.of_nat k)%Z).
  { rewrite Zlt_Qlt. fold K. pose proof (Qfloor_le (random * K)).
    assert (random * K < 1 * K) by (apply Qmult_lt_r; assumption). lra. }
  exists (Z.to_nat (Qfloor (random * K))). split; lia.
Qed.

Lemma at_index_nat {A} (l : list A) (i : nat) : at_index l (Z.of_nat i) = l !! i.
Proof.
  unfold at_index. destruct (Z.ltb_spec (Z.of_nat i) 0); [lia|].
  rewrite Nat2Z.id. reflexivity.
Qed.

End RoleFacts.

(** C7.  For a draw of [Math.random()] in [[0, 1)], [selectRole] returns a
    role, and that role is one whose count among the active agents is least
    over the five roles.  The candidate roles are exactly those of least
    count, each listed once; with [k] candidates, the candidate at position
    [i] is returned exactly when the draw lies in [[i / k, (i + 1) / k)], an
    interval of width [1 / k] for every candidate. *)
Theorem selectRole_picks_least_represented :
  ∀ (random : Q) (context : SystemState.t),
    0 <= random → random < 1 →
    let agents := SystemState.activeAgents context in
    let tied := AgentFactory.underrepresentedRoles context in
    let k := length tied in
    (∃ role,
       AgentFactory.selectRole random context = Some role
       ∧ ∀ other, (AgentFactory.roleCount agents role ≤ AgentFactory.roleCount agents other)%nat)
    ∧ (0 < k)%nat
    ∧ NoDup tied
    ∧ (∀ role,
         role ∈ tied
         ↔ ∀ other, (AgentFactory.roleCount agents role ≤ AgentFactory.roleCount agents other)%nat)
    ∧ (∀ i role,
         tied !! i = Some role →
         (AgentFactory.selectRole random context = Some role
          ↔ inject_Z (Z.of_nat i) / inject_Z (Z.of_nat k) <= random
            ∧ random < inject_Z (Z.of_nat i + 1) / inject_Z (Z.of_nat k))).
Proof.
  intros random context H0 H1 agents tied k.
  pose proof (RoleFacts.underrepresented_nonempty context) as Hk. fold tied k in Hk.
  pose proof (RoleFacts.underrepresented_NoDup context) as Hnd. fold tied in Hnd.
  assert (Hleast : ∀ role,
             role ∈ tied
             ↔ ∀ other, (AgentFactory.roleCount agents role
                          ≤ AgentFactory.roleCount agents other)%nat).
  { intros role. unfold tied. rewrite RoleFacts.elem_of_underrepresented. fold agents. split.
    - intros -> other. apply RoleFacts.minOf_le.
    - intros Hall. destruct (RoleFacts.minOf_attained (AgentFactory.roleCount agents)) as [r Hr].
      pose proof (RoleFacts.minOf_le (AgentFactory.roleCount agents) role).
      specialize (Hall r). lia. }
  destruct (RoleFacts.floor_in_range random k H0 H1 Hk) as (j & Hj & Hfloor).
  assert (Hsel : AgentFactory.selectRole random context = tied !! j).
  { unfold AgentFactory.selectRole. fold tied k. rewrite Hfloor. apply RoleFacts.at_index_nat. }
  destruct (lookup_lt_is_Some_2 tied j Hj) as [chosen Hchosen].
  split.
  { exists chosen. split; [congruence|]. apply Hleast. eapply list_elem_of_lookup_2, Hchosen. }
  split; [exact Hk|]. split; [exact Hnd|]. split; [exact Hleast|].
  intros i role Hi. rewrite <- (RoleFacts.floor_index random k i Hk). rewrite Hsel, Hfloor. split.
  - intros Hrole. f_equal. apply (NoDup_lookup tied j i role Hnd Hrole Hi).
  - intros Heq. apply Nat2Z.inj in Heq. subst j. exact Hi.
Qed.

Lemma selectRole_picks_least_represented_witness :
  ∃ role,
    AgentFactory.selectRole 0.5 (Samples.stateWith 2) = Some role
    ∧ ∀ other,
        (AgentFactory.roleCount (SystemState.activeAgents (Samples.stateWith 2)) role
         ≤ AgentFactory.roleCount (SystemState.activeAgents (Samples.stateWith 2)) other)%nat.
Proof.
  refine (proj1 (selectRole_picks_least_represented 0.5 (Samples.stateWith 2) _ _)).
  - unfold Qle. simpl. lia.
  - unfold Qlt. simpl. lia.
Defined.

(** ** Task execution *)

Module TaskFacts.
Import TaskExecutor.

(** The role tasks leave the counters and the busy flag of the agent as they
    found them. *)
Lemma runRoleTask_counters env agent :
  let agent' := (runRoleTask env agent).1 in
  Metadata.successCount (Agent.metadata agent') = Metadata.successCount (Agent.metadata agent)
  ∧ Metadata.failureCount (Agent.metadata agent') = Metadata.failureCount (Agent.metadata agent)
  ∧ Metadata.currentTask (Agent.metadata agent') = Metadata.currentTask (Agent.metadata agent).
Proof.
  unfold runRoleTask.
  destruct (Agent.role agent); cbn; try (repeat split; reflexivity).
  destruct (Env.reactivatesSelf env); repeat split; reflexivity.
Qed.

(** A throw anywhere in the on-chain logging leaves the signature absent. *)
Lemma logTaskOnChain_swallows env agent task error :
  logTaskOnChainBody env agent task = Js.Throw error → logTaskOnChain env agent task = None.
Proof. unfold logTaskOnChain. intros ->. reflexivity. Qed.

(** A ledger that refuses every submission makes the logging step fail as
    long as the wallet and the memo are available. *)
Lemma refused_submission_fails_logging env :
  (∀ tx signers, ∃ error, Env.submitTransaction env tx signers = Js.Throw error) →
  (∀ id, ∃ wallet, Env.getWallet env id = Js.Ok (Some wallet)) →
  loggingFails env.
Proof.
  intros Hsubmit Hwallet agent task. unfold logTaskOnChainBody.
  destruct (Hwallet "genesis_root") as [wallet ->]. cbn.
  destruct (Env.getKeypair env wallet) as [keypair|e]; cbn; [|eexists; reflexivity].
  destruct (Env.buildMemoTransaction env _ keypair) as [tx|e]; cbn; [|eexists; reflexivity].
  destruct (Hsubmit tx [keypair]) as [e ->]. cbn. eexists; reflexivity.
Qed.

End TaskFacts.

(** C10.  When the store's [saveAgent] succeeds, [executeTask] returns a
    task and does not throw.  The task is COMPLETED when the role task
    returned and FAILED when it threw.  In both outcomes the agent's
    [currentTask] is absent afterwards and exactly one of its counters has
    grown by one: [successCount] for a COMPLETED task, [failureCount] for a
    FAILED one.  When the role task returned and the on-chain logging step
    fails, the task is COMPLETED all the same, with its result recorded and
    no [onChainTx].  The task is no longer among the executor's active tasks. *)
Theorem executeTask_settles_task_and_counters :
  ∀ (env : TaskExecutor.Env.t) (x : TaskExecutor.t) (agent : Agent.t),
    (∀ a, TaskExecutor.Env.saveAgent env a = Js.Ok ()) →
    let before := Agent.metadata agent in
    let taskId := "task_" +:+ Js.toHex (TaskExecutor.Env.taskIdBytes env) in
    ∃ task agent',
      let after := Agent.metadata agent' in
      (TaskExecutor.executeTask env x agent).1 = Js.Ok (task, agent')
      ∧ TaskAssignment.id task = taskId
      ∧ Metadata.currentTask after = None
      ∧ ((TaskAssignment.status task = TaskStatus.COMPLETED
          ∧ Metadata.successCount after = S (Metadata.successCount before)
          ∧ Metadata.failureCount after = Metadata.failureCount before)
         ∨ (TaskAssignment.status task = TaskStatus.FAILED
            ∧ Metadata.successCount after = Metadata.successCount before
            ∧ Metadata.failureCount after = S (Metadata.failureCount before)))
      ∧ (∀ result,
           (TaskExecutor.runRoleTask env agent).2 = Js.Ok result →
           TaskAssignment.status task = TaskStatus.COMPLETED
           ∧ TaskAssignment.result task = Some result
           ∧ (TaskExecutor.loggingFails env → TaskAssignment.onChainTx task = None))
      ∧ (∀ error,
           (TaskExecutor.runRoleTask env agent).2 = Js.Throw error →
           TaskAssignment.status task = TaskStatus.FAILED
           ∧ TaskAssignment.result task = Some error)
      ∧ TaskExecutor.activeTasks (TaskExecutor.executeTask env x agent).2 !! taskId = None.
Proof.
  intros env x agent Hsave before taskId. subst before.
  pose proof (TaskFacts.runRoleTask_counters env agent) as (Hs & Hf & _).
  unfold TaskExecutor.executeTask, TaskExecutor.tryBlock. fold taskId.
  destruct (TaskExecutor.runRoleTask env agent) as [agent1 outcome]. cbn [fst snd] in *.
  destruct outcome as [result|error].
  - rewrite Hsave. eexists _, _. unfold TaskExecutor.markSuccess. cbn.
    split; [reflexivity|]. split; [reflexivity|]. split; [reflexivity|].
    split; [left; repeat split; cbn; [rewrite Hs; lia | exact Hf]|].
    split.
    { intros result' Hr. injection Hr as <-. repeat split.
      intros Hfail. cbn.
      match goal with |- TaskExecutor.logTaskOnChain env ?a ?t = None =>
        destruct (Hfail a t) as [e He]; exact (TaskFacts.logTaskOnChain_swallows env a t e He)
      end. }
    split; [intros error Hr; discriminate|].
    apply lookup_delete_eq.
  - unfold TaskExecutor.catchBlock. rewrite Hsave. eexists _, _. unfold TaskExecutor.markFailure. cbn.
    split; [reflexivity|]. split; [reflexivity|]. split; [reflexivity|].
    split; [right; repeat split; cbn; [exact Hs | rewrite Hf; lia]|].
    split; [intros result Hr; discriminate|].
    split; [intros error' Hr; injection Hr as <-; repeat split|].
    apply lookup_delete_eq.
Qed.

Lemma executeTask_settles_task_and_counters_witness :
  ∃ task agent',
    (TaskExecutor.executeTask (Samples.taskEnv (Js.Ok "report")) (TaskExecutor.mk ∅)
       (Samples.agent "agent_1" COORDINATOR 2 1 0 (Some "COORDINATOR_TASK"))).1
    = Js.Ok (task, agent')
    ∧ TaskAssignment.status task = TaskStatus.COMPLETED
    ∧ TaskAssignment.onChainTx task = None
    ∧ Metadata.currentTask (Agent.metadata agent') = None
    ∧ Metadata.successCount (Agent.metadata agent') = 3%nat
    ∧ Metadata.failureCount (Agent.metadata agent') = 1%nat.
Proof.
  destruct (executeTask_settles_task_and_counters
              (Samples.taskEnv (Js.Ok "report")) (TaskExecutor.mk ∅)
              (Samples.agent "agent_1" COORDINATOR 2 1 0 (Some "COORDINATOR_TASK"))
              (λ _, eq_refl))
    as (task & agent' & Hrun & _ & Hcur & _ & Hok & _).
  exists task, agent'. split; [exact Hrun|].
  vm_compute in Hrun. injection Hrun as <- <-. repeat split.
Defined.

(** A role task that throws is recorded as a failure. *)
Example failed_role_task :
  ∃ task agent',
    (TaskExecutor.executeTask (Samples.taskEnv (Js.Throw "wallet unavailable"))
       (TaskExecutor.mk ∅)
       (Samples.agent "agent_1" GUARDIAN 2 1 0 (Some "GUARDIAN_TASK"))).1
    = Js.Ok (task, agent')
    ∧ TaskAssignment.status task = TaskStatus.FAILED
    ∧ TaskAssignment.result task = Some "wallet unavailable"
    ∧ Metadata.currentTask (Agent.metadata agent') = None
    ∧ Metadata.successCount (Agent.metadata agent') = 2%nat
    ∧ Metadata.failureCount (Agent.metadata agent') = 2%nat.
Proof. eexists _, _. vm_compute. repeat split. Qed.

(** ** The durable store *)

Module StorageFacts.
Import AtomicStorage.

Lemma string_length_append (s1 s2 : string) :
  String.length (s1 +:+ s2) = (String.length s1 + String.length s2)%nat.
Proof. induction s1 as [|c s1 IH]; simpl; [reflexivity|]. f_equal. exact IH. Qed.

Lemma tempPath_fresh file : tempPath file ≠ file.
Proof.
  intros Heq. apply (f_equal String.length) in Heq.
  unfold tempPath in Heq. rewrite string_length_append in Heq. cbn in Heq. lia.
Qed.

Lemma backupPath_fresh file : backupPath file ≠ file.
Proof.
  intros Heq. apply (f_equal String.length) in Heq.
  unfold backupPath in Heq. rewrite string_length_append in Heq. cbn in Heq. lia.
Qed.

Lemma backupPath_not_temp file : backupPath file ≠ tempPath file.
Proof.
  intros Heq. apply (f_equal String.length) in Heq.
  unfold backupPath, tempPath in Heq. rewrite !string_length_append in Heq. cbn in Heq. lia.
Qed.

(** A step leaves every path that it does not affect as it was. *)
Lemma applyOp_unaffected (fs : FileSystem) op path :
  path ∉ affected op → applyOp fs op !! path = fs !! path.
Proof.
  destruct op as [p|p b|src tgt|src tgt]; cbn; rewrite ?elem_of_cons, ?elem_of_nil; intros Hno.
  - apply lookup_insert_ne. intuition congruence.
  - apply lookup_insert_ne. intuition congruence.
  - destruct (fs !! src); [|reflexivity]. apply lookup_insert_ne. intuition congruence.
  - destruct (fs !! src); [|reflexivity].
    rewrite lookup_insert_ne by intuition congruence. apply lookup_delete_ne. intuition congruence.
Qed.

Lemma runOps_unaffected ops : ∀ (fs : FileSystem) path,
  Forall (λ op, path ∉ affected op) ops → runOps fs ops !! path = fs !! path.
Proof.
  induction ops as [|op ops IH]; intros fs path Hall; [reflexivity|].
  inversion Hall as [|? ? Hop Hrest]; subst. cbn.
  change (foldl applyOp (applyOp fs op) ops) with (runOps (applyOp fs op) ops).
  rewrite IH by assumption. apply applyOp_unaffected, Hop.
Qed.

Lemma statesOf_unaffected ops : ∀ (fs : FileSystem) path state,
  Forall (λ op, path ∉ affected op) ops →
  state ∈ statesOf fs ops → state !! path = fs !! path.
Proof.
  induction ops as [|op ops IH]; intros fs path state Hall Hin; cbn in Hin.
  - apply list_elem_of_singleton in Hin. subst. reflexivity.
  - inversion Hall as [|? ? Hop Hrest]; subst.
    apply elem_of_cons in Hin as [->|Hin]; [reflexivity|].
    rewrite (IH _ _ _ Hrest Hin). apply applyOp_unaffected, Hop.
Qed.

(** The states of a program that ends with one more step. *)
Lemma statesOf_snoc ops : ∀ (fs : FileSystem) op,
  statesOf fs (ops ++ [op]) = statesOf fs ops ++ [applyOp (runOps fs ops) op].
Proof.
  induction ops as [|o ops IH]; intros fs op; cbn; [reflexivity|].
  rewrite IH. reflexivity.
Qed.

Lemma runOps_app (fs : FileSystem) ops1 ops2 :
  runOps fs (ops1 ++ ops2) = runOps (runOps fs ops1) ops2.
Proof. unfold runOps. apply foldl_app. Qed.

(** Appending the bytes of a content one at a time builds that content. *)
Lemma append_bytes content : ∀ (fs : FileSystem) path written,
  fs !! path = Some written →
  runOps fs (map (AppendByte path) content) !! path = Some (written ++ content).
Proof.
  induction content as [|b content IH]; intros fs path written Hw; cbn.
  - rewrite app_nil_r. exact Hw.
  - change (foldl applyOp ?s ?o) with (runOps s o).
    rewrite (IH _ path (written ++ [b])).
    + rewrite <- app_assoc. reflexivity.
    + rewrite Hw. cbn. apply lookup_insert_eq.
Qed.

Lemma writeOps_split fs file content :
  writeOps fs file content = preparation fs file content ++ [Rename (tempPath file) file].
Proof. unfold writeOps, preparation. rewrite <- !app_assoc. reflexivity. Qed.

Lemma preparation_spares_live fs file content :
  Forall (λ op, file ∉ affected op) (preparation fs file content).
Proof.
  pose proof (tempPath_fresh file). pose proof (backupPath_fresh file).
  unfold preparation. repeat apply Forall_app_2.
  - repeat constructor. cbn. rewrite elem_of_cons, elem_of_nil. intuition congruence.
  - apply Forall_fmap, Forall_forall. intros b _. cbn.
    rewrite elem_of_cons, elem_of_nil. intuition congruence.
  - destruct (decide (is_Some (fs !! file))); repeat constructor.
    cbn. rewrite elem_of_cons, elem_of_nil. intuition congruence.
Qed.

Lemma preparation_builds_temp fs file content :
  runOps fs (preparation fs file content) !! tempPath file = Some content.
Proof.
  unfold preparation. rewrite !runOps_app.
  rewrite runOps_unaffected.
  - rewrite (append_bytes content _ (tempPath file) []); [reflexivity|].
    cbn. apply lookup_insert_eq.
  - pose proof (backupPath_not_temp file).
    destruct (decide (is_Some (fs !! file))); repeat constructor.
    cbn. rewrite elem_of_cons, elem_of_nil. intuition congruence.
Qed.

Lemma runOps_single (fs : FileSystem) op : runOps fs [op] = applyOp fs op.
Proof. reflexivity. Qed.

(** After a write the live file holds the content. *)
Lemma write_read fs file content : read (write fs file content) file = Some content.
Proof.
  unfold read, write. rewrite writeOps_split, runOps_app, runOps_single.
  cbn [applyOp]. rewrite preparation_builds_temp. apply lookup_insert_eq.
Qed.

(** In every state that a write passes through, the live file holds either
    what it held before the write or the whole new content. *)
Lemma write_atomic fs file content state :
  state ∈ statesOf fs (writeOps fs file content) →
  read state file = read fs file ∨ read state file = Some content.
Proof.
  rewrite writeOps_split, statesOf_snoc, elem_of_app. intros [Hin|Hin].
  - left. apply (statesOf_unaffected _ _ _ _ (preparation_spares_live fs file content) Hin).
  - right. apply list_elem_of_singleton in Hin. subst state.
    unfold read. cbn [applyOp]. rewrite preparation_builds_temp. apply lookup_insert_eq.
Qed.

(** The last state of a write is the file system that [write] returns. *)
Lemma statesOf_last ops : ∀ (fs : FileSystem), last (statesOf fs ops) = Some (runOps fs ops).
Proof.
  induction ops as [|op ops IH]; intros fs; [reflexivity|].
  cbn [statesOf]. rewrite last_cons, IH. reflexivity.
Qed.

End StorageFacts.

Module StoreFacts.
Import AtomicStorage MemoryStore.

Section Collection.
Context {R : Type} `{Codec R}.
Variable key : R → string.
Variable file : string.

Lemma validate_all (records : list R) : omap validate (map toDocument records) = records.
Proof.
  induction records as [|r records IH]; [reflexivity|].
  cbn. rewrite validate_toDocument. cbn. rewrite IH. reflexivity.
Qed.

(** Reading back what was serialized yields the records. *)
Lemma deserialize_serialize (records : list R) :
  deserialize (serialize records) = Some records.
Proof.
  unfold deserialize, serialize. rewrite parse_stringify, validate_all. reflexivity.
Qed.

Lemma load_after_write fs (records : list R) :
  load file (write fs file (serialize records)) = records.
Proof.
  unfold load. rewrite StorageFacts.write_read. cbn.
  rewrite deserialize_serialize. reflexivity.
Qed.

Lemma get_upsert (records : list R) (record : R) :
  get key (upsert key records record) (key record) = Some record.
Proof.
  induction records as [|r records IH]; cbn.
  - rewrite decide_True by reflexivity. reflexivity.
  - destruct (decide (key r = key record)) as [Heq|Hne]; cbn.
    + rewrite decide_True by reflexivity. reflexivity.
    + rewrite decide_False by assumption. exact IH.
Qed.

End Collection.
End StoreFacts.

(** *** The frame codec *)

Module FrameFacts.
Import AtomicStorage FrameCodec.

Lemma parseFrames_frame record : ∀ rest current,
  parseFrames (flat_map (λ b, [Byte.x01; b]) record ++ Byte.x00 :: rest) current
  = cons (rev current ++ record) <$> parseFrames rest [].
Proof.
  induction record as [|b record IH]; intros rest current.
  - cbn. rewrite app_nil_r. reflexivity.
  - cbn. rewrite IH. cbn. rewrite <- app_assoc. reflexivity.
Qed.

Lemma parseFrames_stringify (docs : list Bytes) :
  parseFrames (stringifyFrames docs) [] = Some docs.
Proof.
  induction docs as [|doc docs IH]; [reflexivity|].
  unfold stringifyFrames in *. cbn [flat_map]. unfold frame at 1.
  rewrite <- app_assoc. cbn [app].
  rewrite parseFrames_frame, IH. reflexivity.
Qed.

End FrameFacts.

#[global] Instance frameCodec : Codec AtomicStorage.Bytes := {|
  Document := AtomicStorage.Bytes;
  toDocument := λ record, record;
  validate := Some;
  stringify := FrameCodec.stringifyFrames;
  parse := λ content, FrameCodec.parseFrames content [];
  validate_toDocument := λ _, eq_refl;
  parse_stringify := FrameFacts.parseFrames_stringify;
|}.



(** A write over an existing file keeps the previous content as the backup,
    and a reload falls back to it when the live file does not parse. *)
Example backup_is_kept_and_used :
  let fs1 := AtomicStorage.write ∅ "agents.json"
               (MemoryStore.serialize [[Byte.x01; Byte.x07]]) in
  let fs2 := AtomicStorage.write fs1 "agents.json"
               (MemoryStore.serialize [[Byte.x01; Byte.x08]]) in
  AtomicStorage.read fs2 (AtomicStorage.backupPath "agents.json")
  = Some (MemoryStore.serialize [[Byte.x01; Byte.x07]])
  ∧ MemoryStore.load "agents.json" (<["agents.json" := [Byte.x05]]> fs2)
    = [[Byte.x01; Byte.x07]].
Proof. split; vm_compute; reflexivity. Qed.

(** * Further properties *)

(** ** Retries for any bound *)

Module RetryBoundFacts.
Import SolanaTransactions.

Lemma attemptLoop_attempts connection signers maxRetries remaining :
  ∀ attempt transaction,
    (attemptsMade (attemptLoop connection signers maxRetries remaining attempt transaction).2
     ≤ remaining)%nat.
Proof.
  induction remaining as [|remaining IH]; intros attempt transaction; cbn [attemptLoop].
  - cbn. lia.
  - destruct (Connection.sendAndConfirmTransaction connection attempt transaction signers);
      [cbn; lia|].
    destruct (attempt =? maxRetries)%nat; [cbn; lia|].
    destruct (Connection.getLatestBlockhash connection attempt) as [blockhash|]; [|cbn; lia].
    specialize (IH (S attempt) (Transaction.setRecentBlockhash transaction blockhash)).
    destruct (attemptLoop _ _ _ _ _ _) as [outcome trace]. cbn in *. lia.
Qed.

Lemma attemptLoop_sleeps connection signers maxRetries remaining :
  ∀ attempt transaction ms,
    (attempt + remaining = S maxRetries)%nat →
    Slept ms ∈ (attemptLoop connection signers maxRetries remaining attempt transaction).2 →
    ∃ n, (attempt ≤ n < maxRetries)%nat ∧ ms = (1000 * Z.of_nat n)%Z.
Proof.
  induction remaining as [|remaining IH]; intros attempt transaction ms Hsum Hin;
    cbn [attemptLoop] in Hin.
  - cbn in Hin. apply elem_of_nil in Hin. destruct Hin.
  - destruct (Connection.sendAndConfirmTransaction connection attempt transaction signers).
    { cbn in Hin. apply elem_of_cons in Hin as [Hin|Hin]; [discriminate|].
      apply elem_of_nil in Hin. destruct Hin. }
    destruct (Nat.eqb_spec attempt maxRetries) as [Heq|Hne].
    { cbn in Hin. apply elem_of_cons in Hin as [Hin|Hin]; [discriminate|].
      apply elem_of_nil in Hin. destruct Hin. }
    destruct (Connection.getLatestBlockhash connection attempt) as [blockhash|].
    + specialize (IH (S attempt) (Transaction.setRecentBlockhash transaction blockhash) ms).
      destruct (attemptLoop _ _ _ _ _ _) as [outcome trace]. cbn in *.
      apply elem_of_cons in Hin as [Hin|Hin]; [discriminate|].
      apply elem_of_cons in Hin as [Hin|Hin].
      { injection Hin as ->. exists attempt. split; [lia|reflexivity]. }
      apply elem_of_cons in Hin as [Hin|Hin]; [discriminate|].
      destruct (IH ltac:(lia) Hin) as (n & Hn & ->). exists n. split; [lia|reflexivity].
    + cbn in Hin.
      apply elem_of_cons in Hin as [Hin|Hin]; [discriminate|].
      apply elem_of_cons in Hin as [Hin|Hin].
      { injection Hin as ->. exists attempt. split; [lia|reflexivity]. }
      apply elem_of_cons in Hin as [Hin|Hin]; [discriminate|].
      apply elem_of_nil in Hin. destruct Hin.
Qed.

(** Every attempt after the one the loop starts with carries the blockhash
    that was fetched after the attempt before it, and is otherwise the
    transaction the loop started with. *)
Lemma attemptLoop_blockhash connection signers maxRetries remaining :
  ∀ attempt transaction n tx,
    Sent n tx ∈ (attemptLoop connection signers maxRetries remaining attempt transaction).2 →
    (n = attempt ∧ tx = transaction)
    ∨ ((attempt < n)%nat
       ∧ ∃ blockhash,
           Connection.getLatestBlockhash connection (n - 1) = Js.Ok blockhash
           ∧ tx = Transaction.setRecentBlockhash transaction blockhash).
Proof.
  induction remaining as [|remaining IH]; intros attempt transaction n tx Hin;
    cbn [attemptLoop] in Hin.
  - cbn in Hin. apply elem_of_nil in Hin. destruct Hin.
  - destruct (Connection.sendAndConfirmTransaction connection attempt transaction signers).
    { cbn in Hin. apply elem_of_cons in Hin as [Hin|Hin];
        [injection Hin as -> ->; left; split; reflexivity|].
      apply elem_of_nil in Hin. destruct Hin. }
    destruct (attempt =? maxRetries)%nat.
    { cbn in Hin. apply elem_of_cons in Hin as [Hin|Hin];
        [injection Hin as -> ->; left; split; reflexivity|].
      apply elem_of_nil in Hin. destruct Hin. }
    destruct (Connection.getLatestBlockhash connection attempt) as [blockhash|] eqn:Hfetch.
    + specialize (IH (S attempt) (Transaction.setRecentBlockhash transaction blockhash) n tx).
      destruct (attemptLoop _ _ _ _ _ _) as [outcome trace]. cbn in *.
      apply elem_of_cons in Hin as [Hin|Hin];
        [injection Hin as -> ->; left; split; reflexivity|].
      apply elem_of_cons in Hin as [Hin|Hin]; [discriminate|].
      apply elem_of_cons in Hin as [Hin|Hin]; [discriminate|].
      right. destruct (IH Hin) as [[-> ->]|(Hlt & bh & Hbh & ->)].
      * split; [lia|]. exists blockhash. split; [|reflexivity].
        replace (S attempt - 1)%nat with attempt by lia. exact Hfetch.
      * split; [lia|]. exists bh. split; [exact Hbh|]. reflexivity.
    + cbn in Hin.
      apply elem_of_cons in Hin as [Hin|Hin];
        [injection Hin as -> ->; left; split; reflexivity|].
      apply elem_of_cons in Hin as [Hin|Hin]; [discriminate|].
      apply elem_of_cons in Hin as [Hin|Hin]; [discriminate|].
      apply elem_of_nil in Hin. destruct Hin.
Qed.

End RetryBoundFacts.

(** X1.  Whatever bound [maxRetries] a caller passes, a submission makes at
    most that many attempts and sleeps only [1000 n] milliseconds after a
    failed attempt [n] below the bound; with a bound of zero it makes no
    attempt at all and throws the fixed error of the loop's end. *)
Theorem submitTransaction_respects_any_bound :
  ∀ (connection : SolanaTransactions.Connection.t)
    (transaction : SolanaTransactions.Transaction.t) (signers : list string)
    (maxRetries : nat),
    let run :=
      SolanaTransactions.submitTransaction connection transaction signers (Some maxRetries) in
    (SolanaTransactions.attemptsMade run.2 ≤ maxRetries)%nat
    ∧ (∀ ms, SolanaTransactions.Slept ms ∈ run.2 →
             ∃ n, (1 ≤ n < maxRetries)%nat ∧ ms = (1000 * Z.of_nat n)%Z)
    ∧ SolanaTransactions.submitTransaction connection transaction signers (Some 0%nat)
      = (Js.Throw "Transaction failed after all retries", []).
Proof.
  intros connection transaction signers maxRetries run. subst run.
  unfold SolanaTransactions.submitTransaction. cbn [default].
  split; [apply RetryBoundFacts.attemptLoop_attempts|].
  split; [|reflexivity].
  intros ms Hin. apply (RetryBoundFacts.attemptLoop_sleeps _ _ _ _ _ _ ms) in Hin; [exact Hin|lia].
Qed.

(** X2.  A retry never reuses the blockhash of the attempt before it: the
    first attempt sends the transaction as given, and every later attempt
    [n] sends it with the blockhash that [getLatestBlockhash] returned after
    attempt [n - 1], memo and fee payer unchanged. *)
Theorem retries_carry_the_fetched_blockhash :
  ∀ (connection : SolanaTransactions.Connection.t)
    (transaction : SolanaTransactions.Transaction.t) (signers : list string)
    (maxRetries : option nat) (n : nat) (tx : SolanaTransactions.Transaction.t),
    SolanaTransactions.Sent n tx
      ∈ (SolanaTransactions.submitTransaction connection transaction signers maxRetries).2 →
    (n = 1%nat ∧ tx = transaction)
    ∨ ((1 < n)%nat
       ∧ ∃ blockhash,
           SolanaTransactions.Connection.getLatestBlockhash connection (n - 1) = Js.Ok blockhash
           ∧ SolanaTransactions.Transaction.recentBlockhash tx = Some blockhash
           ∧ SolanaTransactions.Transaction.memo tx
             = SolanaTransactions.Transaction.memo transaction
           ∧ SolanaTransactions.Transaction.feePayer tx
             = SolanaTransactions.Transaction.feePayer transaction).
Proof.
  intros connection transaction signers maxRetries n tx Hin.
  apply RetryBoundFacts.attemptLoop_blockhash in Hin as [Hfirst|(Hlt & bh & Hbh & ->)].
  - left. exact Hfirst.
  - right. split; [exact Hlt|]. exists bh. repeat split. exact Hbh.
Qed.

Lemma retries_carry_the_fetched_blockhash_witness :
  (2 = 1 ∧ SolanaTransactions.Transaction.mk "memo" (Some "blockhash_1") (Some "genesis_key")
           = Samples.transaction)%nat
  ∨ ((1 < 2)%nat
     ∧ ∃ blockhash,
         SolanaTransactions.Connection.getLatestBlockhash Samples.thirdTimeLucky (2 - 1)
         = Js.Ok blockhash
         ∧ SolanaTransactions.Transaction.recentBlockhash
             (SolanaTransactions.Transaction.mk "memo" (Some "blockhash_1") (Some "genesis_key"))
           = Some blockhash
         ∧ SolanaTransactions.Transaction.memo
             (SolanaTransactions.Transaction.mk "memo" (Some "blockhash_1") (Some "genesis_key"))
           = SolanaTransactions.Transaction.memo Samples.transaction
         ∧ SolanaTransactions.Transaction.feePayer
             (SolanaTransactions.Transaction.mk "memo" (Some "blockhash_1") (Some "genesis_key"))
           = SolanaTransactions.Transaction.feePayer Samples.transaction).
Proof.
  apply (retries_carry_the_fetched_blockhash Samples.thirdTimeLucky Samples.transaction
           ["genesis_key"] None 2).
  vm_compute. apply list_elem_of_further, list_elem_of_further, list_elem_of_further,
    list_elem_of_here.
Defined.

(** ** Airdrop retries *)

Module AirdropFacts.
Import Airdrop.

Lemma traceUpTo_same attempt : traceUpTo attempt attempt = [Requested attempt].
Proof. unfold traceUpTo. rewrite Nat.sub_diag. reflexivity. Qed.

Lemma traceUpTo_step first last :
  (first < last)%nat →
  traceUpTo first last
  = Requested first :: Waited (2000 * Z.of_nat first) :: traceUpTo (S first) last.
Proof.
  intros Hlt. unfold traceUpTo.
  replace (last - first)%nat with (S (last - S first)) by lia. reflexivity.
Qed.

(** The loop ends at the first attempt that succeeds. *)
Lemma airdropLoop_success faucet publicKey amount maxRetries remaining :
  ∀ attempt last signature,
    (attempt + remaining = S maxRetries)%nat →
    (attempt ≤ last ≤ maxRetries)%nat →
    (∀ j, (attempt ≤ j < last)%nat → ∃ error, attemptOnce faucet j publicKey amount = Js.Throw error) →
    attemptOnce faucet last publicKey amount = Js.Ok signature →
    airdropLoop faucet publicKey amount maxRetries remaining attempt
    = (Js.Ok signature, traceUpTo attempt last).
Proof.
  induction remaining as [|remaining IH]; intros attempt last signature Hsum Hrange Hfail Hok.
  - lia.
  - cbn [airdropLoop]. destruct (decide (attempt = last)) as [->|Hne].
    + rewrite Hok, traceUpTo_same. reflexivity.
    + destruct (Hfail attempt ltac:(lia)) as [error ->].
      destruct (Nat.eqb_spec attempt maxRetries) as [Heq|_]; [lia|].
      rewrite (IH (S attempt) last signature) by (try lia; try assumption; intros; apply Hfail; lia).
      rewrite (traceUpTo_step attempt last) by lia. reflexivity.
Qed.

(** When every attempt fails the loop ends at the bound with the error of
    the last attempt. *)
Lemma airdropLoop_exhausted faucet publicKey amount maxRetries remaining :
  ∀ attempt error,
    (attempt + remaining = S maxRetries)%nat →
    (attempt ≤ maxRetries)%nat →
    (∀ j, (attempt ≤ j < maxRetries)%nat →
          ∃ error', attemptOnce faucet j publicKey amount = Js.Throw error') →
    attemptOnce faucet maxRetries publicKey amount = Js.Throw error →
    airdropLoop faucet publicKey amount maxRetries remaining attempt
    = (Js.Throw error, traceUpTo attempt maxRetries).
Proof.
  induction remaining as [|remaining IH]; intros attempt error Hsum Hrange Hfail Hlast.
  - lia.
  - cbn [airdropLoop]. destruct (Nat.eqb_spec attempt maxRetries) as [->|Hne].
    + rewrite Hlast, traceUpTo_same. reflexivity.
    + destruct (Hfail attempt ltac:(lia)) as [error' ->].
      rewrite (IH (S attempt) error) by (try lia; try assumption; intros; apply Hfail; lia).
      rewrite (traceUpTo_step attempt maxRetries) by lia. reflexivity.
Qed.

End AirdropFacts.


(** A request that is confirmed only at the second attempt. *)
Example airdrop_second_attempt :
  Airdrop.requestAirdrop
    (Airdrop.Faucet.mk (λ n _ _, Js.Ok ("airdrop_" +:+ pretty n))
       (λ n _, if (n =? 1)%nat then Js.Throw "not confirmed" else Js.Ok ()))
    "wallet" 1000000000 None
  = (Js.Ok "airdrop_2", [Airdrop.Requested 1; Airdrop.Waited 2000; Airdrop.Requested 2]).
Proof. vm_compute. reflexivity. Qed.

(** ** Options and their weights *)

Module OptionFacts.
Import DecisionEngine.

Lemma option_weights_clamped e state o :
  o ∈ generateOptions e state → 0.05 <= DecisionOption.weight o <= 0.9.
Proof.
  unfold generateOptions. intros Hin.
  repeat (apply elem_of_cons in Hin as [->|Hin]; [apply clamp_range|]).
  apply elem_of_nil in Hin. destruct Hin.
Qed.

End OptionFacts.

(** X4.  For any base weights, in range or not, and any observed state,
    [generateOptions] returns one option per decision type, in the fixed
    order of the source, and every option's weight lies in [[0.05, 0.9]]. *)
Theorem generateOptions_one_clamped_option_per_type :
  ∀ (e : DecisionEngine.t) (state : SystemState.t),
    map DecisionOption.type (DecisionEngine.generateOptions e state)
    = [CREATE_AGENT; COORDINATE_AGENTS; EVOLVE_STRATEGY;
       WAIT_AND_OBSERVE; DELEGATE_TASK; ANALYZE_PERFORMANCE]
    ∧ ∀ o, o ∈ DecisionEngine.generateOptions e state →
           0.05 <= DecisionOption.weight o <= 0.9.
Proof.
  intros e state. split; [reflexivity|].
  intros o. apply OptionFacts.option_weights_clamped.
Qed.


(** ** Selection over exact rationals *)

Module ExactSelectionFacts.
Import DecisionEngine.

(** The jitter factor of a draw in [[0, 1)] lies in [[0.8, 1.2)]. *)
Lemma jitter_bounds (random weight : Q) :
  0 <= random → random < 1 → 0 < weight →
  0.8 * weight <= applyRandomness random weight 0.2
  ∧ applyRandomness random weight 0.2 < 1.2 * weight.
Proof.
  intros H0 H1 Hw. unfold applyRandomness. cbn [lit add sub mul Q_arith].
  set (f := 1 + (random * 2 - 1) * 0.2).
  assert (Hf : 0.8 <= f ∧ f < 1.2) by (unfold f; split; lra).
  destruct Hf as [Hlo Hhi]. clearbody f. split.
  - rewrite (Qmult_comm 0.8 weight). apply Qmult_le_l; assumption.
  - rewrite (Qmult_comm 1.2 weight). apply Qmult_lt_l; assumption.
Qed.

(** The cumulative weight started at [c] is [c] plus the cumulative weight
    started at zero. *)
Lemma cumulative_shift (l : list (DecisionOption.t Q)) : ∀ c,
  cumulativeWeight c l == c + cumulativeWeight 0 l.
Proof.
  induction l as [|o l IH]; intros c.
  - cbn. lra.
  - change (cumulativeWeight c (o :: l))
      with (cumulativeWeight (c + DecisionOption.weight o) l).
    change (cumulativeWeight 0 (o :: l))
      with (cumulativeWeight (0 + DecisionOption.weight o) l).
    rewrite (IH (c + DecisionOption.weight o)), (IH (0 + DecisionOption.weight o)). lra.
Qed.

Lemma cumulative_positive (l : list (DecisionOption.t Q)) :
  (∀ o, o ∈ l → 0 < DecisionOption.weight o) → l ≠ [] → 0 < cumulativeWeight 0 l.
Proof.
  induction l as [|o l IH]; intros Hpos Hne; [congruence|].
  change (cumulativeWeight 0 (o :: l))
    with (cumulativeWeight (0 + DecisionOption.weight o) l).
  rewrite cumulative_shift.
  pose proof (Hpos o (list_elem_of_here _ _)) as Ho.
  destruct l as [|o' l'].
  - cbn. lra.
  - assert (0 < cumulativeWeight 0 (o' :: l')).
    { apply IH; [|discriminate]. intros x Hx. apply Hpos, list_elem_of_further, Hx. }
    lra.
Qed.

(** Dividing every weight by [total] divides the cumulative weight by it. *)
Lemma cumulative_divided (total : Q) (l : list (DecisionOption.t Q)) : ∀ c,
  ¬ total == 0 →
  cumulativeWeight c
    (map (λ o, DecisionOption.withWeight o (DecisionOption.weight o / total)) l)
  == c + cumulativeWeight 0 l / total.
Proof.
  induction l as [|o l IH]; intros c Hne.
  - cbn. field. exact Hne.
  - cbn [map].
    change (cumulativeWeight c (?x :: ?r))
      with (cumulativeWeight (c + DecisionOption.weight x) r).
    rewrite IH by exact Hne. cbn [DecisionOption.withWeight DecisionOption.weight].
    change (cumulativeWeight 0 (o :: l))
      with (cumulativeWeight (0 + DecisionOption.weight o) l).
    rewrite (cumulative_shift l (0 + DecisionOption.weight o)). field. exact Hne.
Qed.

Lemma randomized_positive (rnd : RandomSource Q) (options : list (DecisionOption.t Q)) :
  (∀ i, 0 <= rnd i ∧ rnd i < 1) →
  (∀ o, o ∈ options → 0 < DecisionOption.weight o) →
  ∀ o, o ∈ randomizedOptions rnd options → 0 < DecisionOption.weight o.
Proof.
  intros Hrnd Hpos o Hin. apply list_elem_of_lookup in Hin as [i Hi].
  rewrite SelectionFacts.randomized_lookup in Hi.
  destruct (options !! i) as [original|] eqn:Ho; [|discriminate].
  injection Hi as <-. cbn [DecisionOption.withWeight DecisionOption.weight].
  assert (Hw : 0 < DecisionOption.weight original)
    by (eapply Hpos, list_elem_of_lookup_2, Ho).
  destruct (Hrnd i) as [H0 H1].
  destruct (jitter_bounds (rnd i) (DecisionOption.weight original) H0 H1 Hw) as [Hlo _].
  change (0 < applyRandomness (rnd i) (DecisionOption.weight original) 0.2). lra.
Qed.

Lemma normalized_total (rnd : RandomSource Q) (options : list (DecisionOption.t Q)) :
  (∀ i, 0 <= rnd i ∧ rnd i < 1) →
  (∀ o, o ∈ options → 0 < DecisionOption.weight o) →
  options ≠ [] →
  cumulativeWeight 0 (normalizedOptions (randomizedOptions rnd options)) == 1.
Proof.
  intros Hrnd Hpos Hne.
  assert (Htotal : 0 < totalWeight (randomizedOptions rnd options)).
  { apply (cumulative_positive (randomizedOptions rnd options)).
    - apply randomized_positive; assumption.
    - intros Hnil. apply (f_equal length) in Hnil.
      unfold randomizedOptions in Hnil. rewrite length_imap in Hnil.
      destruct options; [congruence|discriminate]. }
  unfold normalizedOptions.
  change (λ opt : DecisionOption.t Q,
            DecisionOption.withWeight opt
              (div (DecisionOption.weight opt) (totalWeight (randomizedOptions rnd options))))
    with (λ o : DecisionOption.t Q,
            DecisionOption.withWeight o
              (DecisionOption.weight o / totalWeight (randomizedOptions rnd options))).
  rewrite cumulative_divided by lra.
  change (cumulativeWeight 0 (randomizedOptions rnd options))
    with (totalWeight (randomizedOptions rnd options)).
  field. lra.
Qed.

End ExactSelectionFacts.



(** ** More on task execution *)

Module TaskMoreFacts.
Import TaskExecutor.

Lemma runRoleTask_history env agent :
  Metadata.taskHistory (Agent.metadata (runRoleTask env agent).1)
  = Metadata.taskHistory (Agent.metadata agent)
  ∧ Agent.id (runRoleTask env agent).1 = Agent.id agent
  ∧ Agent.role (runRoleTask env agent).1 = Agent.role agent.
Proof.
  unfold runRoleTask.
  destruct (Agent.role agent) eqn:Hrole; cbn; try (repeat split; congruence).
  destruct (Env.reactivatesSelf env); cbn; repeat split; congruence.
Qed.

Lemma runRoleTask_progress env agent :
  (Metadata.missionProgress (Agent.metadata agent) ≤ 100)%Z →
  (Metadata.missionProgress (Agent.metadata (runRoleTask env agent).1) ≤ 100)%Z.
Proof.
  intros Hp. unfold runRoleTask.
  destruct (Agent.role agent); cbn; try exact Hp.
  destruct (Env.reactivatesSelf env); cbn; [lia|exact Hp].
Qed.

End TaskMoreFacts.

(** X7.  Whether [executeTask] returns or throws, the executor's map of
    active tasks afterwards is the map from before the call without the
    identifier of the task: the task is never left behind, and no other task
    is touched. *)
Theorem executeTask_clears_its_active_task :
  ∀ (env : TaskExecutor.Env.t) (x : TaskExecutor.t) (agent : Agent.t),
    let taskId := "task_" +:+ Js.toHex (TaskExecutor.Env.taskIdBytes env) in
    let after := TaskExecutor.activeTasks (TaskExecutor.executeTask env x agent).2 in
    after = delete taskId (TaskExecutor.activeTasks x)
    ∧ after !! taskId = None
    ∧ (∀ id, id = taskId ∨ after !! id = TaskExecutor.activeTasks x !! id)
    ∧ (TaskExecutor.activeTasks x !! taskId = None → after = TaskExecutor.activeTasks x).
Proof.
  intros env x agent taskId after. subst after.
  unfold TaskExecutor.executeTask. fold taskId. cbn [snd TaskExecutor.activeTasks].
  rewrite delete_insert_eq.
  split; [reflexivity|]. split; [apply lookup_delete_eq|]. split.
  - intros id. destruct (decide (id = taskId)) as [Heq|Hne]; [left; exact Heq|right].
    apply lookup_delete_ne. congruence.
  - intros Hfresh. apply delete_id, Hfresh.
Qed.

(** X8.  When the role task returned but saving the updated agent throws,
    the [catch] block runs on the agent as the [try] block left it: if the
    second save succeeds the call returns the task as FAILED with the save's
    error as its result, although the role task succeeded and the on-chain
    signature stays recorded, and both [successCount] and [failureCount] have
    grown by one; if the second save throws as well, the call throws that
    error. *)
Theorem executeTask_when_the_first_save_fails :
  ∀ (env : TaskExecutor.Env.t) (x : TaskExecutor.t) (agent : Agent.t)
    (result error : string),
    let taskId := "task_" +:+ Js.toHex (TaskExecutor.Env.taskIdBytes env) in
    let saved := TaskExecutor.markSuccess env taskId (TaskExecutor.runRoleTask env agent).1 in
    (TaskExecutor.runRoleTask env agent).2 = Js.Ok result →
    TaskExecutor.Env.saveAgent env saved = Js.Throw error →
    match TaskExecutor.Env.saveAgent env (TaskExecutor.markFailure saved) with
    | Js.Ok _ =>
        ∃ task agent',
          (TaskExecutor.executeTask env x agent).1 = Js.Ok (task, agent')
          ∧ TaskAssignment.status task = TaskStatus.FAILED
          ∧ TaskAssignment.result task = Some error
          ∧ TaskAssignment.onChainTx task
            = TaskExecutor.logTaskOnChain env (TaskExecutor.runRoleTask env agent).1
                (TaskAssignment.mk taskId (Agent.id agent)
                   (AgentRole_str (Agent.role agent) +:+ "_TASK")
                   (AgentRole_str (Agent.role (TaskExecutor.runRoleTask env agent).1)
                      +:+ " task: " +:+ Js.substring0 80 result)
                   (TaskExecutor.Env.taskStart env)
                   (Some (TaskExecutor.Env.completedAt env))
                   TaskStatus.COMPLETED (Some result) None)
          ∧ Metadata.successCount (Agent.metadata agent')
            = S (Metadata.successCount (Agent.metadata agent))
          ∧ Metadata.failureCount (Agent.metadata agent')
            = S (Metadata.failureCount (Agent.metadata agent))
          ∧ Metadata.currentTask (Agent.metadata agent') = None
    | Js.Throw error' =>
        (TaskExecutor.executeTask env x agent).1 = Js.Throw error'
    end.
Proof.
  intros env x agent result error taskId saved Hrole Hsave.
  pose proof (TaskFacts.runRoleTask_counters env agent) as (Hs & Hf & _).
  unfold TaskExecutor.executeTask, TaskExecutor.tryBlock. fold taskId.
  destruct (TaskExecutor.runRoleTask env agent) as [agent1 outcome] eqn:Hrun.
  cbn [fst snd] in *. subst outcome. fold saved.
  cbn [TaskAssignment.id]. fold saved. rewrite Hsave.
  unfold TaskExecutor.catchBlock.
  destruct (TaskExecutor.Env.saveAgent env (TaskExecutor.markFailure saved)) as [[]|error'].
  - eexists _, _. cbn. split; [reflexivity|]. split; [reflexivity|]. split; [reflexivity|].
    split; [reflexivity|].
    unfold saved, TaskExecutor.markFailure, TaskExecutor.markSuccess. cbn.
    rewrite Hs, Hf. repeat split; lia.
  - reflexivity.
Qed.

Lemma executeTask_when_the_first_save_fails_witness :
  ∃ task agent',
    (TaskExecutor.executeTask Samples.flakyStoreEnv (TaskExecutor.mk ∅)
       (Samples.agent "agent_1" BUILDER 2 0 0 (Some "BUILDER_TASK"))).1
    = Js.Ok (task, agent')
    ∧ TaskAssignment.status task = TaskStatus.FAILED
    ∧ TaskAssignment.result task = Some "disk full"
    ∧ TaskAssignment.onChainTx task = Some "signature_1"
    ∧ Metadata.successCount (Agent.metadata agent') = 3%nat
    ∧ Metadata.failureCount (Agent.metadata agent') = 1%nat.
Proof.
  pose proof (executeTask_when_the_first_save_fails Samples.flakyStoreEnv (TaskExecutor.mk ∅)
                (Samples.agent "agent_1" BUILDER 2 0 0 (Some "BUILDER_TASK"))
                "report" "disk full" eq_refl eq_refl) as H.
  cbn in H. destruct H as (task & agent' & Hrun & Hstatus & Hresult & Htx & Hs & Hf & _).
  exists task, agent'. repeat split; assumption.
Defined.

(** X9.  [logTaskOnChain] yields a signature exactly when every awaited step
    of its body succeeds: the genesis wallet is found, its keypair is read,
    the memo transaction is built from the task's data, the submission
    returns that signature, and the transaction counter is incremented.  A
    submission that went through is reported as [undefined] when counting it
    throws. *)
Theorem logTaskOnChain_signature_iff_all_steps_succeed :
  ∀ (env : TaskExecutor.Env.t) (agent : Agent.t) (task : TaskAssignment.t)
    (signature : string),
    let memoData :=
      TaskExecutor.MemoData.mk "TASK_COMPLETION" (Agent.id agent)
        (AgentRole_str (Agent.role agent))
        (TaskAssignment.id task) (TaskAssignment.type task)
        (Js.substring0 200 (default "" (TaskAssignment.result task)))
        (TaskExecutor.orNow (TaskExecutor.Env.activeAt env) (TaskAssignment.completedAt task)
           - TaskAssignment.assignedAt task)%Z
        (TaskExecutor.Env.activeAt env)
        "genesis_root" in
    (TaskExecutor.logTaskOnChain env agent task = Some signature
     ↔ ∃ wallet keypair transaction,
         TaskExecutor.Env.getWallet env "genesis_root" = Js.Ok (Some wallet)
         ∧ TaskExecutor.Env.getKeypair env wallet = Js.Ok keypair
         ∧ TaskExecutor.Env.buildMemoTransaction env memoData keypair = Js.Ok transaction
         ∧ TaskExecutor.Env.submitTransaction env transaction [keypair] = Js.Ok signature
         ∧ TaskExecutor.Env.countTransaction env = Js.Ok ())
    ∧ (TaskExecutor.Env.countTransaction env ≠ Js.Ok () →
       TaskExecutor.logTaskOnChain env agent task = None).
Proof.
  intros env agent task signature memoData. subst memoData.
  unfold TaskExecutor.logTaskOnChain, TaskExecutor.logTaskOnChainBody.
  destruct (TaskExecutor.Env.getWallet env "genesis_root") as [[wallet|]|] eqn:Hwallet;
    cbn [mbind mret Result_bind Result_ret Js.bind];
    [|split; [split; [congruence|intros (? & ? & ? & ? & _); congruence]|reflexivity]..].
  destruct (TaskExecutor.Env.getKeypair env wallet) as [keypair|] eqn:Hkey;
    cbn [mbind mret Result_bind Result_ret Js.bind];
    [|split; [split; [congruence|intros (? & ? & ? & Hw & Hk & _); congruence]|reflexivity]].
  match goal with
  | |- context [TaskExecutor.Env.buildMemoTransaction env ?m keypair] =>
      destruct (TaskExecutor.Env.buildMemoTransaction env m keypair)
        as [transaction|] eqn:Hbuild
  end;
    cbn [mbind mret Result_bind Result_ret Js.bind];
    [|split; [split; [congruence|intros (? & ? & ? & Hw & Hk & Hb & _); congruence]
             |reflexivity]].
  destruct (TaskExecutor.Env.submitTransaction env transaction [keypair]) as [sent|] eqn:Hsubmit;
    cbn [mbind mret Result_bind Result_ret Js.bind];
    [|split; [split; [congruence|intros (? & ? & ? & Hw & Hk & Hb & Hs & _); congruence]
             |reflexivity]].
  destruct (TaskExecutor.Env.countTransaction env) as [[]|] eqn:Hcount;
    cbn [mbind mret Result_bind Result_ret Js.bind].
  - split; [|intros Hne; contradiction Hne; reflexivity].
    split.
    + intros Heq. exists wallet, keypair, transaction. repeat split; congruence.
    + intros (? & ? & ? & Hw & Hk & Hb & Hs & _). congruence.
  - split; [|reflexivity].
    split; [congruence|intros (? & ? & ? & _ & _ & _ & _ & Hc); congruence].
Qed.

(** X10.  Bookkeeping of a task that [executeTask] returns.  The task belongs
    to the agent, has the type of its role, and the agent keeps its identity
    and role and has no current task.  A COMPLETED task carries the role
    task's text and its completion time, its identifier has been appended to
    the agent's task history and the mission progress is at most 100.  A
    FAILED task carries an error text; the history is as it was when the role
    task threw, but already holds the identifier of the failed task when the
    role task returned and the save threw. *)
Theorem executeTask_bookkeeping :
  ∀ (env : TaskExecutor.Env.t) (x : TaskExecutor.t) (agent : Agent.t)
    (task : TaskAssignment.t) (agent' : Agent.t),
    (TaskExecutor.executeTask env x agent).1 = Js.Ok (task, agent') →
    let taskId := "task_" +:+ Js.toHex (TaskExecutor.Env.taskIdBytes env) in
    let history := Metadata.taskHistory (Agent.metadata agent) in
    let history' := Metadata.taskHistory (Agent.metadata agent') in
    let outcome := (TaskExecutor.runRoleTask env agent).2 in
    TaskAssignment.id task = taskId
    ∧ TaskAssignment.agentId task = Agent.id agent
    ∧ TaskAssignment.type task = AgentRole_str (Agent.role agent) +:+ "_TASK"
    ∧ TaskAssignment.assignedAt task = TaskExecutor.Env.taskStart env
    ∧ Agent.id agent' = Agent.id agent
    ∧ Agent.role agent' = Agent.role agent
    ∧ Metadata.currentTask (Agent.metadata agent') = None
    ∧ ((TaskAssignment.status task = TaskStatus.COMPLETED
        ∧ TaskAssignment.completedAt task = Some (TaskExecutor.Env.completedAt env)
        ∧ (∃ text, outcome = Js.Ok text
                   ∧ TaskAssignment.result task = Some text
                   ∧ TaskAssignment.description task
                     = AgentRole_str (Agent.role agent) +:+ " task: " +:+ Js.substring0 80 text)
        ∧ history' = history ++ [taskId]
        ∧ (Metadata.missionProgress (Agent.metadata agent') ≤ 100)%Z
        ∧ Metadata.lastActive (Agent.metadata agent') = TaskExecutor.Env.activeAt env)
       ∨ (TaskAssignment.status task = TaskStatus.FAILED
          ∧ TaskAssignment.completedAt task = Some (TaskExecutor.Env.failedAt env)
          ∧ ((∃ error, outcome = Js.Throw error
                       ∧ TaskAssignment.result task = Some error
                       ∧ TaskAssignment.onChainTx task = None
                       ∧ history' = history)
             ∨ (∃ text error, outcome = Js.Ok text
                        ∧ TaskAssignment.result task = Some error
                        ∧ history' = history ++ [taskId])))).
Proof.
  intros env x agent task agent' Hrun taskId history history' outcome.
  subst history history' outcome.
  pose proof (TaskMoreFacts.runRoleTask_history env agent) as (Hh & Hid & Hrole).
  unfold TaskExecutor.executeTask, TaskExecutor.tryBlock in Hrun. fold taskId in Hrun.
  destruct (TaskExecutor.runRoleTask env agent) as [agent1 outcome] eqn:Hrole1.
  cbn [fst snd] in *.
  destruct outcome as [text|error].
  - cbn [TaskAssignment.id] in Hrun.
    destruct (TaskExecutor.Env.saveAgent env (TaskExecutor.markSuccess env taskId agent1))
      as [[]|error] eqn:Hsave.
    + simplify_eq. unfold TaskExecutor.markFailure, TaskExecutor.markSuccess. cbn. rewrite ?Hh, ?Hid, ?Hrole.
      repeat split; try reflexivity. left.
      split; [reflexivity|]. split; [reflexivity|].
      split; [exists text; repeat split; reflexivity|].
      split; [reflexivity|]. split; [lia|reflexivity].
    + unfold TaskExecutor.catchBlock in Hrun.
      destruct (TaskExecutor.Env.saveAgent env
                  (TaskExecutor.markFailure (TaskExecutor.markSuccess env taskId agent1)))
        as [[]|error'] eqn:Hsave'; [|discriminate].
      cbv [mret Result_ret mbind Result_bind Js.bind] in Hrun. simplify_eq. unfold TaskExecutor.markFailure, TaskExecutor.markSuccess. cbn. rewrite ?Hh, ?Hid, ?Hrole.
      repeat split; try reflexivity. right.
      split; [reflexivity|]. split; [reflexivity|].
      right. exists text, error. repeat split; reflexivity.
  - unfold TaskExecutor.catchBlock in Hrun.
    destruct (TaskExecutor.Env.saveAgent env (TaskExecutor.markFailure agent1))
      as [[]|error'] eqn:Hsave'; [|discriminate].
    cbv [mret Result_ret mbind Result_bind Js.bind] in Hrun. simplify_eq. unfold TaskExecutor.markFailure, TaskExecutor.markSuccess. cbn. rewrite ?Hh, ?Hid, ?Hrole.
    repeat split; try reflexivity. right.
    split; [reflexivity|]. split; [reflexivity|].
    left. exists error. repeat split; reflexivity.
Qed.

Lemma executeTask_bookkeeping_witness :
  ∃ task agent',
    (TaskExecutor.executeTask Samples.flakyStoreEnv (TaskExecutor.mk ∅)
       (Samples.agent "agent_1" BUILDER 2 1 0 (Some "BUILDER_TASK"))).1
    = Js.Ok (task, agent')
    ∧ TaskAssignment.status task = TaskStatus.COMPLETED
    ∧ Metadata.taskHistory (Agent.metadata agent') = ["task_2a"].
Proof.
  eexists _, _. split; [vm_compute; reflexivity|].
  pose proof (executeTask_bookkeeping Samples.flakyStoreEnv (TaskExecutor.mk ∅)
                (Samples.agent "agent_1" BUILDER 2 1 0 (Some "BUILDER_TASK")) _ _ eq_refl) as H.
  cbv zeta in H. destruct H as (_ & _ & _ & _ & _ & _ & _ & [Hdone|Hfailed]).
  - destruct Hdone as (Hstatus & _ & _ & Hhistory & _). split; [exact Hstatus|exact Hhistory].
  - destruct Hfailed as (Hstatus & _). discriminate Hstatus.
Defined.

(** ** The controller's metrics and actions *)

Module MetricsFacts.
Import GenesisActions.

Definition metricsOf (g : GenesisAgent.t) : SystemMetrics.t :=
  MemorySystem.getMetrics (GenesisAgent.memory g).

Definition successes (cycles : list Cycle.t) : Z :=
  Z.of_nat (length (filter (λ c, Cycle.success c = true) cycles)).

Definition failures (cycles : list Cycle.t) : Z :=
  Z.of_nat (length (filter (λ c, Cycle.success c = false) cycles)).

Definition totalTime (cycles : list Cycle.t) : Z :=
  foldr (λ c total, (Cycle.cycleTime c + total)%Z) 0%Z cycles.

Lemma successes_cons cycle cycles :
  successes (cycle :: cycles)
  = ((if Cycle.success cycle then 1 else 0) + successes cycles)%Z.
Proof.
  unfold successes. rewrite filter_cons.
  destruct (Cycle.success cycle); case_decide; try congruence; cbn [length]; lia.
Qed.

Lemma failures_cons cycle cycles :
  failures (cycle :: cycles)
  = ((if Cycle.success cycle then 0 else 1) + failures cycles)%Z.
Proof.
  unfold failures. rewrite filter_cons.
  destruct (Cycle.success cycle); case_decide; try congruence; cbn [length]; lia.
Qed.

Lemma updateMetrics_step startTime g cycle :
  (0 <= SystemMetrics.totalDecisions (metricsOf g))%Z →
  let before := metricsOf g in
  let after := metricsOf (updateMetrics startTime g cycle) in
  SystemMetrics.totalDecisions after = (SystemMetrics.totalDecisions before + 1)%Z
  ∧ SystemMetrics.successfulActions after
    = (SystemMetrics.successfulActions before + successes [cycle])%Z
  ∧ SystemMetrics.failedActions after
    = (SystemMetrics.failedActions before + failures [cycle])%Z
  ∧ SystemMetrics.averageCycleTime after * inject_Z (SystemMetrics.totalDecisions after)
    == SystemMetrics.averageCycleTime before * inject_Z (SystemMetrics.totalDecisions before)
       + inject_Z (Cycle.cycleTime cycle)
  ∧ SystemMetrics.evolutionScore after = SystemMetrics.evolutionScore before
  ∧ SystemMetrics.totalTransactions after = SystemMetrics.totalTransactions before.
Proof.
  intros Hpos. unfold metricsOf, updateMetrics, MemorySystem.getMetrics in *. cbn.
  split; [reflexivity|].
  split; [rewrite successes_cons; change (successes []) with 0%Z; lia|].
  split; [rewrite failures_cons; change (failures []) with 0%Z; lia|].
  split; [|split; reflexivity].
  set (total := SystemMetrics.totalDecisions (MemorySystem.metrics (GenesisAgent.memory g))) in *.
  assert (Hne : ¬ inject_Z (total + 1) == 0).
  { change 0 with (inject_Z 0). rewrite inject_Z_injective. lia. }
  field. exact Hne.
Qed.

End MetricsFacts.

(** X11.  The metric updates of a run of cycles keep a running mean: from a
    store whose decision count is not negative, the count grows by the number
    of cycles, the successful and the failed actions grow by the numbers of
    successful and of failed cycles, and the average cycle time multiplied by
    the count grows by the sum of the cycle times.  The evolution score and
    the transaction count are left as they were. *)
Theorem updateMetrics_keeps_a_running_mean :
  ∀ (startTime : Z) (cycles : list GenesisActions.Cycle.t) (g : GenesisAgent.t),
    (0 <= SystemMetrics.totalDecisions (MetricsFacts.metricsOf g))%Z →
    let before := MetricsFacts.metricsOf g in
    let after := MetricsFacts.metricsOf (GenesisActions.updateMetricsAll startTime g cycles) in
    SystemMetrics.totalDecisions after
    = (SystemMetrics.totalDecisions before + Z.of_nat (length cycles))%Z
    ∧ SystemMetrics.successfulActions after
      = (SystemMetrics.successfulActions before + MetricsFacts.successes cycles)%Z
    ∧ SystemMetrics.failedActions after
      = (SystemMetrics.failedActions before + MetricsFacts.failures cycles)%Z
    ∧ SystemMetrics.averageCycleTime after * inject_Z (SystemMetrics.totalDecisions after)
      == SystemMetrics.averageCycleTime before * inject_Z (SystemMetrics.totalDecisions before)
         + inject_Z (MetricsFacts.totalTime cycles)
    ∧ SystemMetrics.evolutionScore after = SystemMetrics.evolutionScore before
    ∧ SystemMetrics.totalTransactions after = SystemMetrics.totalTransactions before.
Proof.
  intros startTime cycles. induction cycles as [|cycle cycles IH]; intros g Hpos before after.
  - subst before after. cbn. unfold MetricsFacts.successes, MetricsFacts.failures. cbn.
    repeat split; try lia. change (inject_Z 0) with 0. ring.
  - subst before after.
    change (GenesisActions.updateMetricsAll startTime g (cycle :: cycles))
      with (GenesisActions.updateMetricsAll startTime
              (GenesisActions.updateMetrics startTime g cycle) cycles).
    pose proof (MetricsFacts.updateMetrics_step startTime g cycle Hpos)
      as (Ht & Hs & Hf & Ha & He & Hx).
    cbv zeta in Ht, Hs, Hf, Ha, He, Hx.
    assert (Hpos' : (0 <= SystemMetrics.totalDecisions
                           (MetricsFacts.metricsOf
                              (GenesisActions.updateMetrics startTime g cycle)))%Z)
      by (rewrite Ht; lia).
    specialize (IH _ Hpos') as (Ht' & Hs' & Hf' & Ha' & He' & Hx').
    cbv zeta in Ht', Hs', Hf', Ha', He', Hx'.
    split; [rewrite Ht', Ht; cbn [length]; lia|].
    split; [rewrite Hs', Hs, !MetricsFacts.successes_cons;
            change (MetricsFacts.successes []) with 0%Z; lia|].
    split; [rewrite Hf', Hf, !MetricsFacts.failures_cons;
            change (MetricsFacts.failures []) with 0%Z; lia|].
    split; [|split; [rewrite He', He|rewrite Hx', Hx]; reflexivity].
    rewrite Ha', Ha.
    cbn [MetricsFacts.totalTime foldr]. fold (MetricsFacts.totalTime cycles).
    rewrite inject_Z_plus. ring.
Qed.

Lemma updateMetrics_keeps_a_running_mean_witness :
  let after :=
    MetricsFacts.metricsOf
      (GenesisActions.updateMetricsAll 0 (Samples.controller 0.5)
         [GenesisActions.Cycle.mk 100 true 1000 1000;
          GenesisActions.Cycle.mk 300 false 2000 2000;
          GenesisActions.Cycle.mk 200 true 3000 3000]) in
  SystemMetrics.totalDecisions after = 3%Z
  ∧ SystemMetrics.successfulActions after = 2%Z
  ∧ SystemMetrics.failedActions after = 1%Z
  ∧ SystemMetrics.averageCycleTime after * 3 == 600.
Proof.
  pose proof (updateMetrics_keeps_a_running_mean 0
                [GenesisActions.Cycle.mk 100 true 1000 1000;
                 GenesisActions.Cycle.mk 300 false 2000 2000;
                 GenesisActions.Cycle.mk 200 true 3000 3000]
                (Samples.controller 0.5) ltac:(cbn; lia)) as (Ht & Hs & Hf & Ha & _).
  cbv zeta in *.
  split; [rewrite Ht; reflexivity|].
  split; [rewrite Hs; reflexivity|].
  split; [rewrite Hf; reflexivity|].
  rewrite Ht in Ha. rewrite Ha. reflexivity.
Defined.

Module StrategyFacts.
Import GenesisActions.

Ltac weights_after :=
  repeat first
    [ rewrite WeightFacts.updateWeights_same
    | rewrite WeightFacts.updateWeights_other by discriminate ].

Lemma actEvolveStrategy_engine chain now updateTime g :
  GenesisAgent.decisionEngine (actEvolveStrategy chain now updateTime g).2
  = (adjustStrategy g).1.
Proof.
  unfold actEvolveStrategy. destruct (adjustStrategy g) as [engine adjustments].
  reflexivity.
Qed.

Lemma actEvolveStrategy_outcome chain now updateTime g :
  (actEvolveStrategy chain now updateTime g).1.1
  = "Strategy evolution: " +:+ pretty (length (adjustStrategy g).2)
      +:+ " adjustments, success rate "
      +:+ Js.toFixed 1 (overallSuccessRate (MemorySystem.getMetrics (GenesisAgent.memory g)) * 100)
      +:+ "%".
Proof.
  unfold actEvolveStrategy. destruct (adjustStrategy g) as [engine adjustments].
  reflexivity.
Qed.

End StrategyFacts.




Module DelegateFacts.
Import GenesisActions.

Definition lastActive (a : Agent.t) : Z := Metadata.lastActive (Agent.metadata a).

(** An agent at index [i] of a list that is the least recently active one,
    and the first of those that are. *)
Definition firstLeastActive (l : list Agent.t) (i : nat) (selected : Agent.t) : Prop :=
  l !! i = Some selected
  ∧ ∀ j other, l !! j = Some other →
      (lastActive selected <= lastActive other)%Z
      ∧ (lastActive other = lastActive selected → (i ≤ j)%nat).

Lemma insert_permutation a sorted : insertByLastActive a sorted ≡ₚ a :: sorted.
Proof.
  induction sorted as [|b rest IH]; cbn; [reflexivity|].
  destruct (_ <=? _)%Z; [reflexivity|].
  rewrite IH. apply Permutation_swap.
Qed.

Lemma sort_permutation l : sortByLastActive l ≡ₚ l.
Proof.
  induction l as [|a l IH]; cbn; [reflexivity|].
  rewrite insert_permutation. f_equiv. exact IH.
Qed.

Lemma sort_head a l :
  ∃ selected rest i,
    sortByLastActive (a :: l) = selected :: rest ∧ firstLeastActive (a :: l) i selected.
Proof.
  revert a. induction l as [|a' l IH]; intros a.
  - exists a, [], 0%nat. split; [reflexivity|]. split; [reflexivity|].
    intros [|j] other Hj; cbn in Hj; [|discriminate]. simplify_eq. split; [lia|lia].
  - destruct (IH a') as (selected & rest & i & Hsort & Hi & Hmin).
    change (sortByLastActive (a :: a' :: l))
      with (insertByLastActive a (sortByLastActive (a' :: l))).
    rewrite Hsort. cbn [insertByLastActive]. fold (lastActive a) (lastActive selected).
    destruct (lastActive a <=? lastActive selected)%Z eqn:Hle.
    + apply Z.leb_le in Hle.
      exists a, (selected :: rest), 0%nat. split; [reflexivity|]. split; [reflexivity|].
      intros [|j] other Hj; cbn in Hj.
      * simplify_eq. split; lia.
      * destruct (Hmin j other Hj) as [Hge _]. split; lia.
    + apply Z.leb_gt in Hle.
      exists selected, (insertByLastActive a rest), (S i). split; [reflexivity|].
      split; [exact Hi|].
      intros [|j] other Hj; cbn in Hj.
      * simplify_eq. split; lia.
      * destruct (Hmin j other Hj) as [Hge Htie]. split; [exact Hge|].
        intros Heq. specialize (Htie Heq). lia.
Qed.

Lemma isIdleChild_spec a :
  isIdleChild a = true
  ↔ Agent.id a ≠ "genesis_root"
    ∧ (Agent.status a = AgentStatus.ACTIVE ∨ Agent.status a = AgentStatus.CREATED)
    ∧ DecisionEngine.isIdle a = true.
Proof.
  unfold isIdleChild, DecisionEngine.isChild, GenesisAgent.isActive.
  rewrite !andb_true_iff, orb_true_iff, !bool_decide_eq_true. tauto.
Qed.

Lemma executeTask_task_owner env x agent task agent' :
  (TaskExecutor.executeTask env x agent).1 = Js.Ok (task, agent') →
  TaskAssignment.agentId task = Agent.id agent.
Proof.
  intros Hrun.
  unfold TaskExecutor.executeTask, TaskExecutor.tryBlock in Hrun.
  destruct (TaskExecutor.runRoleTask env agent) as [agent1 [text|error]].
  - cbn [fst TaskAssignment.id] in Hrun.
    match type of Hrun with
    | context [TaskExecutor.Env.saveAgent env ?a] =>
        destruct (TaskExecutor.Env.saveAgent env a) as [[]|error]
    end.
    + simplify_eq. reflexivity.
    + unfold TaskExecutor.catchBlock in Hrun.
      match type of Hrun with
      | context [TaskExecutor.Env.saveAgent env ?a] =>
          destruct (TaskExecutor.Env.saveAgent env a) as [[]|error']
      end; [|discriminate].
      cbv [mret Result_ret mbind Result_bind Js.bind] in Hrun. simplify_eq. reflexivity.
  - cbn [fst] in Hrun. unfold TaskExecutor.catchBlock in Hrun.
    match type of Hrun with
    | context [TaskExecutor.Env.saveAgent env ?a] =>
        destruct (TaskExecutor.Env.saveAgent env a) as [[]|error']
    end; [|discriminate].
    cbv [mret Result_ret mbind Result_bind Js.bind] in Hrun. simplify_eq. reflexivity.
Qed.

End DelegateFacts.

(** X14.  Task delegation picks the least recently active idle child.  With
    no idle child among the agents of the store the action reports so and
    leaves the executor alone.  Otherwise the agent that is marked busy and
    executed is one of the store's agents, is not the genesis agent, is
    active or created and has no current task; no idle child was active
    longer ago, and among the idle children that were last active at the same
    time it is the first in the order of the store.  When saving the busy
    mark throws, the action throws without running a task. *)
Theorem actDelegateTask_picks_the_least_recently_active :
  ∀ (env : TaskExecutor.Env.t) (x : TaskExecutor.t) (agents : list Agent.t),
    let childAgents := filter (λ a, GenesisActions.isIdleChild a = true) agents in
    match childAgents with
    | [] =>
        GenesisActions.actDelegateTask env x agents
        = (Js.Ok ("No idle child agents available for task delegation", None), x)
    | _ :: _ =>
        ∃ selected i,
          DelegateFacts.firstLeastActive childAgents i selected
          ∧ selected ∈ agents
          ∧ Agent.id selected ≠ "genesis_root"
          ∧ (Agent.status selected = AgentStatus.ACTIVE
             ∨ Agent.status selected = AgentStatus.CREATED)
          ∧ DecisionEngine.isIdle selected = true
          ∧ GenesisActions.actDelegateTask env x agents
            = GenesisActions.delegateTo env x selected
          ∧ Metadata.currentTask (Agent.metadata (GenesisActions.markBusy selected))
            = Some (AgentRole_str (Agent.role selected) +:+ "_TASK")
          ∧ (∀ error,
               TaskExecutor.Env.saveAgent env (GenesisActions.markBusy selected)
               = Js.Throw error →
               GenesisActions.actDelegateTask env x agents = (Js.Throw error, x))
          ∧ (∀ task agent' x',
               TaskExecutor.Env.saveAgent env (GenesisActions.markBusy selected) = Js.Ok () →
               TaskExecutor.executeTask env x (GenesisActions.markBusy selected)
               = (Js.Ok (task, agent'), x') →
               ∃ outcome,
                 GenesisActions.actDelegateTask env x agents
                 = (Js.Ok (outcome, TaskAssignment.onChainTx task), x')
                 ∧ TaskAssignment.agentId task = Agent.id selected)
    end.
Proof.
  intros env x agents childAgents.
  unfold GenesisActions.actDelegateTask. fold childAgents.
  destruct childAgents as [|first rest] eqn:Hchildren; [reflexivity|].
  destruct (DelegateFacts.sort_head first rest) as (selected & sorted & i & Hsort & Hi & Hmin).
  cbn [length Nat.eqb]. rewrite Hsort.
  assert (Hin : selected ∈ childAgents).
  { rewrite Hchildren. eapply list_elem_of_lookup_2, Hi. }
  apply list_elem_of_filter in Hin as [Hidle Hin].
  apply DelegateFacts.isIdleChild_spec in Hidle as (Hid & Hstatus & Hfree).
  exists selected, i.
  split; [split; assumption|]. split; [exact Hin|]. split; [exact Hid|].
  split; [exact Hstatus|]. split; [exact Hfree|]. split; [reflexivity|].
  split; [reflexivity|]. split.
  - intros error Hsave. unfold GenesisActions.delegateTo. rewrite Hsave. reflexivity.
  - intros task agent' x' Hsave Hrun. unfold GenesisActions.delegateTo.
    rewrite Hsave, Hrun. eexists. split; [reflexivity|].
    change (Agent.id selected) with (Agent.id (GenesisActions.markBusy selected)).
    apply (DelegateFacts.executeTask_task_owner env x (GenesisActions.markBusy selected) task agent').
    rewrite Hrun. reflexivity.
Qed.

(** Two idle explorers, a busy builder and the genesis agent: the explorer
    that was active longest ago runs the task. *)
Example delegation_prefers_the_oldest :
  (GenesisActions.actDelegateTask Samples.flakyStoreEnv (TaskExecutor.mk ∅)
     [Samples.agent "genesis_root" COORDINATOR 0 1 5 None;
      Samples.agent "agent_a" EXPLORER 0 1 70 None;
      Samples.agent "agent_b" BUILDER 0 1 10 (Some "BUILDER_TASK");
      Samples.agent "agent_c" EXPLORER 0 1 40 None;
      Samples.agent "agent_d" ANALYST 0 1 40 None]).1
  = Js.Ok ("Delegated task to EXPLORER agent agent_c: COMPLETED — report", Some "signature_1").
Proof. vm_compute. reflexivity. Qed.

(** ** Coordination and performance analysis *)

Module CoordinationFacts.
Import Coordinator.

Lemma withStatus_partition reports :
  (length (withStatus HEALTHY reports) + length (withStatus DEGRADED reports)
   + length (withStatus CRITICAL reports) = length reports)%nat.
Proof.
  unfold withStatus. induction reports as [|r reports IH]; [reflexivity|].
  rewrite !filter_cons. destruct (AgentReport.healthStatus r);
    repeat case_decide; try congruence; cbn [length]; lia.
Qed.

(** What a take-over message says, read against the agents and the reports
    of the call: it is a COORDINATION message from the genesis agent on
    behalf of an agent with a critical report, and it goes to another agent
    of the same role, the first report for whose identifier is HEALTHY. *)
Definition takeOverOf (agents : list Agent.t) (reports : list AgentReport.t)
    (message : AgentMessage.t) : Prop :=
  AgentMessage.type message = AgentMessage.COORDINATION
  ∧ AgentMessage.fromAgent message = "genesis_root"
  ∧ ∃ agent backup critical,
      agent ∈ agents ∧ backup ∈ agents
      ∧ critical ∈ reports
      ∧ AgentReport.healthStatus critical = CRITICAL
      ∧ AgentReport.agentId critical = Agent.id agent
      ∧ AgentMessage.payload message
        = AgentMessage.TakeOver (Agent.id agent) "Critical agent health"
      ∧ AgentMessage.toAgent message = Agent.id backup
      ∧ Agent.role backup = Agent.role agent
      ∧ Agent.id backup ≠ Agent.id agent
      ∧ reportedHealthy reports backup = true.

Lemma find_some_elem {A} (f : A → bool) (l : list A) (x : A) :
  find f l = Some x → x ∈ l ∧ f x = true.
Proof.
  intros Hfind. apply find_some in Hfind as [Hin Hf]. split; [|exact Hf].
  apply list_elem_of_In. exact Hin.
Qed.

Lemma redistribute_loop {memo} (env : Env.t memo) agents reports criticals :
  ∀ requests n,
    Forall (λ r, r ∈ reports ∧ AgentReport.healthStatus r = CRITICAL) criticals →
    ∃ takeovers,
      foldl (redistribute env agents reports) (requests, n) criticals
      = (requests ++ takeovers, (n + length takeovers)%nat)
      ∧ (length takeovers ≤ length criticals)%nat
      ∧ Forall (takeOverOf agents reports) takeovers.
Proof.
  induction criticals as [|critical criticals IH]; intros requests n Hcrit.
  - exists []. cbn. rewrite app_nil_r, Nat.add_0_r. repeat split; [lia|constructor].
  - apply Forall_cons in Hcrit as [[Hin Hstatus] Hcrit].
    cbn [foldl]. unfold redistribute at 2.
    destruct (find (λ a, bool_decide (Agent.id a = AgentReport.agentId critical)) agents)
      as [agent|] eqn:Hagent.
    + apply find_some_elem in Hagent as [Hagent Hid]. apply bool_decide_eq_true in Hid.
      destruct (findBackup agents reports agent) as [backup|] eqn:Hbackup.
      * unfold findBackup in Hbackup.
        apply find_some_elem in Hbackup as [Hbackup Hok].
        rewrite !andb_true_iff, !bool_decide_eq_true in Hok.
        destruct Hok as [[Hrole Hne] Hhealthy].
        destruct (IH (requests ++ [createMessage env n "genesis_root" (Agent.id backup)
                                     AgentMessage.COORDINATION
                                     (AgentMessage.TakeOver (Agent.id agent)
                                        "Critical agent health")])
                     (S n) Hcrit) as (takeovers & Hloop & Hlen & Hall).
        eexists (_ :: takeovers). rewrite Hloop. split; [|split].
        -- rewrite <- app_assoc. cbn [app length]. f_equal. lia.
        -- cbn [length]. lia.
        -- constructor; [|exact Hall].
           split; [reflexivity|]. split; [reflexivity|].
           exists agent, backup, critical. repeat split; try assumption. congruence.
      * destruct (IH requests n Hcrit) as (takeovers & Hloop & Hlen & Hall).
        exists takeovers. rewrite Hloop. repeat split; [cbn [length]; lia|exact Hall].
    + destruct (IH requests n Hcrit) as (takeovers & Hloop & Hlen & Hall).
      exists takeovers. rewrite Hloop. repeat split; [cbn [length]; lia|exact Hall].
Qed.

Lemma withStatus_Forall status reports :
  Forall (λ r, r ∈ reports ∧ AgentReport.healthStatus r = status) (withStatus status reports).
Proof.
  apply Forall_forall. intros r Hin. unfold withStatus in Hin.
  apply list_elem_of_filter in Hin as [Hstatus Hin]. split; assumption.
Qed.

(** [coordinateAgents] unfolded into its status round and its take-overs. *)
Lemma coordinateAgents_shape env c state :
  let agents := filter (λ a, Agent.id a ≠ "genesis_root") (SystemState.activeAgents state) in
  let reports := (statusRound env agents).1 in
  ∃ takeovers,
    (length takeovers ≤ length (withStatus CRITICAL reports))%nat
    ∧ Forall (takeOverOf agents reports) takeovers
    ∧ Coordination.reports (coordinateAgents env c state).1 = reports
    ∧ Coordination.messagesExchanged (coordinateAgents env c state).1
      = (length agents + length takeovers)%nat
    ∧ Coordination.txSignature (coordinateAgents env c state).1
      = logCoordinationOnChain env (length agents) reports
    ∧ messageLog (coordinateAgents env c state).2
      = messageLog c ++ (statusRound env agents).2 ++ takeovers.
Proof.
  intros agents reports. unfold coordinateAgents. fold agents.
  subst reports. destruct (statusRound env agents) as [reports requests] eqn:Hround.
  cbn [fst snd].
  destruct (redistribute_loop env agents reports (withStatus CRITICAL reports)
              requests (length agents) (withStatus_Forall CRITICAL reports))
    as (takeovers & Hloop & Hlen & Hall).
  exists takeovers. rewrite Hloop. cbn [fst snd Coordination.reports
    Coordination.messagesExchanged Coordination.txSignature messageLog].
  repeat split; assumption || reflexivity.
Qed.

End CoordinationFacts.

(** X15.  The counts of a coordination round.  There is one report per
    active child agent, built from that agent at the time of its turn; the
    healthy, degraded and critical reports add up to the number of agents;
    every agent is sent one status request, and at most one further message
    is exchanged per critical report, all of them appended to the
    coordinator's message log, which keeps what it held. *)
Theorem coordinateAgents_counts_reports_and_messages :
  ∀ (env : Coordinator.Env.t Coordinator.CoordinationMemo.t) (c : Coordinator.t)
    (state : SystemState.t),
    let agents := filter (λ a, Agent.id a ≠ "genesis_root") (SystemState.activeAgents state) in
    let result := (Coordinator.coordinateAgents env c state).1 in
    let reports := Coordinator.Coordination.reports result in
    let critical := length (Coordinator.withStatus CRITICAL reports) in
    length reports = length agents
    ∧ (∀ i agent, agents !! i = Some agent →
         reports !! i
         = Some (AgentCoordinator.generateAgentReport (Coordinator.Env.reportTime env i) agent))
    ∧ (length (Coordinator.withStatus HEALTHY reports)
       + length (Coordinator.withStatus DEGRADED reports) + critical = length agents)%nat
    ∧ (length agents ≤ Coordinator.Coordination.messagesExchanged result)%nat
    ∧ (Coordinator.Coordination.messagesExchanged result ≤ length agents + critical)%nat
    ∧ ∃ pushed,
        Coordinator.messageLog (Coordinator.coordinateAgents env c state).2
        = Coordinator.messageLog c ++ pushed
        ∧ length pushed = Coordinator.Coordination.messagesExchanged result
        ∧ ∀ i agent, agents !! i = Some agent →
            ∃ request, pushed !! i = Some request
              ∧ AgentMessage.type request = AgentMessage.STATUS_REQUEST
              ∧ AgentMessage.toAgent request = Agent.id agent.
Proof.
  intros env c state agents result reports critical.
  destruct (CoordinationFacts.coordinateAgents_shape env c state)
    as (takeovers & Hlen & _ & Hreports & Hcount & _ & Hlog).
  fold agents in Hlen, Hreports, Hcount, Hlog. fold result in Hreports, Hcount.
  subst critical reports. rewrite Hreports, Hcount, Hlog.
  unfold Coordinator.statusRound in *. cbn [fst snd] in *.
  split; [apply length_imap|].
  split; [intros i agent Hi; rewrite list_lookup_imap, Hi; reflexivity|].
  split; [rewrite CoordinationFacts.withStatus_partition; apply length_imap|].
  split; [lia|]. split; [lia|].
  eexists. split; [reflexivity|]. split; [rewrite length_app, length_imap; reflexivity|].
  intros i agent Hi. eexists. split.
  - rewrite lookup_app_l by (rewrite length_imap; eapply lookup_lt_Some, Hi).
    rewrite list_lookup_imap, Hi. reflexivity.
  - split; reflexivity.
Qed.

(** X16.  Every message that a coordination round exchanges beyond the status
    requests is a take-over request of the genesis agent on behalf of an
    agent whose report is critical, sent to a different agent of the same
    role for whose identifier the first report is HEALTHY.  A round without
    critical reports exchanges the status requests only. *)
Theorem takeover_requests_go_to_healthy_peers :
  ∀ (env : Coordinator.Env.t Coordinator.CoordinationMemo.t) (c : Coordinator.t)
    (state : SystemState.t),
    let agents := filter (λ a, Agent.id a ≠ "genesis_root") (SystemState.activeAgents state) in
    let result := (Coordinator.coordinateAgents env c state).1 in
    let reports := Coordinator.Coordination.reports result in
    ∃ takeovers,
      Coordinator.messageLog (Coordinator.coordinateAgents env c state).2
      = Coordinator.messageLog c ++ (Coordinator.statusRound env agents).2 ++ takeovers
      ∧ Forall (CoordinationFacts.takeOverOf agents reports) takeovers
      ∧ (Coordinator.withStatus CRITICAL reports = [] → takeovers = [])
      ∧ ((∀ agent, agent ∈ agents → Coordinator.reportedHealthy reports agent = false) →
         takeovers = []).
Proof.
  intros env c state agents result reports.
  destruct (CoordinationFacts.coordinateAgents_shape env c state)
    as (takeovers & Hlen & Hall & Hreports & _ & _ & Hlog).
  fold agents in Hlen, Hall, Hreports, Hlog. fold result in Hreports.
  subst reports. rewrite Hreports. exists takeovers.
  split; [exact Hlog|]. split; [exact Hall|]. split.
  - intros Hnone. rewrite Hnone in Hlen. destruct takeovers; [reflexivity|cbn in Hlen; lia].
  - intros Hunhealthy. destruct takeovers as [|message takeovers]; [reflexivity|].
    apply Forall_cons in Hall as [(_ & _ & agent & backup & critical & _ & Hbackup & Hrest) _].
    destruct Hrest as (_ & _ & _ & _ & _ & _ & _ & Hhealthy).
    rewrite (Hunhealthy backup Hbackup) in Hhealthy. discriminate.
Qed.

Module AnalysisFacts.
Import Coordinator.

(** The recommendations for missing roles. *)
Definition missingRoles (agents : list Agent.t) : list string :=
  flat_map (λ entry : AgentRole * nat,
              if (entry.2 =? 0)%nat then [missingRole entry.1] else [])
           (AgentFactory.countsOf (AgentFactory.roleCount agents)).

Definition lowSuccess : string := "System success rate below 50% — consider EVOLVE_STRATEGY".
Definition understaffed : string := "Ecosystem understaffed — prioritize CREATE_AGENT".
Definition large : string := "Large ecosystem — focus on COORDINATE_AGENTS".
Definition lowScore : string := "Low evolution score — the system needs more successful actions".

Lemma recommend_eq metrics agents :
  recommend metrics agents
  = missingRoles agents
    ++ (if AgentCoordinator.lt (GenesisActions.overallSuccessRate metrics) 0.5
        then [lowSuccess] else [])
    ++ (if (length agents <? 3)%nat then [understaffed]
        else if (8 <? length agents)%nat then [large] else [])
    ++ (if AgentCoordinator.lt (SystemMetrics.evolutionScore metrics) 0.3
        then [lowScore] else []).
Proof.
  unfold recommend, missingRoles. rewrite RoleFacts.countRoles_spec.
  destruct (AgentCoordinator.lt (GenesisActions.overallSuccessRate metrics) 0.5);
    destruct (length agents <? 3)%nat; destruct (8 <? length agents)%nat;
    destruct (AgentCoordinator.lt (SystemMetrics.evolutionScore metrics) 0.3);
    cbn [app]; rewrite <- ?app_assoc, ?app_nil_r; reflexivity.
Qed.

Lemma missingRole_inj r1 r2 : missingRole r1 = missingRole r2 → r1 = r2.
Proof. destruct r1, r2; intros Heq; first [reflexivity|discriminate Heq]. Qed.

Lemma elem_of_missingRoles agents text :
  text ∈ missingRoles agents
  ↔ ∃ role, text = missingRole role ∧ AgentFactory.roleCount agents role = 0%nat.
Proof.
  unfold missingRoles. rewrite list_elem_of_In, in_flat_map. split.
  - intros ([role count] & Hin & Htext). apply list_elem_of_In in Hin.
    apply RoleFacts.elem_of_countsOf in Hin. cbn [fst snd] in *. subst count.
    destruct (Nat.eqb_spec (AgentFactory.roleCount agents role) 0) as [Hzero|_];
      [|destruct Htext].
    destruct Htext as [<-|[]]. exists role. split; [reflexivity|exact Hzero].
  - intros (role & -> & Hzero). exists (role, 0%nat). split.
    + apply list_elem_of_In, RoleFacts.elem_of_countsOf. symmetry. exact Hzero.
    + left. reflexivity.
Qed.

Lemma fixed_text_not_missingRole text :
  text ∈ [lowSuccess; understaffed; large; lowScore] → ¬ text ∈ missingRoles [] ∧
  ∀ role, text ≠ missingRole role.
Proof.
  rewrite !elem_of_cons, elem_of_nil. intros Htext.
  assert (Hne : ∀ role, text ≠ missingRole role).
  { intros role. destruct role;
      destruct Htext as [->|[->|[->|[->|[]]]]]; discriminate. }
  split; [|exact Hne].
  intros Hin. apply elem_of_missingRoles in Hin as (role & Heq & _). exact (Hne role Heq).
Qed.

Lemma roleCount_total agents :
  (AgentFactory.roleCount agents EXPLORER + AgentFactory.roleCount agents BUILDER
   + AgentFactory.roleCount agents ANALYST + AgentFactory.roleCount agents COORDINATOR
   + AgentFactory.roleCount agents GUARDIAN = length agents)%nat.
Proof.
  induction agents as [|a agents IH]; [reflexivity|].
  rewrite !RoleFacts.roleCount_cons. cbn [length].
  destruct (Agent.role a); repeat case_decide; try congruence; lia.
Qed.

Lemma length_missingRoles agents :
  (length (missingRoles agents) ≤ 5
   ∧ 5 ≤ length (missingRoles agents) + length agents
   ∧ (0 < length agents → length (missingRoles agents) ≤ 4))%nat.
Proof.
  pose proof (roleCount_total agents) as Htotal.
  unfold missingRoles, AgentFactory.countsOf, AgentRole_values. cbn [map flat_map fst snd].
  destruct (Nat.eqb_spec (AgentFactory.roleCount agents EXPLORER) 0);
    destruct (Nat.eqb_spec (AgentFactory.roleCount agents BUILDER) 0);
    destruct (Nat.eqb_spec (AgentFactory.roleCount agents ANALYST) 0);
    destruct (Nat.eqb_spec (AgentFactory.roleCount agents COORDINATOR) 0);
    destruct (Nat.eqb_spec (AgentFactory.roleCount agents GUARDIAN) 0);
    cbn [app length]; lia.
Qed.

Lemma elem_of_recommend metrics agents text :
  text ∈ recommend metrics agents
  ↔ text ∈ missingRoles agents
    ∨ (text = lowSuccess ∧ GenesisActions.overallSuccessRate metrics < 0.5)
    ∨ (text = understaffed ∧ (length agents < 3)%nat)
    ∨ (text = large ∧ (8 < length agents)%nat)
    ∨ (text = lowScore ∧ SystemMetrics.evolutionScore metrics < 0.3).
Proof.
  rewrite recommend_eq, !elem_of_app.
  pose proof (coordinator_lt_spec (GenesisActions.overallSuccessRate metrics) 0.5) as Hsuccess.
  pose proof (coordinator_lt_spec (SystemMetrics.evolutionScore metrics) 0.3) as Hscore.
  destruct (AgentCoordinator.lt (GenesisActions.overallSuccessRate metrics) 0.5);
    destruct (AgentCoordinator.lt (SystemMetrics.evolutionScore metrics) 0.3);
    destruct (Nat.ltb_spec (length agents) 3);
    destruct (Nat.ltb_spec 8 (length agents));
    rewrite ?elem_of_cons, ?elem_of_nil;
    assert (Htrue : true = true) by reflexivity;
    intuition (try discriminate; try lia).
Qed.

Lemma length_recommend metrics agents :
  length (recommend metrics agents)
  = (length (missingRoles agents)
     + (if AgentCoordinator.lt (GenesisActions.overallSuccessRate metrics) 0.5 then 1 else 0)
     + (if (length agents <? 3)%nat then 1 else if (8 <? length agents)%nat then 1 else 0)
     + (if AgentCoordinator.lt (SystemMetrics.evolutionScore metrics) 0.3 then 1 else 0))%nat.
Proof.
  rewrite recommend_eq, !length_app.
  destruct (AgentCoordinator.lt (GenesisActions.overallSuccessRate metrics) 0.5);
    destruct (AgentCoordinator.lt (SystemMetrics.evolutionScore metrics) 0.3);
    destruct (length agents <? 3)%nat; destruct (8 <? length agents)%nat;
    cbn [length]; lia.
Qed.

Lemma fixed_texts_distinct :
  lowSuccess ≠ understaffed ∧ lowSuccess ≠ large ∧ lowSuccess ≠ lowScore
  ∧ understaffed ≠ large ∧ understaffed ≠ lowScore ∧ large ≠ lowScore.
Proof. repeat split; discriminate. Qed.

Lemma fixed_text_not_missing agents text :
  text ∈ [lowSuccess; understaffed; large; lowScore] → ¬ text ∈ missingRoles agents.
Proof.
  intros Htext Hin. apply elem_of_missingRoles in Hin as (role & Heq & _).
  apply fixed_text_not_missingRole in Htext as [_ Hne]. exact (Hne role Heq).
Qed.

End AnalysisFacts.

(** X17.  The recommendations of a performance analysis.  A role is
    recommended for creation exactly when no active agent has it; the
    success-rate, staffing and evolution-score recommendations appear exactly
    under their conditions, and the staffing ones exclude each other.  There
    are at most eight recommendations; fewer than three active agents give at
    least four, because at least three roles are then missing; and more than
    eight agents never give the full list. *)
Theorem analyzePerformance_recommendations :
  ∀ (env : Coordinator.Env.t Coordinator.AnalysisMemo.t) (metrics : SystemMetrics.t)
    (state : SystemState.t),
    let agents := SystemState.activeAgents state in
    let recommendations :=
      Coordinator.Analysis.recommendations (Coordinator.analyzePerformance env metrics state) in
    (∀ role, Coordinator.missingRole role ∈ recommendations
             ↔ AgentFactory.roleCount agents role = 0%nat)
    ∧ ("System success rate below 50% — consider EVOLVE_STRATEGY" ∈ recommendations
       ↔ GenesisActions.overallSuccessRate metrics < 0.5)
    ∧ ("Ecosystem understaffed — prioritize CREATE_AGENT" ∈ recommendations
       ↔ (length agents < 3)%nat)
    ∧ ("Large ecosystem — focus on COORDINATE_AGENTS" ∈ recommendations
       ↔ (8 < length agents)%nat)
    ∧ ("Low evolution score — the system needs more successful actions" ∈ recommendations
       ↔ SystemMetrics.evolutionScore metrics < 0.3)
    ∧ (length recommendations ≤ 8)%nat
    ∧ ((length agents < 3)%nat → (4 ≤ length recommendations)%nat)
    ∧ ((8 < length agents)%nat → (length recommendations ≤ 7)%nat).
Proof.
  intros env metrics state agents recommendations.
  subst recommendations. unfold Coordinator.analyzePerformance.
  cbn [Coordinator.Analysis.recommendations]. fold agents.
  pose proof (AnalysisFacts.length_missingRoles agents) as (Hmax & Hmin & Hsome).
  pose proof AnalysisFacts.fixed_texts_distinct as (D1 & D2 & D3 & D4 & D5 & D6).
  pose proof (AnalysisFacts.fixed_text_not_missing agents) as Hfixed.
  pose proof (Hfixed AnalysisFacts.lowSuccess ltac:(rewrite !elem_of_cons; tauto)) as H1.
  pose proof (Hfixed AnalysisFacts.understaffed ltac:(rewrite !elem_of_cons; tauto)) as H2.
  pose proof (Hfixed AnalysisFacts.large ltac:(rewrite !elem_of_cons; tauto)) as H3.
  pose proof (Hfixed AnalysisFacts.lowScore ltac:(rewrite !elem_of_cons; tauto)) as H4.
  fold AnalysisFacts.lowSuccess AnalysisFacts.understaffed AnalysisFacts.large
    AnalysisFacts.lowScore.
  split.
  { intros role. rewrite AnalysisFacts.elem_of_recommend, AnalysisFacts.elem_of_missingRoles.
    pose proof (AnalysisFacts.fixed_text_not_missingRole AnalysisFacts.lowSuccess
                  ltac:(rewrite !elem_of_cons; tauto)) as [_ N1].
    pose proof (AnalysisFacts.fixed_text_not_missingRole AnalysisFacts.understaffed
                  ltac:(rewrite !elem_of_cons; tauto)) as [_ N2].
    pose proof (AnalysisFacts.fixed_text_not_missingRole AnalysisFacts.large
                  ltac:(rewrite !elem_of_cons; tauto)) as [_ N3].
    pose proof (AnalysisFacts.fixed_text_not_missingRole AnalysisFacts.lowScore
                  ltac:(rewrite !elem_of_cons; tauto)) as [_ N4].
    specialize (N1 role). specialize (N2 role). specialize (N3 role). specialize (N4 role).
    split.
    - intros [(role' & Heq & Hzero)|[[Heq _]|[[Heq _]|[[Heq _]|[Heq _]]]]];
        try (exfalso; congruence).
      apply AnalysisFacts.missingRole_inj in Heq. subst role'. exact Hzero.
    - intros Hzero. left. exists role. split; [reflexivity|exact Hzero]. }
  split; [rewrite AnalysisFacts.elem_of_recommend; intuition congruence|].
  split; [rewrite AnalysisFacts.elem_of_recommend; intuition congruence|].
  split; [rewrite AnalysisFacts.elem_of_recommend; intuition congruence|].
  split; [rewrite AnalysisFacts.elem_of_recommend; intuition congruence|].
  rewrite AnalysisFacts.length_recommend.
  destruct (AgentCoordinator.lt (GenesisActions.overallSuccessRate metrics) 0.5);
    destruct (AgentCoordinator.lt (SystemMetrics.evolutionScore metrics) 0.3);
    destruct (Nat.ltb_spec (length agents) 3);
    destruct (Nat.ltb_spec 8 (length agents));
    repeat split; intros; lia.
Qed.

(** ** Wallets and agent creation *)

Module WalletFacts.
Import AgentWallet.

Definition isAirdropRequest (call : Call) : bool :=
  match call with RequestAirdrop _ _ => true | _ => false end.

Definition airdropRequests (calls : list Call) : list Call :=
  List.filter isAirdropRequest calls.

End WalletFacts.



Module CreationFacts.
Import AgentCreation.

Lemma ensureUniqueness_ok env agentId role mission :
  ensureUniqueness env agentId role mission = Js.Ok ()
  ↔ Env.getAgent env agentId = Js.Ok None
    ∧ ∃ allAgents,
        Env.getAllAgents env = Js.Ok allAgents
        ∧ ∀ a, a ∈ allAgents → ¬ (Agent.role a = role ∧ Agent.mission a = mission).
Proof.
  unfold ensureUniqueness. cbn [mbind mret Result_bind Result_ret Js.bind].
  destruct (Env.getAgent env agentId) as [[existing|]|];
    cbn [mbind mret Result_bind Result_ret Js.bind]; [split; [discriminate|intros [? _]; discriminate]| |
                    split; [discriminate|intros [? _]; discriminate]].
  destruct (Env.getAllAgents env) as [allAgents|]; cbn [mbind mret Result_bind Result_ret Js.bind];
    [|split; [discriminate|intros (_ & ? & ? & _); discriminate]].
  match goal with
  | |- context [find ?p allAgents] => destruct (find p allAgents) as [duplicate|] eqn:Hfind
  end.
  - split; [discriminate|]. intros (_ & agents & Heq & Hnone). simplify_eq.
    apply CoordinationFacts.find_some_elem in Hfind as [Hin Hsame].
    rewrite andb_true_iff, !bool_decide_eq_true in Hsame.
    destruct (Hnone duplicate Hin Hsame).
  - split; [|reflexivity]. intros _. split; [reflexivity|].
    exists allAgents. split; [reflexivity|]. intros a Hin [Hrole Hmission].
    apply list_elem_of_In in Hin.
    pose proof (find_none _ _ Hfind a Hin) as Hno. cbn beta in Hno.
    rewrite andb_false_iff, !bool_decide_eq_false in Hno. tauto.
Qed.

End CreationFacts.

(** X20.  An agent is only created when it is new.  When the store already
    holds the generated identifier, or an agent with the same role and
    mission, the creation throws before any wallet is created or anything is
    saved, and the factory does not track the identifier.  When the creation
    returns, the identifier was free and no stored agent had that role and
    mission; the agent is in state CREATED with the wallet's address, zero
    counters and an empty history, a wallet was created and the agent saved,
    in that order, and the identifier is tracked. *)
Theorem createAgent_creates_only_new_agents :
  ∀ (env : AgentCreation.Env.t) (f : AgentCreation.t) (role : AgentRole)
    (creatorId : string),
    let agentId := "agent_" +:+ Js.toHex (AgentCreation.Env.idBytes env) in
    let mission := AgentCreation.Env.mission env in
    let result := AgentCreation.createAgent env f role creatorId in
    ((∃ existing, AgentCreation.Env.getAgent env agentId = Js.Ok (Some existing)) →
     result = (Js.Throw ("Agent with ID " +:+ agentId +:+ " already exists"), [], f))
    ∧ (∀ allAgents duplicate,
         AgentCreation.Env.getAgent env agentId = Js.Ok None →
         AgentCreation.Env.getAllAgents env = Js.Ok allAgents →
         duplicate ∈ allAgents →
         Agent.role duplicate = role → Agent.mission duplicate = mission →
         result
         = (Js.Throw "Agent with identical role-mission combination already exists", [], f))
    ∧ (∀ agent,
         result.1.1 = Js.Ok agent →
         AgentCreation.Env.getAgent env agentId = Js.Ok None
         ∧ (∃ allAgents,
              AgentCreation.Env.getAllAgents env = Js.Ok allAgents
              ∧ ∀ a, a ∈ allAgents → ¬ (Agent.role a = role ∧ Agent.mission a = mission))
         ∧ (∃ wallet,
              AgentCreation.Env.createWallet env agentId false = Js.Ok wallet
              ∧ Agent.walletAddress agent = WalletInfo.publicKey wallet)
         ∧ Agent.id agent = agentId ∧ Agent.role agent = role
         ∧ Agent.mission agent = mission ∧ Agent.createdBy agent = creatorId
         ∧ Agent.status agent = AgentStatus.CREATED
         ∧ Metadata.successCount (Agent.metadata agent) = 0%nat
         ∧ Metadata.failureCount (Agent.metadata agent) = 0%nat
         ∧ Metadata.taskHistory (Agent.metadata agent) = []
         ∧ Metadata.currentTask (Agent.metadata agent) = None
         ∧ result.1.2 = [AgentCreation.CreateWallet agentId; AgentCreation.SaveAgent agent]
         ∧ AgentCreation.createdAgents result.2 = AgentCreation.createdAgents f ∪ {[agentId]})
    ∧ ((∃ error, result.1.1 = Js.Throw error) →
       AgentCreation.createdAgents result.2 = AgentCreation.createdAgents f).
Proof.
  intros env f role creatorId agentId mission result. subst result.
  unfold AgentCreation.createAgent, AgentCreation.generateAgentId.
  fold agentId. fold mission.
  pose proof (CreationFacts.ensureUniqueness_ok env agentId role mission) as Hunique.
  split; [|split; [|split]].
  - intros [existing Hexisting]. unfold AgentCreation.ensureUniqueness.
    rewrite Hexisting. reflexivity.
  - intros allAgents duplicate Hfree Hall Hin Hrole Hmission.
    unfold AgentCreation.ensureUniqueness. rewrite Hfree, Hall.
    cbn [mbind mret Result_bind Result_ret Js.bind].
    match goal with
    | |- context [find ?p allAgents] => destruct (find p allAgents) as [found|] eqn:Hfind
    end; [reflexivity|].
    apply list_elem_of_In in Hin.
    pose proof (find_none _ _ Hfind duplicate Hin) as Hno. cbn beta in Hno.
    rewrite andb_false_iff, !bool_decide_eq_false in Hno. tauto.
  - intros agent Hok.
    destruct (AgentCreation.ensureUniqueness env agentId role mission) as [[]|] eqn:Hensure;
      [|discriminate].
    destruct (proj1 Hunique eq_refl) as [Hfree Hnone].
    destruct (AgentCreation.Env.createWallet env agentId false) as [wallet|] eqn:Hwallet;
      [|discriminate].
    destruct (AgentCreation.Env.saveAgent env _) as [[]|] eqn:Hsave; [|discriminate].
    cbn [fst snd] in *. simplify_eq.
    split; [exact Hfree|]. split; [exact Hnone|].
    split; [exists wallet; split; reflexivity|].
    repeat split; reflexivity.
  - intros [error Herror].
    destruct (AgentCreation.ensureUniqueness env agentId role mission) as [[]|];
      [|reflexivity].
    destruct (AgentCreation.Env.createWallet env agentId false) as [wallet|]; [|reflexivity].
    destruct (AgentCreation.Env.saveAgent env _) as [[]|]; [discriminate|reflexivity].
Qed.


(** X21.  A faucet outage does not stop the creation of an agent.  With the
    wallet manager as the factory's [createWallet]: when the identifier and
    the role and mission are new, the secret key can be encrypted and the
    store accepts the wallet and the agent, the creation returns an agent in
    state CREATED whose wallet address is the generated public key, whatever
    the faucet and the balance read do. *)
Theorem agent_creation_survives_a_faucet_outage :
  ∀ (env : AgentCreation.Env.t) (walletEnv : AgentWallet.Env.t) (w : AgentWallet.t)
    (f : AgentCreation.t) (role : AgentRole) (creatorId key : string),
    AgentCreation.ensureUniqueness env
      ("agent_" +:+ Js.toHex (AgentCreation.Env.idBytes env)) role
      (AgentCreation.Env.mission env) = Js.Ok () →
    AgentWallet.Env.encryptedPrivateKey walletEnv = Js.Ok key →
    (∀ wallet, AgentWallet.Env.saveWallet walletEnv wallet = Js.Ok ()) →
    (∀ agent, AgentCreation.Env.saveAgent env agent = Js.Ok ()) →
    ∃ agent,
      (AgentCreation.createAgent (factoryWithWallet env walletEnv w) f role creatorId).1.1
      = Js.Ok agent
      ∧ Agent.walletAddress agent = AgentWallet.Env.generatedPublicKey walletEnv
      ∧ Agent.status agent = AgentStatus.CREATED
      ∧ Agent.role agent = role
      ∧ Agent.id agent ∈
          AgentCreation.createdAgents
            (AgentCreation.createAgent (factoryWithWallet env walletEnv w) f role creatorId).2.
Proof.
  intros env walletEnv w f role creatorId key Hunique Hkey Hwallet Hagent.
  unfold AgentCreation.createAgent, AgentCreation.generateAgentId.
  change (AgentCreation.ensureUniqueness (factoryWithWallet env walletEnv w))
    with (AgentCreation.ensureUniqueness env).
  cbn [factoryWithWallet AgentCreation.Env.idBytes AgentCreation.Env.mission
       AgentCreation.Env.createWallet AgentCreation.Env.saveAgent
       AgentCreation.Env.createdAt AgentCreation.Env.lastActive].
  rewrite Hunique.
  assert (Hcreated : ∃ wallet,
             (AgentWallet.createWallet walletEnv w
                ("agent_" +:+ Js.toHex (AgentCreation.Env.idBytes env)) false).1
             = Js.Ok wallet
             ∧ WalletInfo.publicKey wallet = AgentWallet.Env.generatedPublicKey walletEnv).
  { unfold AgentWallet.createWallet. rewrite Hkey.
    destruct (AgentWallet.Env.requestAirdrop walletEnv _ _);
      [destruct (AgentWallet.Env.getBalance walletEnv _)|];
      rewrite Hwallet; eexists; split; reflexivity. }
  destruct Hcreated as (wallet & -> & Hpublic).
  rewrite Hagent. eexists. split; [reflexivity|].
  cbn [fst snd Agent.walletAddress Agent.status Agent.role Agent.id
       AgentCreation.createdAgents].
  split; [exact Hpublic|]. split; [reflexivity|]. split; [reflexivity|].
  apply elem_of_union_r, elem_of_singleton. reflexivity.
Qed.

Lemma agent_creation_survives_a_faucet_outage_witness :
  ∃ agent,
    (AgentCreation.createAgent
       (factoryWithWallet WalletSamples.factoryEnv WalletSamples.dryFaucet
          AgentWallet.constructor)
       (AgentCreation.mk ∅) BUILDER "genesis_root").1.1
    = Js.Ok agent
    ∧ Agent.walletAddress agent = "public_key_2"
    ∧ Agent.status agent = AgentStatus.CREATED.
Proof.
  destruct (agent_creation_survives_a_faucet_outage WalletSamples.factoryEnv
              WalletSamples.dryFaucet AgentWallet.constructor (AgentCreation.mk ∅)
              BUILDER "genesis_root" "sealed" eq_refl eq_refl
              (λ _, eq_refl) (λ _, eq_refl))
    as (agent & Hcreated & Haddress & Hstatus & _).
  exists agent. split; [exact Hcreated|]. split; [exact Haddress|exact Hstatus].
Defined.

(** ** Secret-key encryption *)

Module EncryptionFacts.
Import Encryption.

(** What the two functions rely on from the platform: the tag has
    [TAG_LENGTH] bytes, opening what was sealed under the same key and
    initialisation vector gives the plain text back, and a buffer is read
    back from its base64 text. *)
Definition sound (c : Crypto.t) : Prop :=
  (∀ key iv data, length (Crypto.seal c key iv data).2 = TAG_LENGTH)
  ∧ (∀ key iv data,
       Crypto.open c key iv (Crypto.seal c key iv data).2 (Crypto.seal c key iv data).1
       = Js.Ok data)
  ∧ (∀ buffer, Crypto.fromBase64 c (Crypto.toBase64 c buffer) = buffer).

Lemma bufferFromHex_toHex buffer : bufferFromHex (Js.toHex buffer) = buffer.
Proof. unfold bufferFromHex. rewrite fromHex_toHex. reflexivity. Qed.

Lemma subarray_layout (salt iv tag rest : list Byte.byte) :
  length salt = SALT_LENGTH → length iv = IV_LENGTH → length tag = TAG_LENGTH →
  let buffer := salt ++ iv ++ tag ++ rest in
  subarray 0 SALT_LENGTH buffer = salt
  ∧ subarray SALT_LENGTH (SALT_LENGTH + IV_LENGTH) buffer = iv
  ∧ subarray (SALT_LENGTH + IV_LENGTH) (SALT_LENGTH + IV_LENGTH + TAG_LENGTH) buffer = tag
  ∧ subarrayFrom (SALT_LENGTH + IV_LENGTH + TAG_LENGTH) buffer = rest.
Proof.
  intros Hsalt Hiv Htag buffer. subst buffer. unfold subarray, subarrayFrom.
  rewrite <- Hsalt, <- Hiv, <- Htag.
  repeat split.
  - rewrite drop_0, Nat.sub_0_r. apply take_app_length.
  - rewrite drop_app_length.
    replace (length salt + length iv - length salt)%nat with (length iv) by lia.
    apply take_app_length.
  - rewrite <- drop_drop, drop_app_length, drop_app_length.
    replace (length salt + length iv + length tag - (length salt + length iv))%nat
      with (length tag) by lia.
    apply take_app_length.
  - rewrite <- Nat.add_assoc, <- drop_drop, drop_app_length, <- drop_drop, drop_app_length,
      drop_app_length.
    reflexivity.
Qed.

(** A stand-in for the platform: no encryption, a constant tag, and the
    hexadecimal text for base64. *)
Definition plain : Crypto.t :=
  Crypto.mk (λ _ salt _, salt)
    (λ _ _ data, (list_byte_of_string data, replicate 16 Byte.x00))
    (λ _ _ _ ciphertext, Js.Ok (string_of_list_byte ciphertext))
    Js.toHex
    bufferFromHex.

Lemma plain_sound : sound plain.
Proof.
  split; [|split].
  - intros key iv data. reflexivity.
  - intros key iv data. cbn [plain Crypto.open Crypto.seal fst snd].
    rewrite string_of_list_byte_of_string. reflexivity.
  - intros buffer. apply bufferFromHex_toHex.
Qed.

End EncryptionFacts.

(** X22.  Decryption reads back what encryption wrote.  With a salt of 32
    bytes and an initialisation vector of 16 bytes, and a platform whose tag
    has 16 bytes, whose cipher opens what it sealed and whose base64 text
    decodes to the buffer it encodes, decrypting the text that [encrypt]
    returns under the same password gives the data: the offsets at which
    [decrypt] cuts the buffer are those at which [encrypt] joined it, and the
    key is derived from the same salt. *)
Theorem decrypt_reads_back_what_encrypt_wrote :
  ∀ (c : Encryption.Crypto.t) (salt iv : list Byte.byte) (data password : string),
    EncryptionFacts.sound c →
    length salt = 32%nat →
    length iv = 16%nat →
    Encryption.decrypt c (Encryption.encrypt c salt iv data password) password = Js.Ok data.
Proof.
  intros c salt iv data password (Htag & Hopen & Hbase64) Hsalt Hiv.
  unfold Encryption.encrypt, Encryption.decrypt.
  specialize (Htag (Encryption.Crypto.scryptSync c password salt Encryption.KEY_LENGTH) iv data).
  specialize (Hopen (Encryption.Crypto.scryptSync c password salt Encryption.KEY_LENGTH) iv data).
  destruct (Encryption.Crypto.seal c _ iv data) as [ciphertext tag].
  cbn [fst snd] in Htag, Hopen.
  rewrite Hbase64, EncryptionFacts.bufferFromHex_toHex.
  destruct (EncryptionFacts.subarray_layout salt iv tag ciphertext Hsalt Hiv Htag)
    as (-> & -> & -> & ->).
  rewrite EncryptionFacts.bufferFromHex_toHex. exact Hopen.
Qed.

Lemma decrypt_reads_back_what_encrypt_wrote_witness :
  Encryption.decrypt EncryptionFacts.plain
    (Encryption.encrypt EncryptionFacts.plain (replicate 32 Byte.x01) (replicate 16 Byte.x02)
       "[12,34,56]" "password")
    "password"
  = Js.Ok "[12,34,56]".
Proof.
  apply (decrypt_reads_back_what_encrypt_wrote EncryptionFacts.plain
           (replicate 32 Byte.x01) (replicate 16 Byte.x02) "[12,34,56]" "password"
           EncryptionFacts.plain_sound); reflexivity.
Defined.

(** ** Configuration *)

Module ConfigFacts.
Import ConfigLoader.

(** The sections by name. *)
Definition sections : list (string * (Config.t → Entries)) :=
  [("system", Config.system); ("autonomy", Config.autonomy); ("agents", Config.agents);
   ("solana", Config.solana); ("memory", Config.memory); ("dashboard", Config.dashboard);
   ("demo", Config.demo)].

(** The properties that the environment or the validation may rewrite. *)
Definition adjustedKeys : list (string * string) :=
  [("system", "mode"); ("autonomy", "loopIntervalMs"); ("agents", "maxAgents");
   ("agents", "roles"); ("solana", "rpcUrl"); ("solana", "network");
   ("solana", "airdropAmount"); ("memory", "storageDir")].

(** The value of a property that an environment variable may override. *)
Definition overridden (variable : option string) (merged : option Value) : option Value :=
  match variable with
  | Some text => if bool_decide (text = "") then merged else Some (Str text)
  | None => merged
  end.

Lemma applyVariable_lookup variable key section :
  applyVariable variable key section !! key = overridden variable (section !! key).
Proof.
  unfold applyVariable, overridden. destruct variable as [text|]; [|reflexivity].
  case_bool_decide; [reflexivity|]. apply lookup_insert_eq.
Qed.

Lemma applyVariable_lookup_ne variable key key' section :
  key ≠ key' → applyVariable variable key section !! key' = section !! key'.
Proof.
  intros Hne. unfold applyVariable. destruct variable as [text|]; [|reflexivity].
  case_bool_decide; [reflexivity|]. apply lookup_insert_ne. exact Hne.
Qed.

Lemma resetIfNotPositive_lookup_ne env key key' defaults section :
  key ≠ key' → resetIfNotPositive env key defaults section !! key' = section !! key'.
Proof.
  intros Hne. unfold resetIfNotPositive. destruct (notPositive env (section !! key));
    [apply lookup_insert_ne; exact Hne|reflexivity].
Qed.

Lemma resetIfNotPositive_lookup env key defaults section :
  resetIfNotPositive env key defaults section !! key
  = if notPositive env (section !! key) then Some (default Null (defaults !! key))
    else section !! key.
Proof.
  unfold resetIfNotPositive. destruct (notPositive env (section !! key));
    [apply lookup_insert_eq|reflexivity].
Qed.

Lemma resetIfNotPositive_positive env key defaults section :
  notPositive env (Some (default Null (defaults !! key))) = false →
  notPositive env (resetIfNotPositive env key defaults section !! key) = false.
Proof.
  intros Hdefault. rewrite resetIfNotPositive_lookup.
  destruct (notPositive env (section !! key)) eqn:Hvalue; assumption.
Qed.

Lemma resetIfNotPositive_idempotent env key defaults section :
  notPositive env (Some (default Null (defaults !! key))) = false →
  resetIfNotPositive env key defaults (resetIfNotPositive env key defaults section)
  = resetIfNotPositive env key defaults section.
Proof.
  intros Hdefault. unfold resetIfNotPositive at 1.
  rewrite (resetIfNotPositive_positive env key defaults section Hdefault). reflexivity.
Qed.

Lemma resetIfNotPositive_noop env key defaults section :
  notPositive env (section !! key) = false →
  resetIfNotPositive env key defaults section = section.
Proof. intros Hvalue. unfold resetIfNotPositive. rewrite Hvalue. reflexivity. Qed.

Lemma default_loopIntervalMs env :
  notPositive env (Some (default Null (Config.autonomy DEFAULT_CONFIG !! "loopIntervalMs")))
  = false.
Proof. vm_compute. reflexivity. Qed.

Lemma default_maxAgents env :
  notPositive env (Some (default Null (Config.agents DEFAULT_CONFIG !! "maxAgents"))) = false.
Proof. vm_compute. reflexivity. Qed.

Lemma default_airdropAmount env :
  notPositive env (Some (default Null (Config.solana DEFAULT_CONFIG !! "airdropAmount")))
  = false.
Proof. vm_compute. reflexivity. Qed.

Lemma validate_roles env c :
  ∃ role roles, Config.agents (validate env c) !! "roles" = Some (Strs (role :: roles)).
Proof.
  unfold validate. cbn [Config.agents].
  destruct (invalidRoles _) eqn:Hroles.
  - rewrite lookup_insert_eq. eexists _, _. reflexivity.
  - unfold invalidRoles in Hroles.
    destruct (resetIfNotPositive env "maxAgents" _ _ !! "roles") as [[| | | |[|role roles]]|];
      try discriminate.
    eexists _, _. reflexivity.
Qed.

End ConfigFacts.

(** X23.  A configuration that loads is the file merged over the defaults,
    then validated.  The loader stores what it returns.  The loop interval,
    the agent limit and the airdrop amount of the result never compare as
    [<= 0], and its roles are a non-empty array.  Every other property, apart
    from the four that the environment may override, has the value of the
    file if the file's section has it and the default otherwise; properties
    of the file that the defaults do not know are kept. *)
Theorem load_returns_the_validated_merge :
  ∀ (env : ConfigLoader.Env.t) (l : ConfigLoader.t) (loaded : string → ConfigLoader.Entries),
    ConfigLoader.Env.loaded env = Js.Ok loaded →
    let c := (ConfigLoader.load env l).1 in
    ConfigLoader.getConfig (ConfigLoader.load env l).2 = c
    ∧ ConfigLoader.notPositive env (ConfigLoader.Config.autonomy c !! "loopIntervalMs") = false
    ∧ ConfigLoader.notPositive env (ConfigLoader.Config.agents c !! "maxAgents") = false
    ∧ ConfigLoader.notPositive env (ConfigLoader.Config.solana c !! "airdropAmount") = false
    ∧ (∃ role roles,
         ConfigLoader.Config.agents c !! "roles" = Some (ConfigLoader.Strs (role :: roles)))
    ∧ (∀ name section key,
         (name, section) ∈ ConfigFacts.sections →
         (name, key) ∉ ConfigFacts.adjustedKeys →
         section c !! key = (loaded name ∪ section ConfigLoader.DEFAULT_CONFIG) !! key)
    ∧ (∀ q, loaded "autonomy" !! "loopIntervalMs" = Some (ConfigLoader.Num q) → 0 < q →
         ConfigLoader.Config.autonomy c !! "loopIntervalMs" = Some (ConfigLoader.Num q))
    ∧ (∀ q, loaded "autonomy" !! "loopIntervalMs" = Some (ConfigLoader.Num q) → q <= 0 →
         ConfigLoader.Config.autonomy c !! "loopIntervalMs" = Some (ConfigLoader.Num 24000)).
Proof.
  intros env l loaded Hloaded c. subst c. unfold ConfigLoader.load. rewrite Hloaded.
  cbn [fst snd ConfigLoader.getConfig ConfigLoader.config].
  split; [reflexivity|].
  split.
  { unfold ConfigLoader.validate. cbn [ConfigLoader.Config.autonomy].
    apply ConfigFacts.resetIfNotPositive_positive, ConfigFacts.default_loopIntervalMs. }
  split.
  { unfold ConfigLoader.validate. cbn [ConfigLoader.Config.agents].
    destruct (ConfigLoader.invalidRoles _);
      [rewrite lookup_insert_ne by discriminate|];
      apply ConfigFacts.resetIfNotPositive_positive, ConfigFacts.default_maxAgents. }
  split.
  { unfold ConfigLoader.validate. cbn [ConfigLoader.Config.solana].
    apply ConfigFacts.resetIfNotPositive_positive, ConfigFacts.default_airdropAmount. }
  split; [apply ConfigFacts.validate_roles|].
  split.
  { intros name section key Hsection Hkey.
    unfold ConfigFacts.sections in Hsection. unfold ConfigFacts.adjustedKeys in Hkey.
    rewrite !elem_of_cons, elem_of_nil in Hsection.
    rewrite !not_elem_of_cons in Hkey.
    destruct Hkey as (K1 & K2 & K3 & K4 & K5 & K6 & K7 & K8 & _).
    unfold ConfigLoader.validate, ConfigLoader.applyEnvironmentVariables,
      ConfigLoader.mergeConfig.
    destruct Hsection as [H|[H|[H|[H|[H|[H|[H|[]]]]]]]]; simplify_eq;
      cbn [ConfigLoader.Config.system ConfigLoader.Config.autonomy ConfigLoader.Config.agents
           ConfigLoader.Config.solana ConfigLoader.Config.memory
           ConfigLoader.Config.dashboard ConfigLoader.Config.demo];
      try reflexivity.
    - apply ConfigFacts.applyVariable_lookup_ne. congruence.
    - apply ConfigFacts.resetIfNotPositive_lookup_ne. congruence.
    - destruct (ConfigLoader.invalidRoles _);
        [rewrite lookup_insert_ne by congruence|];
        apply ConfigFacts.resetIfNotPositive_lookup_ne; congruence.
    - rewrite ConfigFacts.resetIfNotPositive_lookup_ne by congruence.
      rewrite !ConfigFacts.applyVariable_lookup_ne by congruence. reflexivity.
    - apply ConfigFacts.applyVariable_lookup_ne. congruence. }
  split.
  - intros q Hfile Hpositive.
    unfold ConfigLoader.validate, ConfigLoader.applyEnvironmentVariables,
      ConfigLoader.mergeConfig. cbn [ConfigLoader.Config.autonomy].
    rewrite ConfigFacts.resetIfNotPositive_lookup.
    rewrite (lookup_union_Some_l _ _ _ _ Hfile).
    cbn [ConfigLoader.notPositive].
    destruct (Qle_bool q 0) eqn:Hle; [|reflexivity].
    apply Qle_bool_iff in Hle. lra.
  - intros q Hfile Hnegative.
    unfold ConfigLoader.validate, ConfigLoader.applyEnvironmentVariables,
      ConfigLoader.mergeConfig. cbn [ConfigLoader.Config.autonomy].
    rewrite ConfigFacts.resetIfNotPositive_lookup.
    rewrite (lookup_union_Some_l _ _ _ _ Hfile).
    cbn [ConfigLoader.notPositive].
    apply Qle_bool_iff in Hnegative. rewrite Hnegative. vm_compute. reflexivity.
Qed.

Lemma load_returns_the_validated_merge_witness :
  let c := (ConfigLoader.load ConfigSamples.env ConfigLoader.constructor).1 in
  ConfigLoader.Config.autonomy c !! "loopIntervalMs" = Some (ConfigLoader.Num 24000)
  ∧ ConfigLoader.Config.autonomy c !! "actTimeoutMs" = Some (ConfigLoader.Num 500)
  ∧ ConfigLoader.Config.solana c !! "wsUrl" = Some (ConfigLoader.Str "ws://localhost:8900")
  ∧ ConfigLoader.Config.demo c !! "minCycles" = Some (ConfigLoader.Num 10).
Proof.
  intros c.
  destruct (load_returns_the_validated_merge ConfigSamples.env ConfigLoader.constructor
              ConfigSamples.file eq_refl) as (_ & _ & _ & _ & _ & Hother & _ & Hreset).
  fold c in Hother, Hreset.
  split; [apply (Hreset (-5)); [reflexivity|discriminate]|].
  split; [|split].
  - rewrite (Hother "autonomy" ConfigLoader.Config.autonomy "actTimeoutMs");
      [reflexivity|unfold ConfigFacts.sections; rewrite !elem_of_cons; tauto|].
    unfold ConfigFacts.adjustedKeys. rewrite !not_elem_of_cons.
    repeat split; try discriminate. apply not_elem_of_nil.
  - rewrite (Hother "solana" ConfigLoader.Config.solana "wsUrl");
      [reflexivity|unfold ConfigFacts.sections; rewrite !elem_of_cons; tauto|].
    unfold ConfigFacts.adjustedKeys. rewrite !not_elem_of_cons.
    repeat split; try discriminate. apply not_elem_of_nil.
  - rewrite (Hother "demo" ConfigLoader.Config.demo "minCycles");
      [reflexivity|unfold ConfigFacts.sections; rewrite !elem_of_cons; tauto|].
    unfold ConfigFacts.adjustedKeys. rewrite !not_elem_of_cons.
    repeat split; try discriminate. apply not_elem_of_nil.
Defined.

(** X24.  The environment wins over the file.  After a load that succeeds,
    each of the RPC address, the network, the mode and the storage directory
    is the text of its environment variable when that is set and not empty,
    and the merged value of file and defaults otherwise. *)
Theorem environment_variables_override_the_file :
  ∀ (env : ConfigLoader.Env.t) (l : ConfigLoader.t) (loaded : string → ConfigLoader.Entries),
    ConfigLoader.Env.loaded env = Js.Ok loaded →
    let c := (ConfigLoader.load env l).1 in
    let merged := ConfigLoader.mergeConfig ConfigLoader.DEFAULT_CONFIG loaded in
    ConfigLoader.Config.solana c !! "rpcUrl"
    = ConfigFacts.overridden (ConfigLoader.Env.SOLANA_RPC_URL env)
        (ConfigLoader.Config.solana merged !! "rpcUrl")
    ∧ ConfigLoader.Config.solana c !! "network"
      = ConfigFacts.overridden (ConfigLoader.Env.SOLANA_NETWORK env)
          (ConfigLoader.Config.solana merged !! "network")
    ∧ ConfigLoader.Config.system c !! "mode"
      = ConfigFacts.overridden (ConfigLoader.Env.GENESIS_MODE env)
          (ConfigLoader.Config.system merged !! "mode")
    ∧ ConfigLoader.Config.memory c !! "storageDir"
      = ConfigFacts.overridden (ConfigLoader.Env.MEMORY_DIR env)
          (ConfigLoader.Config.memory merged !! "storageDir").
Proof.
  intros env l loaded Hloaded c merged. subst c merged.
  unfold ConfigLoader.load. rewrite Hloaded. cbn [fst].
  unfold ConfigLoader.validate, ConfigLoader.applyEnvironmentVariables.
  cbn [ConfigLoader.Config.system ConfigLoader.Config.solana ConfigLoader.Config.memory].
  rewrite !ConfigFacts.resetIfNotPositive_lookup_ne by discriminate.
  split; [|split; [|split]].
  - rewrite ConfigFacts.applyVariable_lookup_ne by discriminate.
    apply ConfigFacts.applyVariable_lookup.
  - rewrite ConfigFacts.applyVariable_lookup.
    rewrite ConfigFacts.applyVariable_lookup_ne by discriminate. reflexivity.
  - apply ConfigFacts.applyVariable_lookup.
  - apply ConfigFacts.applyVariable_lookup.
Qed.

Lemma environment_variables_override_the_file_witness :
  let c := (ConfigLoader.load ConfigSamples.env ConfigLoader.constructor).1 in
  ConfigLoader.Config.solana c !! "rpcUrl" = Some (ConfigLoader.Str "https://rpc.example")
  ∧ ConfigLoader.Config.solana c !! "network" = Some (ConfigLoader.Str "devnet")
  ∧ ConfigLoader.Config.system c !! "mode" = Some (ConfigLoader.Str "demo").
Proof.
  intros c.
  destruct (environment_variables_override_the_file ConfigSamples.env ConfigLoader.constructor
              ConfigSamples.file eq_refl) as (Hrpc & Hnetwork & Hmode & _).
  fold c in Hrpc, Hnetwork, Hmode.
  split; [rewrite Hrpc; reflexivity|].
  split; [rewrite Hnetwork; reflexivity|rewrite Hmode; reflexivity].
Defined.

(** X25.  Validation settles in one pass: validating a validated
    configuration changes nothing. *)
Theorem validate_is_idempotent :
  ∀ (env : ConfigLoader.Env.t) (c : ConfigLoader.Config.t),
    ConfigLoader.validate env (ConfigLoader.validate env c) = ConfigLoader.validate env c.
Proof.
  intros env c.
  destruct (ConfigFacts.validate_roles env c) as (role & roles & Hroles).
  assert (Hloop : ConfigLoader.resetIfNotPositive env "loopIntervalMs"
                    (ConfigLoader.Config.autonomy ConfigLoader.DEFAULT_CONFIG)
                    (ConfigLoader.Config.autonomy (ConfigLoader.validate env c))
                  = ConfigLoader.Config.autonomy (ConfigLoader.validate env c)).
  { apply ConfigFacts.resetIfNotPositive_noop.
    unfold ConfigLoader.validate. cbn [ConfigLoader.Config.autonomy].
    apply ConfigFacts.resetIfNotPositive_positive, ConfigFacts.default_loopIntervalMs. }
  assert (Hmax : ConfigLoader.resetIfNotPositive env "maxAgents"
                   (ConfigLoader.Config.agents ConfigLoader.DEFAULT_CONFIG)
                   (ConfigLoader.Config.agents (ConfigLoader.validate env c))
                 = ConfigLoader.Config.agents (ConfigLoader.validate env c)).
  { apply ConfigFacts.resetIfNotPositive_noop.
    unfold ConfigLoader.validate. cbn [ConfigLoader.Config.agents].
    destruct (ConfigLoader.invalidRoles _);
      [rewrite lookup_insert_ne by discriminate|];
      apply ConfigFacts.resetIfNotPositive_positive, ConfigFacts.default_maxAgents. }
  assert (Hdrop : ConfigLoader.resetIfNotPositive env "airdropAmount"
                    (ConfigLoader.Config.solana ConfigLoader.DEFAULT_CONFIG)
                    (ConfigLoader.Config.solana (ConfigLoader.validate env c))
                  = ConfigLoader.Config.solana (ConfigLoader.validate env c)).
  { apply ConfigFacts.resetIfNotPositive_noop.
    unfold ConfigLoader.validate. cbn [ConfigLoader.Config.solana].
    apply ConfigFacts.resetIfNotPositive_positive, ConfigFacts.default_airdropAmount. }
  unfold ConfigLoader.validate at 1. cbv zeta.
  rewrite Hloop, Hmax, Hdrop, Hroles. cbn [ConfigLoader.invalidRoles].
  destruct (ConfigLoader.validate env c). reflexivity.
Qed.

(** ** Observation, weighting and delegation together *)

Module ObserveFacts.

Lemma filter_filter_and {A} (P Q : A → Prop) `{∀ x, Decision (P x)} `{∀ x, Decision (Q x)}
    (l : list A) :
  filter P (filter Q l) = filter (λ x, Q x ∧ P x) l.
Proof.
  induction l as [|x l IH]; [reflexivity|].
  rewrite !filter_cons. destruct (decide (Q x)) as [HQ|HQ].
  - rewrite filter_cons. destruct (decide (P x)) as [HP|HP].
    + rewrite decide_True by tauto. f_equal. exact IH.
    + rewrite decide_False by tauto. exact IH.
  - rewrite decide_False by tauto. exact IH.
Qed.

(** The idle children that the engine counts in an observed state are the
    candidates of the delegation, in the same order. *)
Lemma observed_idle_children g wallets now :
  filter (λ a, DecisionEngine.isIdle a = true)
    (filter (λ a, DecisionEngine.isChild a = true)
       (SystemState.activeAgents (GenesisAgent.observe g wallets now)))
  = filter (λ a, GenesisActions.isIdleChild a = true)
      (MemorySystem.getAllAgents (GenesisAgent.memory g)).
Proof.
  unfold GenesisAgent.observe. cbn [SystemState.activeAgents].
  rewrite !filter_filter_and. apply list_filter_iff. intros a.
  unfold GenesisActions.isIdleChild. rewrite !andb_true_iff. tauto.
Qed.

Lemma half_nonneg (n : nat) : 0 <= inject_Z (Z.of_nat n) / 2.
Proof.
  unfold Qdiv. apply Qmult_le_0_compat.
  - change 0 with (inject_Z 0). rewrite <- Zle_Qle. lia.
  - apply Qle_bool_iff. reflexivity.
Qed.

End ObserveFacts.

(** X26.  The engine and the delegation agree on who is idle.  In an
    observed state, the idle children that [calculateDelegateTaskWeight]
    counts are exactly the candidates that [actDelegateTask] finds in the
    same store; so whenever the weight of DELEGATE_TASK received the boost
    for idle agents, the delegation has an agent to run and does not answer
    that no idle child is available. *)
Theorem idle_boost_means_delegation_has_a_candidate :
  ∀ (g : GenesisAgent.t) (wallets : list (string * Z)) (now : Z)
    (env : TaskExecutor.Env.t) (x : TaskExecutor.t),
    let state := GenesisAgent.observe g wallets now in
    let childAgents :=
      filter (λ a, DecisionEngine.isChild a = true) (SystemState.activeAgents state) in
    let idleAgents := filter (λ a, DecisionEngine.isIdle a = true) childAgents in
    let agents := MemorySystem.getAllAgents (GenesisAgent.memory g) in
    idleAgents = filter (λ a, GenesisActions.isIdleChild a = true) agents
    ∧ (inject_Z (Z.of_nat (length childAgents)) / 2 < inject_Z (Z.of_nat (length idleAgents)) →
       ∃ selected,
         selected ∈ idleAgents
         ∧ GenesisActions.actDelegateTask env x agents
           = GenesisActions.delegateTo env x selected)
    ∧ (idleAgents = [] →
       DecisionEngine.calculateDelegateTaskWeight (GenesisAgent.decisionEngine g) state
       = Js.Math_max 0.05
           (Js.Math_min 0.9
              (DecisionEngine.decisionWeights (GenesisAgent.decisionEngine g) DELEGATE_TASK
               * (if (0 <? length childAgents)%nat then 1.5 else 0.1)))
       ∧ GenesisActions.actDelegateTask env x agents
         = (Js.Ok ("No idle child agents available for task delegation", None), x)).
Proof.
  intros g wallets now env x state childAgents idleAgents agents.
  pose proof (ObserveFacts.observed_idle_children g wallets now) as Hsame.
  fold state in Hsame. fold childAgents in Hsame. fold idleAgents in Hsame.
  fold agents in Hsame.
  assert (Hidle : filter (λ a, DecisionEngine.isIdle a = true) childAgents = idleAgents)
    by reflexivity.
  pose proof (ObserveFacts.half_nonneg (length childAgents)) as Hhalf.
  clearbody idleAgents.
  split; [exact Hsame|]. split.
  - intros Hboost.
    unfold GenesisActions.actDelegateTask. rewrite <- Hsame.
    destruct idleAgents as [|first rest].
    { exfalso. change (inject_Z (Z.of_nat (length []))) with 0 in Hboost. lra. }
    destruct (DelegateFacts.sort_head first rest) as (selected & sorted & i & Hsort & Hi & _).
    cbn [length Nat.eqb]. rewrite Hsort. exists selected.
    split; [eapply list_elem_of_lookup_2, Hi|reflexivity].
  - intros Hnone. split.
    + unfold DecisionEngine.calculateDelegateTaskWeight.
      fold state. fold childAgents. rewrite Hidle, Hnone.
      destruct (Qlt_le_dec _ _) as [Hboost|_].
      * exfalso. change (inject_Z (Z.of_nat (length []))) with 0 in Hboost. lra.
      * destruct (0 <? length childAgents)%nat; reflexivity.
    + unfold GenesisActions.actDelegateTask. rewrite <- Hsame, Hnone. reflexivity.
Qed.

(** ** The CREATE_AGENT action *)

Module CreateActionFacts.
Import GenesisCreation.

Lemma createAgent_calls env f role creatorId agent :
  (AgentCreation.createAgent env f role creatorId).1.1 = Js.Ok agent →
  (AgentCreation.createAgent env f role creatorId).1.2
  = [AgentCreation.CreateWallet (Agent.id agent); AgentCreation.SaveAgent agent]
  ∧ Agent.status agent = AgentStatus.CREATED
  ∧ Metadata.creationTx (Agent.metadata agent) = "".
Proof.
  unfold AgentCreation.createAgent.
  destruct (AgentCreation.ensureUniqueness env _ role _) as [[]|]; [|discriminate].
  destruct (AgentCreation.Env.createWallet env _ false) as [wallet|]; [|discriminate].
  destruct (AgentCreation.Env.saveAgent env _) as [[]|]; [|discriminate].
  cbn [fst snd]. intros Heq. simplify_eq. repeat split; reflexivity.
Qed.

Lemma actCreateAgent_shape env f role agent :
  (AgentCreation.createAgent (Env.factory env) f role "genesis_root").1.1 = Js.Ok agent →
  AgentCreation.Env.saveAgent (Env.factory env) (activate agent) = Js.Ok () →
  (actCreateAgent env f role).1
  = ((logCreation env role (activate agent)).1,
     [Factory (AgentCreation.CreateWallet (Agent.id agent));
      Factory (AgentCreation.SaveAgent agent);
      SaveAgent (activate agent)] ++ (logCreation env role (activate agent)).2).
Proof.
  intros Hcreated Hsaved.
  destruct (createAgent_calls _ _ _ _ _ Hcreated) as (Hcalls & _).
  unfold actCreateAgent. change GenesisAgent.GENESIS_ID with "genesis_root".
  destruct (AgentCreation.createAgent (Env.factory env) f role "genesis_root")
    as [[created calls] f'].
  cbn [fst snd] in Hcreated, Hcalls. subst created calls.
  rewrite Hsaved.
  destruct (logCreation env role (activate agent)) as [outcome logCalls].
  reflexivity.
Qed.

End CreateActionFacts.

(** X27.  The CREATE_AGENT action can fail after the agent exists.  Once the
    factory has returned the agent and the store has saved it as ACTIVE, a
    throw of the on-chain log is not caught: when the submission throws, the
    action throws that error although the store holds the active agent, whose
    creation transaction is still empty.  The action returns a signature only
    after saving the agent once more with that signature as its creation
    transaction and counting the transaction; with no genesis wallet it
    returns without a signature and without touching the network. *)
Theorem actCreateAgent_can_fail_after_the_agent_exists :
  ∀ (env : GenesisCreation.Env.t) (f : AgentCreation.t) (role : AgentRole)
    (agent : Agent.t),
    (AgentCreation.createAgent (GenesisCreation.Env.factory env) f role "genesis_root").1.1
    = Js.Ok agent →
    AgentCreation.Env.saveAgent (GenesisCreation.Env.factory env)
      (GenesisCreation.activate agent) = Js.Ok () →
    let active := GenesisCreation.activate agent in
    let result := (GenesisCreation.actCreateAgent env f role).1 in
    let saved :=
      [GenesisCreation.Factory (AgentCreation.CreateWallet (Agent.id agent));
       GenesisCreation.Factory (AgentCreation.SaveAgent agent);
       GenesisCreation.SaveAgent active] in
    Agent.status active = AgentStatus.ACTIVE
    ∧ Metadata.creationTx (Agent.metadata active) = ""
    ∧ (∃ later, result.2 = saved ++ later)
    ∧ (∀ wallet keypair transaction error,
         Chain.getWallet (GenesisCreation.Env.chain env) "genesis_root" = Js.Ok (Some wallet) →
         Chain.getKeypair (GenesisCreation.Env.chain env) wallet = Js.Ok keypair →
         Chain.buildMemoTransaction (GenesisCreation.Env.chain env)
           (GenesisCreation.CreationMemo.mk "AGENT_CREATION" (Agent.id agent)
              (AgentRole_str (Agent.role agent)) (Agent.mission agent)
              (GenesisCreation.Env.memoTime env) "genesis_root") keypair
         = Js.Ok transaction →
         Chain.submitTransaction (GenesisCreation.Env.chain env) transaction [keypair]
         = Js.Throw error →
         result = (Js.Throw error, saved ++ [GenesisCreation.Submit transaction]))
    ∧ (∀ outcome signature,
         result.1 = Js.Ok (outcome, Some signature) →
         ∃ transaction,
           result.2
           = saved ++ [GenesisCreation.Submit transaction;
                       GenesisCreation.SaveAgent
                         (GenesisCreation.withCreationTx active signature);
                       GenesisCreation.CountTransaction])
    ∧ (Chain.getWallet (GenesisCreation.Env.chain env) "genesis_root" = Js.Ok None →
       result
       = (Js.Ok ("Created " +:+ AgentRole_str role +:+ " agent: " +:+ Agent.id agent, None),
          saved)).
Proof.
  intros env f role agent Hcreated Hsaved active result saved.
  destruct (CreateActionFacts.createAgent_calls _ _ _ _ _ Hcreated) as (_ & _ & Htx).
  subst result. rewrite (CreateActionFacts.actCreateAgent_shape env f role agent Hcreated Hsaved).
  fold active. fold saved. cbn [fst snd].
  split; [reflexivity|]. split; [exact Htx|]. split; [eexists; reflexivity|].
  unfold GenesisCreation.logCreation. change GenesisAgent.GENESIS_ID with "genesis_root".
  split; [|split].
  - intros wallet keypair transaction error Hwallet Hkey Hbuild Hsubmit.
    rewrite Hwallet, Hkey. cbn [Agent.id Agent.role Agent.mission active GenesisCreation.activate].
    rewrite Hbuild, Hsubmit. reflexivity.
  - intros outcome signature.
    destruct (Chain.getWallet (GenesisCreation.Env.chain env) "genesis_root")
      as [[wallet|]|]; cbn [fst snd]; [|discriminate..].
    destruct (Chain.getKeypair (GenesisCreation.Env.chain env) wallet) as [keypair|];
      cbn [fst snd]; [|discriminate].
    destruct (Chain.buildMemoTransaction (GenesisCreation.Env.chain env) _ keypair)
      as [transaction|]; cbn [fst snd]; [|discriminate].
    destruct (Chain.submitTransaction (GenesisCreation.Env.chain env) transaction [keypair])
      as [sent|]; cbn [fst snd]; [|discriminate].
    destruct (AgentCreation.Env.saveAgent (GenesisCreation.Env.factory env)
                (GenesisCreation.withCreationTx active sent)) as [[]|];
      cbn [fst snd]; [|discriminate].
    destruct (GenesisCreation.Env.countTransaction env) as [[]|]; cbn [fst snd]; [|discriminate].
    cbn [fst snd]. intros Hok. simplify_eq. exists transaction. reflexivity.
  - intros Hwallet. rewrite Hwallet. cbn [fst snd]. rewrite app_nil_r. reflexivity.
Qed.

Lemma actCreateAgent_can_fail_after_the_agent_exists_witness :
  (GenesisCreation.actCreateAgent CreationSamples.env (AgentCreation.mk ∅) BUILDER).1
  = (Js.Throw "send failed",
     [GenesisCreation.Factory (AgentCreation.CreateWallet "agent_2a");
      GenesisCreation.Factory (AgentCreation.SaveAgent CreationSamples.created);
      GenesisCreation.SaveAgent (GenesisCreation.activate CreationSamples.created);
      GenesisCreation.Submit
        (SolanaTransactions.Transaction.mk "memo" (Some "blockhash_0")
           (Some "genesis_wallet"))]).
Proof.
  destruct (actCreateAgent_can_fail_after_the_agent_exists CreationSamples.env
              (AgentCreation.mk ∅) BUILDER CreationSamples.created eq_refl eq_refl)
    as (_ & _ & _ & Hthrow & _).
  exact (Hthrow "genesis_wallet" "genesis_wallet"
           (SolanaTransactions.Transaction.mk "memo" (Some "blockhash_0")
              (Some "genesis_wallet"))
           "send failed" eq_refl eq_refl eq_refl eq_refl).
Defined.

(** ** The Act phase and the end of a cycle *)

(** X28.  How a cycle settles the result of its action.  The Act phase never
    throws: it reports success exactly when the chosen action returned, and a
    throw becomes the outcome [Action failed] with the error's message and no
    signature; observing cannot fail.  The Evolve phase and the metrics
    update then move the weight of the decision's type by 0.05 up or down
    within [0.05, 0.9] and leave the other weights alone, count one more
    decision as successful or failed, and move the evolution score by 0.01 up
    or 0.005 down, capped at one. *)
Theorem cycle_settles_the_action_result :
  ∀ (clock : GenesisAct.Clock.t) (actions : GenesisAct.Actions.t) (decision : Decision.t)
    (startTime : Z) (env : GenesisAgent.EvolveEnv.t) (g : GenesisAgent.t)
    (cycleTime now updateTime : Z),
    let type := Decision.type decision in
    let result := GenesisAct.act clock actions decision in
    let g' := GenesisAct.settle startTime env g result cycleTime now updateTime in
    let before := MemorySystem.getMetrics (GenesisAgent.memory g) in
    let after := MemorySystem.getMetrics (GenesisAgent.memory g') in
    let weights := DecisionEngine.decisionWeights (GenesisAgent.decisionEngine g) in
    let weights' := DecisionEngine.decisionWeights (GenesisAgent.decisionEngine g') in
    let success := ActionResult.success result in
    ActionResult.decision result = decision
    ∧ success = match GenesisAct.dispatch actions type with
                | Js.Ok _ => true
                | Js.Throw _ => false
                end
    ∧ (∀ error, GenesisAct.dispatch actions type = Js.Throw error →
         ActionResult.outcome result = "Action failed"
         ∧ ActionResult.error result = Some error
         ∧ ActionResult.transactionSignature result = None)
    ∧ (type = WAIT_AND_OBSERVE → success = true)
    ∧ weights' type
      = Js.Math_max 0.05 (Js.Math_min 0.9 (weights type + (if success then 0.05 else - 0.05)))
    ∧ (∀ d, d = type ∨ weights' d = weights d)
    ∧ SystemMetrics.totalDecisions after = (SystemMetrics.totalDecisions before + 1)%Z
    ∧ SystemMetrics.successfulActions after
      = (SystemMetrics.successfulActions before + (if success then 1 else 0))%Z
    ∧ SystemMetrics.failedActions after
      = (SystemMetrics.failedActions before + (if success then 0 else 1))%Z
    ∧ SystemMetrics.evolutionScore after
      = Js.Math_min 1.0
          (SystemMetrics.evolutionScore before + (if success then 0.01 else - 0.005)).
Proof.
  intros clock actions decision startTime env g cycleTime now updateTime
    type result g' before after weights weights' success.
  assert (Hdecision : ActionResult.decision result = decision).
  { subst result. unfold GenesisAct.act.
    destruct (GenesisAct.dispatch actions (Decision.type decision)) as [[outcome signature]|];
      reflexivity. }
  split; [exact Hdecision|].
  split.
  { subst success result type. unfold GenesisAct.act.
    destruct (GenesisAct.dispatch actions (Decision.type decision)) as [[outcome signature]|];
      reflexivity. }
  split.
  { intros error Herror. subst result type. unfold GenesisAct.act. rewrite Herror.
    repeat split; reflexivity. }
  split.
  { intros Hwait. subst success result type. unfold GenesisAct.act. rewrite Hwait.
    reflexivity. }
  assert (Hengine : GenesisAgent.decisionEngine g'
                    = DecisionEngine.updateWeights (GenesisAgent.decisionEngine g) type success).
  { subst g' type success. unfold GenesisAct.settle, GenesisActions.updateMetrics,
      GenesisAgent.evolve. cbn [GenesisAgent.decisionEngine]. rewrite Hdecision. reflexivity. }
  split; [subst weights'; rewrite Hengine; apply WeightFacts.updateWeights_same|].
  split.
  { intros d. destruct (decide (d = type)) as [Heq|Hne]; [left; exact Heq|right].
    subst weights'. rewrite Hengine. apply WeightFacts.updateWeights_other. exact Hne. }
  subst after g' before success. unfold GenesisAct.settle, GenesisActions.updateMetrics,
    GenesisAgent.evolve.
  destruct (Qlt_le_dec (GenesisAgent.EvolveEnv.random env) 0.5);
    cbn; repeat split; reflexivity.
Qed.

(** ** The Reason and Decide phases *)

Module ReasonFacts.
Import DecisionEngine.

Lemma firstReached_elem (random : Q) (l : list (DecisionOption.t Q)) : ∀ cumulative o,
  firstReached random cumulative l = Some o → o ∈ l.
Proof.
  induction l as [|first rest IH]; intros cumulative o; [discriminate|].
  cbn [firstReached]. destruct (leq random _).
  - intros Heq. simplify_eq. apply list_elem_of_here.
  - intros Hrest. apply list_elem_of_further. eapply IH, Hrest.
Qed.

Lemma selectDecision_elem (rnd : RandomSource Q) options selected :
  selectDecision rnd options = Some selected →
  selected ∈ normalizedOptions (randomizedOptions rnd options).
Proof.
  unfold selectDecision.
  destruct (firstReached _ _ _) as [o|] eqn:Hloop.
  - intros Heq. simplify_eq. eapply firstReached_elem, Hloop.
  - intros Hlast. apply last_Some in Hlast as [l' ->].
    apply elem_of_app. right. apply list_elem_of_here.
Qed.

Lemma member_le_cumulative (l : list (DecisionOption.t Q)) o :
  (∀ o', o' ∈ l → 0 < DecisionOption.weight o') →
  o ∈ l → DecisionOption.weight o <= cumulativeWeight 0 l.
Proof.
  induction l as [|first rest IH]; intros Hpos Hin; [apply elem_of_nil in Hin; destruct Hin|].
  change (cumulativeWeight 0 (first :: rest))
    with (cumulativeWeight (0 + DecisionOption.weight first) rest).
  rewrite ExactSelectionFacts.cumulative_shift.
  pose proof (Hpos first (list_elem_of_here _ _)) as Hfirst.
  assert (Hrest : ∀ o', o' ∈ rest → 0 < DecisionOption.weight o')
    by (intros o' Ho'; apply Hpos, list_elem_of_further, Ho').
  apply elem_of_cons in Hin as [->|Hin].
  - destruct rest as [|second rest].
    + cbn. lra.
    + pose proof (ExactSelectionFacts.cumulative_positive (second :: rest) Hrest
                    ltac:(discriminate)). lra.
  - specialize (IH Hrest Hin). lra.
Qed.

Lemma normalized_positive (randomized : list (DecisionOption.t Q)) o :
  (∀ o', o' ∈ randomized → 0 < DecisionOption.weight o') →
  0 < totalWeight randomized →
  o ∈ normalizedOptions randomized → 0 < DecisionOption.weight o.
Proof.
  intros Hpos Htotal Hin. unfold normalizedOptions in Hin.
  apply list_elem_of_fmap in Hin as (o' & -> & Hin').
  cbn [DecisionOption.withWeight DecisionOption.weight div Q_arith].
  apply Qlt_shift_div_l; [exact Htotal|]. rewrite Qmult_0_l. apply Hpos, Hin'.
Qed.

End ReasonFacts.

(** X29.  The Reason and Decide phases always yield a decision.  For draws
    in [[0, 1)] and any engine and observed state, reasoning returns a
    recommendation taken from the six generated options, and the decision
    made from it has the type and the reasoning text of that option, is made
    by and for the genesis agent, carries the identifier built from the
    random bytes, and has as its confidence the recommendation's selection
    weight, which lies in (0, 1]. *)
Theorem reason_and_decide_always_yield_a_decision :
  ∀ (g : GenesisAgent.t) (rnd : RandomSource Q) (state : SystemState.t)
    (idBytes : list Byte.byte) (now : Z),
    (∀ i, 0 <= rnd i ∧ rnd i < 1) →
    ∃ reasoning,
      GenesisAgent.reason g rnd state = Some reasoning
      ∧ Reasoning.options reasoning
        = DecisionEngine.generateOptions (GenesisAgent.decisionEngine g) state
      ∧ let decision := GenesisAgent.decide idBytes now reasoning in
        (∃ original,
           original ∈ Reasoning.options reasoning
           ∧ Decision.type decision = DecisionOption.type original
           ∧ Decision.reasoning decision = DecisionOption.reasoning original)
        ∧ Decision.confidence decision = Reasoning.confidence reasoning
        ∧ 0 < Decision.confidence decision
        ∧ Decision.confidence decision <= 1
        ∧ Decision.madeBy decision = "genesis_root"
        ∧ Decision.agentId decision = Some "genesis_root"
        ∧ Decision.id decision = "decision_" +:+ Js.toHex idBytes
        ∧ Decision.timestamp decision = now.
Proof.
  intros g rnd state idBytes now Hrnd.
  remember (DecisionEngine.generateOptions (GenesisAgent.decisionEngine g) state)
    as options eqn:Hoptions.
  assert (Hpos : ∀ o, o ∈ options → 0 < DecisionOption.weight o).
  { intros o Ho. rewrite Hoptions in Ho.
    pose proof (OptionFacts.option_weights_clamped _ _ _ Ho). lra. }
  assert (Hne : options ≠ []) by (rewrite Hoptions; discriminate).
  assert (Hsome : is_Some (DecisionEngine.selectDecision rnd options)).
  { destruct options as [|first rest]; [congruence|].
    apply SelectionFacts.selectDecision_nonempty. }
  destruct Hsome as [selected Hselect].
  pose proof (ExactSelectionFacts.randomized_positive rnd options Hrnd Hpos) as Hjitter.
  pose proof (ExactSelectionFacts.normalized_total rnd options Hrnd Hpos Hne) as Htotal.
  pose proof (ReasonFacts.selectDecision_elem rnd options selected Hselect) as Hin.
  assert (Hsum : 0 < DecisionEngine.totalWeight (DecisionEngine.randomizedOptions rnd options)).
  { apply ExactSelectionFacts.cumulative_positive; [exact Hjitter|].
    intros Hnil. apply (f_equal length) in Hnil.
    unfold DecisionEngine.randomizedOptions in Hnil. rewrite length_imap in Hnil.
    destruct options; [congruence|discriminate]. }
  pose proof (ReasonFacts.normalized_positive _ _ Hjitter Hsum Hin) as Hlow.
  assert (Hall : ∀ o, o ∈ DecisionEngine.normalizedOptions
                            (DecisionEngine.randomizedOptions rnd options) →
                      0 < DecisionOption.weight o)
    by (intros o Ho; eapply ReasonFacts.normalized_positive; eassumption).
  pose proof (ReasonFacts.member_le_cumulative _ _ Hall Hin) as Hhigh.
  rewrite Htotal in Hhigh.
  destruct (SelectionFacts.selectDecision_lookup rnd options selected Hselect)
    as (i & original & Hi & Hsel & _).
  unfold GenesisAgent.reason. rewrite <- Hoptions, Hselect.
  eexists. split; [reflexivity|]. split; [reflexivity|].
  cbn [GenesisAgent.decide Reasoning.recommendation Reasoning.confidence Reasoning.options
       DecisionEngine.createDecision Decision.type Decision.reasoning Decision.confidence
       Decision.madeBy Decision.agentId Decision.id Decision.timestamp].
  split.
  { exists original. split; [eapply list_elem_of_lookup_2, Hi|].
    rewrite Hsel. split; reflexivity. }
  repeat split; try reflexivity; assumption.
Qed.

Lemma reason_and_decide_always_yield_a_decision_witness :
  ∃ reasoning,
    GenesisAgent.reason (Samples.controller 0.5) (λ _, 0.5) (Samples.stateWith 2)
    = Some reasoning
    ∧ 0 < Decision.confidence (GenesisAgent.decide [Byte.x2a] 7 reasoning)
    ∧ Decision.id (GenesisAgent.decide [Byte.x2a] 7 reasoning) = "decision_2a".
Proof.
  destruct (reason_and_decide_always_yield_a_decision (Samples.controller 0.5) (λ _, 0.5)
              (Samples.stateWith 2) [Byte.x2a] 7 ltac:(intros i; split; lra))
    as (reasoning & Hreason & _ & _ & _ & Hpositive & _ & _ & _ & Hid & _).
  exists reasoning. split; [exact Hreason|]. split; [exact Hpositive|exact Hid].
Defined.
